(** * Metrics and managers of the cloud-organization segmentation harness

    A shallow embedding of [uco/model/metric.py] and [uco/runner.py].

    - [Py]     : the fragment of Python the two files rely on: values,
                 f-strings, exceptions.
    - [Torch]  : IEEE-754 arithmetic through [SpecFloat], Python and
                 tensor scalars, float32 tensors (size, strides and
                 contents), views, indexing, reductions.
    - [Metric] : the functions of [metric.py].
    - [World]  : the collaborators of the managers, the store of dict
                 objects and the trace of what a run does.
    - [Runner] : the managers of [runner.py].
    - [Props]  : the vocabulary of the properties.
    - [Inputs] : the inputs the properties are tried on.

    Definitions come first, the properties of the code after them. *)

From Stdlib Require Import ZArith Bool Lia.
From Stdlib Require Import Floats.SpecFloat.
From stdpp Require Import gmap strings list fin_maps.

Set Warnings "-register-all".
Open Scope Z_scope.

(** An IEEE-754 value of [SpecFloat], read as binary32 or as binary64. *)
Abbreviation f32 := spec_float.
Abbreviation f64 := spec_float.

(* ===================================================================== *)
(** * Python fragment                                                     *)
(* ===================================================================== *)

Module Py.

(** A reference to a dict object of the store. *)
Definition loc : Type := positive.

(** Values found in configurations and checkpoints. A dict is held by
    reference, so that two holders of one dict see each other's
    updates; [VBlob] is an opaque payload such as a state dict. *)
Inductive value : Type :=
| VNone
| VInt (z : Z)
| VFloat (x : f64)
| VStr (s : string)
| VTensor (x : f32)
| VList (l : list value)
| VRef (l : loc)
| VBlob (name : string).

(** An f-string: its literal pieces and the values it interpolates. *)
Inductive fmt : Type :=
| Lit (s : string)
| Fmt (v : value)
| FmtInts (l : list Z).

Definition message : Type := list fmt.

(** Exceptions that the modelled code can raise or let through.
    [Exception msg] is [raise Exception(msg)]; [Unsupported] marks an
    operation whose behaviour is outside the embedding. *)
Inductive exn : Type :=
| ZeroDivisionError
| IndexError
| ValueError
| KeyError (k : string)
| TypeError
| RuntimeError
| AttributeError (name : string)
| Exception (msg : message)
| External (what : string)
| Unsupported (what : string).

Inductive result (A : Type) : Type :=
| Ok (a : A)
| Raise (e : exn).
Arguments Ok {A} a.
Arguments Raise {A} e.

Definition bind {A B} (r : result A) (k : A -> result B) : result B :=
  match r with
  | Ok a => k a
  | Raise e => Raise e
  end.

End Py.

Import Py.

Notation "'let*' x := c 'in' k" := (Py.bind c (fun x => k))
  (at level 10, x name, c at level 100, k at level 200).
Notation "'let*' ' pat := c 'in' k" :=
  (Py.bind c (fun x => match x with pat => k end))
  (at level 10, pat pattern, c at level 100, k at level 200).

(* ===================================================================== *)
(** * Tensor library fragment                                             *)
(* ===================================================================== *)

Module Torch.

(** ** Floating point

    A float is an IEEE-754 value of [SpecFloat]. Tensors hold binary32
    values ([.float()] is [torch.float32]); Python floats are binary64. *)

Definition prec32 : Z := 24.
Definition emax32 : Z := 128.
Definition prec64 : Z := 53.
Definition emax64 : Z := 1024.

Definition f32_add : f32 -> f32 -> f32 := SFadd prec32 emax32.
Definition f32_mul : f32 -> f32 -> f32 := SFmul prec32 emax32.
Definition f32_div : f32 -> f32 -> f32 := SFdiv prec32 emax32.
Definition f64_add : f64 -> f64 -> f64 := SFadd prec64 emax64.
Definition f64_div : f64 -> f64 -> f64 := SFdiv prec64 emax64.

Definition f_eqb : spec_float -> spec_float -> bool := SFeqb.
Definition f_ltb : spec_float -> spec_float -> bool := SFltb.
Definition f_isnan (x : spec_float) : bool :=
  match x with S754_nan => true | _ => false end.

(** Rounding to nearest even into binary32: the conversion torch applies
    to a Python scalar that meets a float32 tensor. *)
Definition f32_of_f64 (x : f64) : f32 :=
  match x with
  | S754_finite s m e => binary_round prec32 emax32 s m e
  | _ => x
  end.

(** A binary32 value read as a binary64 one ([.item()]); exact. *)
Definition f64_of_f32 (x : f32) : f64 :=
  match x with
  | S754_finite s m e => binary_round prec64 emax64 s m e
  | _ => x
  end.

Definition f32_of_Z (z : Z) : f32 := binary_normalize prec32 emax32 z 0 false.
Definition f64_of_Z (z : Z) : f64 := binary_normalize prec64 emax64 z 0 false.

Definition f32_zero : f32 := S754_zero false.
Definition f32_one : f32 := S754_finite false 8388608 (-23).
Definition f32_inf : f32 := S754_infinity false.
Definition f64_zero : f64 := S754_zero false.
Definition f64_inf : f64 := S754_infinity false.

(** Python float literals of [metric.py], as binary64 values. *)
Definition lit_0_0 : f64 := S754_zero false.
Definition lit_2_0 : f64 := S754_finite false 4503599627370496 (-51).
Definition lit_0_20 : f64 := S754_finite false 7205759403792794 (-55).
Definition lit_0_30 : f64 := S754_finite false 5404319552844595 (-54).
Definition lit_0_40 : f64 := S754_finite false 7205759403792794 (-54).
Definition lit_0_50 : f64 := S754_finite false 4503599627370496 (-53).
Definition lit_0_60 : f64 := S754_finite false 5404319552844595 (-53).
Definition lit_0_70 : f64 := S754_finite false 6305039478318694 (-53).
Definition lit_0_80 : f64 := S754_finite false 7205759403792794 (-53).
Definition lit_1e_9 : f64 := S754_finite false 4835703278458517 (-82).

(** ** Python and tensor scalars

    What an arithmetic expression of [metric.py] evaluates to: a Python
    [int], a Python [float], or a zero-dimensional float32 tensor. *)
Inductive num : Type :=
| PyInt (z : Z)
| PyFloat (x : f64)
| Scalar (x : f32).

(** The operand of a float32 tensor operation, as float32. *)
Definition as_f32 (n : num) : f32 :=
  match n with
  | PyInt z => f32_of_Z z
  | PyFloat x => f32_of_f64 x
  | Scalar x => x
  end.

Definition as_f64 (n : num) : f64 :=
  match n with
  | PyInt z => f64_of_Z z
  | PyFloat x => x
  | Scalar x => f64_of_f32 x
  end.

Definition is_scalar (n : num) : bool :=
  match n with Scalar _ => true | _ => false end.

(** [a + b]: a tensor operand makes the sum a float32 tensor; Python
    numbers add as Python does. *)
Definition num_add (a b : num) : num :=
  match a, b with
  | PyInt x, PyInt y => PyInt (x + y)
  | Scalar _, _ | _, Scalar _ => Scalar (f32_add (as_f32 a) (as_f32 b))
  | _, _ => PyFloat (f64_add (as_f64 a) (as_f64 b))
  end.

Definition num_mul (a b : num) : num :=
  match a, b with
  | PyInt x, PyInt y => PyInt (x * y)
  | Scalar _, _ | _, Scalar _ => Scalar (f32_mul (as_f32 a) (as_f32 b))
  | _, _ => PyFloat (SFmul prec64 emax64 (as_f64 a) (as_f64 b))
  end.

(** [a / b], true division. A tensor operand divides by IEEE rules and
    never raises; between Python numbers a zero divisor raises
    [ZeroDivisionError]. The quotient of two ints is the binary64
    quotient of their conversions, which is CPython's correctly rounded
    result for operands below [2^53] in magnitude. *)
Definition num_truediv (a b : num) : result num :=
  match a, b with
  | Scalar _, _ | _, Scalar _ => Ok (Scalar (f32_div (as_f32 a) (as_f32 b)))
  | _, PyInt z =>
      if z =? 0 then Raise ZeroDivisionError
      else Ok (PyFloat (f64_div (as_f64 a) (f64_of_Z z)))
  | _, PyFloat y =>
      if f_eqb y f64_zero then Raise ZeroDivisionError
      else Ok (PyFloat (f64_div (as_f64 a) y))
  end.

(** ** Tensors

    A tensor is its size, its strides and its elements in the order of
    their indices (row-major). The strides say how the elements lie in
    memory: they play no part in the values computed, and decide whether
    the tensor can be viewed with another size. Devices play no part. *)
Record tensor (A : Type) : Type := mkStrided {
  shape : list nat;
  strides : list nat;
  data : list A
}.
Arguments mkStrided {A} shape strides data.
Arguments shape {A} t.
Arguments strides {A} t.
Arguments data {A} t.

Definition numel_of (s : list nat) : nat := foldr Nat.mul 1%nat s.
Definition numel {A} (t : tensor A) : nat := numel_of (shape t).

(** The strides of a tensor that torch allocates: each is the product
    of the sizes to its right, where a size 0 counts as 1. *)
Fixpoint row_major (s : list nat) : list nat :=
  match s with
  | [] => []
  | _ :: rest =>
      foldr (fun n acc => (Nat.max n 1 * acc)%nat) 1%nat rest :: row_major rest
  end.

(** A tensor as torch allocates it. *)
Definition mkTensor {A} (shape : list nat) (data : list A) : tensor A :=
  mkStrided shape (row_major shape) data.

(** Every tensor the library builds has as many elements as its size
    says. *)
Definition well_formed {A} (t : tensor A) : Prop :=
  length (data t) = numel t.

(** An elementwise operation allocates its result. The layout torch
    gives the result can follow the layout of the operand; [metric.py]
    takes no view of a result, and the layout recorded is the row-major
    one. *)
Definition tmap {A B} (f : A -> B) (t : tensor A) : tensor B :=
  mkTensor (shape t) (f <$> data t).

(** Elementwise binary operation. Every call in [metric.py] has
    operands of one size, which is the case embedded; sizes that differ
    (torch broadcasts them when compatible and raises otherwise) are
    [Unsupported]. *)
Definition tzip {A B C} (f : A -> B -> C) (x : tensor A) (y : tensor B)
  : result (tensor C) :=
  if decide (shape x = shape y)
  then Ok (mkTensor (shape x) (zip_with f (data x) (data y)))
  else Raise (Unsupported "broadcast").

Definition tdiv : tensor f32 -> tensor f32 -> result (tensor f32) := tzip f32_div.
Definition tmul : tensor f32 -> tensor f32 -> result (tensor f32) := tzip f32_mul.

(** [t > s], [t == s] with a Python scalar [s]: compared in float32. *)
Definition gt_scalar (t : tensor f32) (s : num) : tensor bool :=
  tmap (fun x => f_ltb (as_f32 s) x) t.
Definition eq_scalar (t : tensor f32) (s : num) : tensor bool :=
  tmap (fun x => f_eqb x (as_f32 s)) t.
Definition isnan (t : tensor f32) : tensor bool := tmap f_isnan t.

(** [.float()] of a boolean tensor. *)
Definition bool_to_f32 (b : bool) : f32 := if b then f32_one else f32_zero.
Definition float (t : tensor bool) : tensor f32 := tmap bool_to_f32 t.

(** [torch.sum(mask).item()]: an int64 count, as a Python int. *)
Definition count_true (t : tensor bool) : Z :=
  Z.of_nat (length (filter (fun b => b = true) (data t))).

(** [t.sum()] of a float32 tensor: a zero-dimensional float32 tensor,
    accumulated in float32. The order of accumulation is taken from the
    left; it plays no part where the partial sums are exact, as they are
    for a mask of up to [2^24] ones. *)
Definition fsum (l : list f32) : f32 := foldl f32_add f32_zero l.
Definition sum (t : tensor f32) : num := Scalar (fsum (data t)).

(** The dimensions with more than one index, each with its stride. *)
Definition proper_dims (shape strides : list nat) : list (nat * nat) :=
  filter (fun ns => ns.1 <> 1%nat) (zip shape strides).

(** Each stride is the extent of the dimension to its right. *)
Fixpoint chained (dims : list (nat * nat)) : bool :=
  match dims with
  | (_, s1) :: rest =>
      match rest with
      | (n2, s2) :: _ => (s1 =? n2 * s2)%nat && chained rest
      | [] => true
      end
  | [] => true
  end.

(** Whether a tensor of this size and these strides can be viewed with
    one dimension: it has no element, or its dimensions of more than one
    index lie in memory as one run, each stride being the extent of the
    dimension to its right. *)
Definition can_view (shape strides : list nat) : bool :=
  (numel_of shape =? 0)%nat || chained (proper_dims shape strides).

Definition viewable {A} (t : tensor A) : bool := can_view (shape t) (strides t).

(** The stride of the view: that of the last dimension of more than one
    index. *)
Definition flat_stride (shape strides : list nat) : nat :=
  if (numel_of shape =? 0)%nat
  then match shape, strides with
       | [_], [s] => s
       | _, _ => 1%nat
       end
  else match last (proper_dims shape strides) with
       | Some (_, s) => s
       | None => default 1%nat (last strides)
       end.

(** [t.view(-1)]: the same elements with one dimension. A view shares
    the memory of the tensor; where the strides do not allow it,
    [view] raises [RuntimeError]. *)
Definition view_flat {A} (t : tensor A) : result (tensor A) :=
  if viewable t
  then Ok (mkStrided [length (data t)] [flat_stride (shape t) (strides t)] (data t))
  else Raise RuntimeError.

(** A Python index into a dimension of size [n]: negative indices count
    from the end. *)
Definition norm_index (i : Z) (n : nat) : result nat :=
  if decide (0 <= i < Z.of_nat n) then Ok (Z.to_nat i)
  else if decide (- Z.of_nat n <= i < 0) then Ok (Z.to_nat (i + Z.of_nat n))
  else Raise IndexError.

Definition slice {A} (l : list A) (start len : nat) : list A :=
  take len (drop start l).

(** [t[:, c]]: drops dimension 1; the other dimensions keep their
    strides. *)
Definition select_dim1 {A} (t : tensor A) (c : Z) : result (tensor A) :=
  match shape t with
  | b :: ch :: rest =>
      let* k := norm_index c ch in
      let r := numel_of rest in
      Ok (mkStrided (b :: rest) (take 1 (strides t) ++ drop 2 (strides t))
            (concat ((fun i => slice (data t) ((i * ch + k) * r) r) <$> seq 0 b)))
  | _ => Raise IndexError
  end.

(** [t[b, c, :, :]]: drops dimensions 0 and 1 of a tensor of at least
    four dimensions; the other dimensions keep their strides. *)
Definition index_bc {A} (t : tensor A) (b c : Z) : result (tensor A) :=
  match shape t with
  | bs :: ch :: h :: w :: rest =>
      let* i := norm_index b bs in
      let* k := norm_index c ch in
      let r := numel_of (h :: w :: rest) in
      Ok (mkStrided (h :: w :: rest) (drop 2 (strides t))
            (slice (data t) ((i * ch + k) * r) r))
  | _ => Raise IndexError
  end.

(** Whether the slices [t[b, c, :, :]] can be viewed with one
    dimension. *)
Definition planes_viewable {A} (t : tensor A) : bool :=
  can_view (drop 2 (shape t)) (drop 2 (strides t)).

(** [B, C, H, W = t.size()]. *)
Definition size4 {A} (t : tensor A) : result (nat * nat * nat * nat) :=
  match shape t with
  | [b; c; h; w] => Ok (b, c, h, w)
  | _ => Raise ValueError
  end.

End Torch.

Import Torch.

(* ===================================================================== *)
(** * metric.py                                                           *)
(* ===================================================================== *)

Module Metric.

(** Default of the [threshold] keyword argument. *)
Definition default_threshold : num := PyFloat lit_0_50.
(** Default of the [eps] keyword argument of [dice_single_channel]. *)
Definition default_eps : num := PyFloat lit_1e_9.

Definition dice_single_channel (probability truth : tensor f32)
    (threshold eps : num) : result num :=
  let* flat := view_flat probability in
  let p := float (gt_scalar flat threshold) in
  let* flat := view_flat truth in
  let t := float (gt_scalar flat (PyFloat lit_0_50)) in
  let* pt := tmul p t in
  num_truediv
    (num_add (num_mul (PyFloat lit_2_0) (sum pt)) eps)
    (num_add (num_add (sum p) (sum t)) eps).

(** The body of [for b in range(B): total += ...], from [b] on. *)
Fixpoint dice_loop (c : Z) (output targets : tensor f32) (threshold : num)
    (bs : list nat) (total : num) : result num :=
  match bs with
  | [] => Ok total
  | b :: bs' =>
      let* o := index_bc output (Z.of_nat b) c in
      let* t := index_bc targets (Z.of_nat b) c in
      let* d := dice_single_channel o t threshold default_eps in
      dice_loop c output targets threshold bs' (num_add total d)
  end.

Definition dice_c (c : Z) (output targets : tensor f32) (threshold : num)
  : result num :=
  let* '(B, C, H, W) := size4 targets in
  let total := PyFloat lit_0_0 in
  let* total := dice_loop c output targets threshold (seq 0 B) total in
  num_truediv total (PyInt (Z.of_nat B)).

Definition dice_0 (output targets : tensor f32) (threshold : num) : result num :=
  dice_c 0 output targets threshold.
Definition dice_1 (output targets : tensor f32) (threshold : num) : result num :=
  dice_c 1 output targets threshold.
Definition dice_2 (output targets : tensor f32) (threshold : num) : result num :=
  dice_c 2 output targets threshold.
Definition dice_3 (output targets : tensor f32) (threshold : num) : result num :=
  dice_c 3 output targets threshold.

Definition dice_mean (output targets : tensor f32) (threshold : num) : result num :=
  let* d0 := dice_0 output targets threshold in
  let* d1 := dice_1 output targets threshold in
  let* d2 := dice_2 output targets threshold in
  let* d3 := dice_3 output targets threshold in
  num_truediv (num_add (num_add (num_add d0 d1) d2) d3) (PyInt 4).

Definition _confusion (prediction truth : tensor f32) : result (Z * Z * Z * Z) :=
  let* confusion_vector := tdiv prediction truth in
  let true_positives := count_true (eq_scalar confusion_vector (PyInt 1)) in
  let false_positives := count_true (eq_scalar confusion_vector (PyFloat f64_inf)) in
  let true_negatives := count_true (isnan confusion_vector) in
  let false_negatives := count_true (eq_scalar confusion_vector (PyInt 0)) in
  Ok (true_positives, false_positives, true_negatives, false_negatives).

Definition precision (output targets : tensor f32) (class_ : Z) (threshold : num)
  : result num :=
  let* sel := select_dim1 output class_ in
  let preds := float (gt_scalar sel threshold) in
  let* tgt := select_dim1 targets class_ in
  let* '(tp, fp, tn, fn) := _confusion preds tgt in
  if (tp =? 0) && (fp =? 0) then Ok (PyInt 1)
  else num_truediv (PyInt tp) (num_add (PyInt tp) (PyInt fp)).

Definition precision_0 (output targets : tensor f32) (threshold : num) : result num :=
  precision output targets 0 threshold.
Definition precision_1 (output targets : tensor f32) (threshold : num) : result num :=
  precision output targets 1 threshold.
Definition precision_2 (output targets : tensor f32) (threshold : num) : result num :=
  precision output targets 2 threshold.
Definition precision_3 (output targets : tensor f32) (threshold : num) : result num :=
  precision output targets 3 threshold.

Definition recall (output targets : tensor f32) (class_ : Z) (threshold : num)
  : result num :=
  let* sel := select_dim1 output class_ in
  let preds := float (gt_scalar sel threshold) in
  let* tgt := select_dim1 targets class_ in
  let* '(tp, fp, tn, fn) := _confusion preds tgt in
  if (tp =? 0) && (fn =? 0) then Ok (PyInt 1)
  else num_truediv (PyInt tp) (num_add (PyInt tp) (PyInt fn)).

Definition recall_0 (output targets : tensor f32) (threshold : num) : result num :=
  recall output targets 0 threshold.
Definition recall_1 (output targets : tensor f32) (threshold : num) : result num :=
  recall output targets 1 threshold.
Definition recall_2 (output targets : tensor f32) (threshold : num) : result num :=
  recall output targets 2 threshold.
Definition recall_3 (output targets : tensor f32) (threshold : num) : result num :=
  recall output targets 3 threshold.

(** [functools.partial(f, threshold=t)], called as [g(output, targets)]. *)
Definition partial (f : tensor f32 -> tensor f32 -> num -> result num)
    (threshold : num) : tensor f32 -> tensor f32 -> result num :=
  fun output targets => f output targets threshold.

Definition precision_0_20 := partial precision_0 (PyFloat lit_0_20).
Definition precision_0_30 := partial precision_0 (PyFloat lit_0_30).
Definition precision_0_40 := partial precision_0 (PyFloat lit_0_40).
Definition precision_0_50 := partial precision_0 (PyFloat lit_0_50).
Definition precision_0_60 := partial precision_0 (PyFloat lit_0_60).
Definition precision_0_70 := partial precision_0 (PyFloat lit_0_70).
Definition precision_0_80 := partial precision_0 (PyFloat lit_0_80).

Definition precision_1_20 := partial precision_1 (PyFloat lit_0_20).
Definition precision_1_30 := partial precision_1 (PyFloat lit_0_30).
Definition precision_1_40 := partial precision_1 (PyFloat lit_0_40).
Definition precision_1_50 := partial precision_1 (PyFloat lit_0_50).
Definition precision_1_60 := partial precision_1 (PyFloat lit_0_60).
Definition precision_1_70 := partial precision_1 (PyFloat lit_0_70).
Definition precision_1_80 := partial precision_1 (PyFloat lit_0_80).

Definition precision_2_20 := partial precision_2 (PyFloat lit_0_20).
Definition precision_2_30 := partial precision_2 (PyFloat lit_0_30).
Definition precision_2_40 := partial precision_2 (PyFloat lit_0_40).
Definition precision_2_50 := partial precision_2 (PyFloat lit_0_50).
Definition precision_2_60 := partial precision_2 (PyFloat lit_0_60).
Definition precision_2_70 := partial precision_2 (PyFloat lit_0_70).
Definition precision_2_80 := partial precision_2 (PyFloat lit_0_80).

Definition precision_3_20 := partial precision_3 (PyFloat lit_0_20).
Definition precision_3_30 := partial precision_3 (PyFloat lit_0_30).
Definition precision_3_40 := partial precision_3 (PyFloat lit_0_40).
Definition precision_3_50 := partial precision_3 (PyFloat lit_0_50).
Definition precision_3_60 := partial precision_3 (PyFloat lit_0_60).
Definition precision_3_70 := partial precision_3 (PyFloat lit_0_70).
Definition precision_3_80 := partial precision_3 (PyFloat lit_0_80).

Definition recall_0_20 := partial recall_0 (PyFloat lit_0_20).
Definition recall_0_30 := partial recall_0 (PyFloat lit_0_30).
Definition recall_0_40 := partial recall_0 (PyFloat lit_0_40).
Definition recall_0_50 := partial recall_0 (PyFloat lit_0_50).
Definition recall_0_60 := partial recall_0 (PyFloat lit_0_60).
Definition recall_0_70 := partial recall_0 (PyFloat lit_0_70).
Definition recall_0_80 := partial recall_0 (PyFloat lit_0_80).

Definition recall_1_20 := partial recall_1 (PyFloat lit_0_20).
Definition recall_1_30 := partial recall_1 (PyFloat lit_0_30).
Definition recall_1_40 := partial recall_1 (PyFloat lit_0_40).
Definition recall_1_50 := partial recall_1 (PyFloat lit_0_50).
Definition recall_1_60 := partial recall_1 (PyFloat lit_0_60).
Definition recall_1_70 := partial recall_1 (PyFloat lit_0_70).
Definition recall_1_80 := partial recall_1 (PyFloat lit_0_80).

Definition recall_2_20 := partial recall_2 (PyFloat lit_0_20).
Definition recall_2_30 := partial recall_2 (PyFloat lit_0_30).
Definition recall_2_40 := partial recall_2 (PyFloat lit_0_40).
Definition recall_2_50 := partial recall_2 (PyFloat lit_0_50).
Definition recall_2_60 := partial recall_2 (PyFloat lit_0_60).
Definition recall_2_70 := partial recall_2 (PyFloat lit_0_70).
Definition recall_2_80 := partial recall_2 (PyFloat lit_0_80).

Definition recall_3_20 := partial recall_3 (PyFloat lit_0_20).
Definition recall_3_30 := partial recall_3 (PyFloat lit_0_30).
Definition recall_3_40 := partial recall_3 (PyFloat lit_0_40).
Definition recall_3_50 := partial recall_3 (PyFloat lit_0_50).
Definition recall_3_60 := partial recall_3 (PyFloat lit_0_60).
Definition recall_3_70 := partial recall_3 (PyFloat lit_0_70).
Definition recall_3_80 := partial recall_3 (PyFloat lit_0_80).

End Metric.

(* ===================================================================== *)
(** * Collaborators, store and trace                                      *)
(* ===================================================================== *)

Module World.

(** ** Objects of the collaborators

    The managers only pass objects around and call into collaborators;
    an object is recorded as the calls that made it. *)

Inductive device : Type :=
| Cpu                          (* torch.device("cpu") *)
| Cuda (index : Z)             (* torch.device(f"cuda:{index}") *)
| DeviceSpec (spec : value).   (* torch.device(spec) *)

Inductive obj : Type :=
| OVal (v : value)
| ODevice (d : device)
| OList (l : list obj)
| ODict (d : gmap string obj)
| Attr (module name : string)                        (* getattr(module, name) *)
| New (module name : string) (args : list obj) (kwargs : gmap string obj)
                                                     (* the class of that name, instantiated *)
| To (o : obj) (d : device)                          (* o after o.to(d) *)
| DataParallel (module : obj) (device_ids : list Z)  (* nn.DataParallel(module, device_ids=...) *)
| LoadStateDict (o : obj) (state : value)            (* o after o.load_state_dict(state) *)
| Method (o : obj) (name : string) (args : list obj) (* a method call on o *)
| Call (f : string) (args : list obj).               (* a function call *)

Inductive level : Type := Info | Warning | Critical.

(** What a run does to the outside, in order. *)
Inductive event : Type :=
| EvLog (lvl : level) (msg : message)
| EvLogObj (lvl : level) (o : obj)
| EvCall (module name : string)     (* a class looked up by name is instantiated *)
| EvTorchLoad (path : string)
| EvSetCudaDevice (d : device)
| EvCudnnBenchmark
| EvWrite (writer output : obj)
| EvTrain (trainer : obj).

(** The collaborators, as far as the managers depend on them. *)
Record env : Type := mkEnv {
  cuda_device_count : nat;                         (* torch.cuda.device_count() *)
  has_attr : string -> string -> bool;             (* hasattr(module, name) *)
  ctor_raises : string -> string -> list obj -> gmap string obj -> option exn;
                                                   (* what a constructor call raises, if anything *)
  torch_load : string -> result value;             (* torch.load(path): the checkpoint dict *)
  cuda_set_device_raises : device -> option exn;   (* torch.cuda.set_device(device) *)
  named_parameters : obj -> list (string * obj);   (* module.named_parameters() *)
  batches : obj -> list obj;                       (* the data items a loader yields *)
  dataset_name_of : string -> string;              (* Path(p).parent.parent.name *)
  train_result : obj -> result value               (* trainer.train() *)
}.

(** ** Store and trace

    [heap] holds the dict objects; the dicts a checkpoint file
    deserialises to are in it from the start and [torch_load] hands out
    the reference. *)
Record state : Type := mkState {
  heap : gmap loc (gmap string value);
  trace : list event
}.

Definition M (A : Type) : Type := state -> state * result A.

Definition ret {A} (a : A) : M A := fun s => (s, Ok a).
Definition raise {A} (e : exn) : M A := fun s => (s, Raise e).
Definition lift {A} (r : result A) : M A := fun s => (s, r).
Definition mbind {A B} (m : M A) (k : A -> M B) : M B :=
  fun s =>
    match m s with
    | (s', Ok a) => k a s'
    | (s', Raise e) => (s', Raise e)
    end.

(** [try: m except: handler]. *)
Definition try_except {A} (m handler : M A) : M A :=
  fun s =>
    match m s with
    | (s', Ok a) => (s', Ok a)
    | (s', Raise _) => handler s'
    end.

Definition emit (e : event) : M unit :=
  fun s => (mkState (heap s) (trace s ++ [e]), Ok tt).

End World.

Import World.

Notation "'let!' x := c 'in' k" := (World.mbind c (fun x => k))
  (at level 10, x name, c at level 100, k at level 200).
Notation "'let!' ' pat := c 'in' k" :=
  (World.mbind c (fun x => match x with pat => k end))
  (at level 10, pat pattern, c at level 100, k at level 200).
Notation "c ;;! k" := (World.mbind c (fun _ => k))
  (at level 100, k at level 200, right associativity).

(* ===================================================================== *)
(** * runner.py                                                           *)
(* ===================================================================== *)

Module Runner.

(** [module.__name__] of the collaborator modules. *)
Definition module_optimizer : string := "uco.model.optimizer".
Definition module_scheduler : string := "uco.model.scheduler".
Definition module_aug : string := "uco.data_loader.augmentation".
Definition module_data : string := "uco.data_loader.data_loaders".
Definition module_loss : string := "uco.model.loss".
Definition module_metric : string := "uco.model.metric".
Definition module_arch : string := "uco.model.model".
Definition tta : string := "ttach".
Definition h5 : string := "uco.h5".

(** ** Python operations on values *)

(** [v[k]] with a string key. *)
Definition getitem (v : value) (k : string) : M value :=
  fun s =>
    match v with
    | VRef l =>
        match heap s !! l with
        | Some d =>
            match d !! k with
            | Some x => (s, Ok x)
            | None => (s, Raise (KeyError k))
            end
        | None => (s, Raise (Unsupported "dangling reference"))
        end
    | VBlob _ => (s, Raise (Unsupported "subscript of an opaque payload"))
    | _ => (s, Raise TypeError)
    end.

(** [v[k] = x] with a string key. *)
Definition setitem (v : value) (k : string) (x : value) : M unit :=
  fun s =>
    match v with
    | VRef l =>
        match heap s !! l with
        | Some d => (mkState (<[l := <[k := x]> d]> (heap s)) (trace s), Ok tt)
        | None => (s, Raise (Unsupported "dangling reference"))
        end
    | VBlob _ => (s, Raise (Unsupported "subscript of an opaque payload"))
    | _ => (s, Raise TypeError)
    end.

(** [d.copy()] of a dict: a new dict object with the same entries; a
    nested dict is an entry by reference and stays shared. *)
Definition dict_copy (v : value) : M value :=
  fun s =>
    match v with
    | VRef l =>
        match heap s !! l with
        | Some d =>
            let l' := fresh (dom (heap s)) in
            (mkState (<[l' := d]> (heap s)) (trace s), Ok (VRef l'))
        | None => (s, Raise (Unsupported "dangling reference"))
        end
    | _ => (s, Raise (Unsupported "copy of a value that is not a dict"))
    end.

(** The entries of a dict unpacked as keyword arguments. *)
Definition unpack (v : value) : M (gmap string obj) :=
  fun s =>
    match v with
    | VRef l =>
        match heap s !! l with
        | Some d => (s, Ok (OVal <$> d))
        | None => (s, Raise (Unsupported "dangling reference"))
        end
    | _ => (s, Raise TypeError)
    end.

(** [a != b]; embedded for strings, which is what type names are. *)
Definition py_ne (a b : value) : result bool :=
  match a, b with
  | VStr x, VStr y => Ok (negb (String.eqb x y))
  | _, _ => Raise (Unsupported "comparison of values that are not strings")
  end.

(** The order of an int [z] and a float [x], which Python finds on the
    exact values, without rounding the int: [x] is [v * 2^e], and the
    two are compared as integers after scaling by the power of two.
    [None] when the float is NaN. *)
Definition cmp_int_float (z : Z) (x : f64) : option comparison :=
  match x with
  | S754_nan => None
  | S754_infinity s => Some (if s then Gt else Lt)
  | S754_zero _ => Some (z ?= 0)
  | S754_finite s m e =>
      let v := if s then Z.neg m else Z.pos m in
      Some (if 0 <=? e then z ?= v * 2 ^ e else z * 2 ^ (- e) ?= v)
  end.

(** [a < b]. Numbers are ordered by value, strings by their characters;
    a number against a string, and [None] or a dict against anything,
    raise [TypeError]. The orders of tensors, lists and opaque payloads
    are outside the embedding. *)
Definition py_lt (a b : value) : result bool :=
  match a, b with
  | VTensor _, _ | _, VTensor _ => Raise (Unsupported "order of a tensor")
  | VList _, _ | _, VList _ => Raise (Unsupported "order of a list")
  | VBlob _, _ | _, VBlob _ => Raise (Unsupported "order of an opaque payload")
  | VInt x, VInt y => Ok (x <? y)
  | VInt x, VFloat y => Ok (bool_decide (cmp_int_float x y = Some Lt))
  | VFloat x, VInt y => Ok (bool_decide (cmp_int_float y x = Some Gt))
  | VFloat x, VFloat y => Ok (f_ltb x y)
  | VStr x, VStr y => Ok (String.ltb x y)
  | _, _ => Raise TypeError
  end.

(** [torch.device(f"cuda:{index}")]. The device string holds the index
    in decimal; with a negative index it is no device string, and
    [torch.device] raises [RuntimeError]. *)
Definition cuda_device (index : Z) : result device :=
  if index <? 0 then Raise RuntimeError else Ok (Cuda index).

(** [nn.DataParallel(module, device_ids=ids)] over indices of devices;
    what the class does with an index that is no device is outside the
    embedding. *)
Definition data_parallel (module : obj) (device_ids : list Z) : result obj :=
  if forallb (fun i => 0 <=? i) device_ids
  then Ok (DataParallel module device_ids)
  else Raise (Unsupported "replication over an index that is no device").

(** A config entry read as [List[int]]; [None] is as falsy as [[]]. *)
Fixpoint ints_of (l : list value) : result (list Z) :=
  match l with
  | [] => Ok []
  | VInt z :: l' => let* zs := ints_of l' in Ok (z :: zs)
  | _ => Raise (Unsupported "device index that is not an int")
  end.

Definition int_list (v : value) : result (list Z) :=
  match v with
  | VNone => Ok []
  | VList l => ints_of l
  | _ => Raise (Unsupported "device list that is not a list")
  end.

(** [max(l)] of a non-empty list. *)
Definition max_list (l : list Z) : Z := foldr Z.max (hd 0 l) l.

(** The double quote character, as a string. *)
Definition dquote : string := String (Ascii.ascii_of_nat 34) EmptyString.

(** [name.endswith(suffix)]. *)
Definition endswith (name suffix : string) : bool :=
  let n := String.length name in
  let k := String.length suffix in
  if (k <=? n)%nat then String.eqb (String.substring (n - k) k name) suffix else false.

Section Managers.

Variable E : env.

(** The attribute [name] of a module, where [name] is a value. *)
Definition getattr (module : string) (name : value) : M string :=
  match name with
  | VStr n => if has_attr E module n then ret n else raise (AttributeError n)
  | _ => raise TypeError
  end.

(** A call of the class [name] of [module]. *)
Definition construct (module name : string) (args : list obj)
    (kwargs : gmap string obj) : M obj :=
  emit (EvCall module name) ;;!
  match ctor_raises E module name args kwargs with
  | Some e => raise e
  | None => ret (New module name args kwargs)
  end.

(** ** ManagerBase

    A manager holds, as [self.cfg], the dict it was constructed with:
    [__init__] stores the reference it is given. *)

Record manager : Type := mkManager { cfg : value }.

Definition get_instance (module name : string) (config : value)
    (args : list obj) : M obj :=
  let! block := getitem config name in
  let! ctor_name := getitem block "type" in
  emit (EvLog Info [Lit "Building: "; Lit module; Lit "."; Fmt ctor_name]) ;;!
  let! ctor := getattr module ctor_name in
  let! block := getitem config name in
  let! kw := getitem block "args" in
  let! kwargs := unpack kw in
  construct module ctor args kwargs.

Definition setup_device (model : obj) (target_devices : list Z)
  : M (obj * device) :=
  let available_devices := Z.of_nat <$> seq 0 (cuda_device_count E) in
  if bool_decide (available_devices = []) then
    emit (EvLog Warning
      [Lit "There's no GPU available on this machine. Training will be performed on CPU."]) ;;!
    let device := Cpu in
    let model := To model device in
    ret (model, device)
  else if bool_decide (target_devices = []) then
    emit (EvLog Info [Lit "No GPU selected. Training will be performed on CPU."]) ;;!
    let device := Cpu in
    let model := To model device in
    ret (model, device)
  else
    let max_target_gpu := max_list target_devices in
    let max_available_gpu := max_list available_devices in
    if max_available_gpu <? max_target_gpu then
      let msg :=
        [Lit "Configuration requests GPU #"; Fmt (VInt max_target_gpu);
         Lit " but only  "; Fmt (VInt max_available_gpu);
         Lit " available. Check the configuration and try again."] in
      emit (EvLog Critical msg) ;;!
      raise (Exception msg)
    else
      emit (EvLog Info
        [Lit "Using devices "; FmtInts target_devices;
         Lit " of available devices "; FmtInts available_devices]) ;;!
      let! device := lift (cuda_device (hd 0 target_devices)) in
      if (1 <? length target_devices)%nat
      then
        let! model := lift (data_parallel model target_devices) in
        ret (model, device)
      else ret (To model device, device).

(** ** TrainingManager *)

Definition setup_param_groups_classifier (model : obj) (config : value)
  : M obj :=
  let params := named_parameters E model in
  let bias_params := snd <$> filter (fun np => endswith np.1 "bias" = true) params in
  let weight_params := snd <$> filter (fun np => endswith np.1 "bias" <> true) params in
  emit (EvLog Info
    [Lit "Found "; Fmt (VInt (Z.of_nat (length weight_params))); Lit " weight params"]) ;;!
  emit (EvLog Info
    [Lit "Found "; Fmt (VInt (Z.of_nat (length bias_params))); Lit " bias params"]) ;;!
  let! a := getitem config "args" in
  let! opts_w := unpack a in
  let! a := getitem config "args" in
  let! opts_b := unpack a in
  ret (OList [ODict (opts_w ∪ {["params" := OList weight_params]});
              ODict (opts_b ∪ {["params" := OList bias_params]})]).

Definition resume_checkpoint (resume_path : option string)
    (model optimizer : obj) (config : value) : M (obj * obj * value) :=
  match resume_path with
  | None | Some EmptyString => ret (model, optimizer, VInt 0)
  | Some path =>
      emit (EvLog Info [Lit "Loading checkpoint: "; Fmt (VStr path)]) ;;!
      emit (EvTorchLoad path) ;;!
      let! checkpoint := lift (torch_load E path) in
      let! sd := getitem checkpoint "state_dict" in
      let model := LoadStateDict model sd in
      let! ck_cfg := getitem checkpoint "config" in
      let! ck_opt := getitem ck_cfg "optimizer" in
      let! ck_type := getitem ck_opt "type" in
      let! opt := getitem config "optimizer" in
      let! type := getitem opt "type" in
      let! changed := lift (py_ne ck_type type) in
      let! optimizer :=
        if changed : bool then
          emit (EvLog Warning
            [Lit "Warning: Optimizer type given in config file is different from that of checkpoint. Optimizer parameters not being resumed."]) ;;!
          ret optimizer
        else
          let! osd := getitem checkpoint "optimizer" in
          ret (LoadStateDict optimizer osd) in
      emit (EvLog Info
        [Lit "Checkpoint "; Lit dquote; Fmt (VStr path); Lit dquote; Lit " loaded"]) ;;!
      let! epoch := getitem checkpoint "epoch" in
      ret (model, optimizer, epoch)
  end.

(** [[getattr(module_metric, met) for met in metrics]]. *)
Fixpoint metric_handles (metrics : list value) : M (list obj) :=
  match metrics with
  | [] => ret []
  | met :: rest =>
      let! name := getattr module_metric met in
      let! handles := metric_handles rest in
      ret (Attr module_metric name :: handles)
  end.

Definition training_run (self : manager) (resume : option string) : M value :=
  let! cfg := dict_copy (cfg self) in
  let! model := get_instance module_arch "arch" cfg [] in
  let! td := getitem cfg "target_devices" in
  let! target_devices := lift (int_list td) in
  let! '(model, device) := setup_device model target_devices in
  emit EvCudnnBenchmark ;;!
  let! opt := getitem cfg "optimizer" in
  let! param_groups := setup_param_groups_classifier model opt in
  let! optimizer := get_instance module_optimizer "optimizer" cfg [param_groups] in
  let! lr_scheduler := get_instance module_scheduler "lr_scheduler" cfg [optimizer] in
  let! '(model, optimizer, start_epoch) :=
    resume_checkpoint resume model optimizer cfg in
  let! transforms :=
    try_except
      (get_instance module_aug "augmentation" cfg [])
      (let! aug := getitem cfg "augmentation" in
       setitem aug "type" (VStr "LightTransforms") ;;!
       get_instance module_aug "augmentation" cfg []) in
  let! data_loader := get_instance module_data "data_loader" cfg [transforms] in
  let valid_data_loader := Method data_loader "split_validation" [] in
  emit (EvLog Info [Lit "Getting loss and metric function handles"]) ;;!
  let! loss := get_instance module_loss "loss" cfg [] in
  let loss := To loss device in
  let! mets := getitem cfg "metrics" in
  let! metrics :=
    match mets with
    | VList l => metric_handles l
    | VNone => raise TypeError
    | _ => raise (Unsupported "metric names that are not a list")
    end in
  emit (EvLog Info [Lit "Initialising trainer"]) ;;!
  let trainer :=
    New "uco.trainer" "Trainer" [model; loss; OList metrics; optimizer]
      {[ "start_epoch" := OVal start_epoch;
         "config" := OVal cfg;
         "device" := ODevice device;
         "data_loader" := data_loader;
         "valid_data_loader" := valid_data_loader;
         "lr_scheduler" := lr_scheduler ]} in
  emit (EvCall "uco.trainer" "Trainer") ;;!
  emit (EvTrain trainer) ;;!
  let! checkpoint_dir := lift (train_result E trainer) in
  emit (EvLog Info [Lit "Training completed."]) ;;!
  ret checkpoint_dir.

(** ** InferenceManager *)

Definition inference_setup_device (spec : value) : device :=
  match spec with
  | VNone => Cpu
  | VStr "cpu" => Cpu
  | _ => DeviceSpec spec
  end.

Definition load_checkpoint (path : string) (device : device) : M value :=
  emit (EvLog Info [Lit "Loading checkpoint: "; Fmt (VStr path)]) ;;!
  emit (EvTorchLoad path) ;;!
  lift (torch_load E path).

Definition extract_score (checkpoint : value) : M value :=
  let! best_score := getitem checkpoint "monitor_best" in
  match best_score with
  | VTensor x => ret (VFloat (f64_of_f32 x))
  | _ => ret best_score
  end.

Definition check_score (self : manager) (checkpoint : value) : M value :=
  let! best_score := extract_score checkpoint in
  emit (EvLog Info [Lit "Best score: "; Fmt best_score]) ;;!
  let! threshold := getitem (cfg self) "score_threshold" in
  let! low := lift (py_lt best_score threshold) in
  if low : bool then
    let msg := [Lit "Skipping low scoring model"] in
    emit (EvLog Warning msg) ;;!
    raise (Exception msg)
  else ret best_score.

Definition build_tta_model (model : obj) (config : value) (device : device)
  : M obj :=
  let! name := getitem config "tta" in
  let! wrapper := getattr tta name in
  let transforms :=
    New tta "Compose"
      [OList [New tta "HorizontalFlip" [] ∅; New tta "VerticalFlip" [] ∅]] ∅ in
  let! tta_model :=
    construct tta wrapper [model; transforms]
      {[ "merge_mode" := OVal (VStr "mean") ]} in
  ret (To tta_model device).

Definition get_group_name_for_config (train_cfg : value) : M value :=
  let! arch := getitem train_cfg "arch" in
  let! decoder := getitem arch "type" in
  let! arch := getitem train_cfg "arch" in
  let! args := getitem arch "args" in
  let! encoder := getitem args "encoder_name" in
  match encoder, decoder with
  | VStr e, VStr d => ret (VStr (e +:+ "-" +:+ d))
  | _, _ => raise (Unsupported "format of a value that is not a string")
  end.

Definition build_h5_writer (config train_cfg : value)
    (model_checkpoint : string) (score : value) : M obj :=
  let! group_name := get_group_name_for_config train_cfg in
  let! w := getitem config "write" in
  let! writer := getattr h5 w in
  let! out := getitem config "output" in
  let! raw := getitem out "raw" in
  let dataset_name := VStr (dataset_name_of E model_checkpoint) in
  let! out := getitem config "output" in
  let! n := getitem out "N" in
  construct h5 writer []
    {[ "filename" := OVal raw;
       "group_name" := OVal group_name;
       "dataset_name" := OVal dataset_name;
       "n_imgs" := OVal n;
       "score" := OVal score ]}.

(** The body of the loop over the batches of the data loader. *)
Fixpoint inference_loop (tta_model writer : obj) (device : device)
    (items : list obj) : M unit :=
  match items with
  | [] => ret tt
  | data :: rest =>
      let data := To data device in
      let output := Call "torch.sigmoid" [Method tta_model "__call__" [data]] in
      let output := Method (Method output "cpu" []) "numpy" [] in
      emit (EvWrite writer output) ;;!
      inference_loop tta_model writer device rest
  end.

Definition inference_run (self : manager) (model_checkpoint : string) : M value :=
  let! cfg := dict_copy (cfg self) in
  let! d := getitem cfg "device" in
  let device := inference_setup_device d in
  emit (EvSetCudaDevice device) ;;!
  let! _ :=
    match cuda_set_device_raises E device with
    | Some e => raise e
    | None => ret tt
    end in
  let! checkpoint := load_checkpoint model_checkpoint device in
  let! best_score := check_score self checkpoint in
  let! train_cfg := getitem checkpoint "config" in
  let! model := get_instance module_arch "arch" train_cfg [] in
  let! sd := getitem checkpoint "state_dict" in
  let model := LoadStateDict model sd in
  emit EvCudnnBenchmark ;;!
  let! tta_model := build_tta_model model cfg device in
  let! transforms := get_instance module_aug "augmentation" train_cfg [] in
  let! data_loader := get_instance module_data "data_loader" cfg [transforms] in
  let! writer := build_h5_writer cfg train_cfg model_checkpoint best_score in
  emit (EvLog Info [Lit "Performing inference"]) ;;!
  let tta_model := Method tta_model "eval" [] in
  inference_loop tta_model writer device (batches E data_loader) ;;!
  emit (EvLogObj Info (Method writer "close" [])) ;;!
  ret VNone.

End Managers.

End Runner.

Import Metric Runner.

(* ===================================================================== *)
(** * Vocabulary of the properties                                        *)
(* ===================================================================== *)

Module Props.

(** ** Metrics *)

(** An element of a binarized tensor: [0.] or [1.]. *)
Definition is_bit (x : f32) : Prop := x = f32_zero \/ x = f32_one.

(** The pair of elements at one position is [(pv, tv)]. *)
Definition at_pos (pv tv : bool) (xy : f32 * f32) : bool :=
  f_eqb xy.1 (bool_to_f32 pv) && f_eqb xy.2 (bool_to_f32 tv).

(** Number of positions where (prediction, truth) is [(pv, tv)]. *)
Definition positions (pv tv : bool) (p t : list f32) : Z :=
  Z.of_nat (length (filter (fun xy => at_pos pv tv xy = true) (zip p t))).

(** The class the quotient of two binarized elements falls in. *)
Definition quotient_class (x y : f32) : f32 :=
  if f_eqb x f32_one
  then if f_eqb y f32_one then f32_one else f32_inf
  else if f_eqb y f32_one then f32_zero else S754_nan.

(** [1 if a == 0 and b == 0 else a / (a + b)] on two counts. *)
Definition ratio (a b : Z) : num :=
  if (a =? 0) && (b =? 0) then PyInt 1
  else PyFloat (f64_div (f64_of_Z a) (f64_of_Z (a + b))).

(** Number of [True] entries of a mask. *)
Definition card (m : list bool) : Z :=
  Z.of_nat (length (filter (fun b => b = true) m)).

(** The mask of the elements above a threshold. *)
Definition mask_above (threshold : num) (t : tensor f32) : list bool :=
  (fun x => f_ltb (as_f32 threshold) x) <$> data t.

(** [(2 |P n T| + eps) / (|P| + |T| + eps)] with [eps = 1e-9],
    evaluated in float32 on the three counts. *)
Definition dice_formula (inter p t : Z) : f32 :=
  f32_div
    (f32_add (f32_mul (f32_of_f64 lit_2_0) (f32_of_Z inter)) (f32_of_f64 lit_1e_9))
    (f32_add (f32_add (f32_of_Z p) (f32_of_Z t)) (f32_of_f64 lit_1e_9)).


(** [m * 2^a] on binary positives. *)
Definition pshl (m : positive) (a : nat) : positive := Nat.iter a xO m.

(** The classes and thresholds of the pre-bound variants. *)
Definition classes : list Z := [0; 1; 2; 3].
Definition thresholds : list f64 :=
  [lit_0_20; lit_0_30; lit_0_40; lit_0_50; lit_0_60; lit_0_70; lit_0_80].

Definition grid : list (Z * f64) :=
  c ← classes; t ← thresholds; [(c, t)].

Definition metric_fn : Type := tensor f32 -> tensor f32 -> result num.

(** The pre-bound variants of [metric.py], by class and threshold. *)
Definition precision_variants : list (Z * f64 * metric_fn) :=
  [ (0, lit_0_20, precision_0_20); (0, lit_0_30, precision_0_30);
    (0, lit_0_40, precision_0_40); (0, lit_0_50, precision_0_50);
    (0, lit_0_60, precision_0_60); (0, lit_0_70, precision_0_70);
    (0, lit_0_80, precision_0_80);
    (1, lit_0_20, precision_1_20); (1, lit_0_30, precision_1_30);
    (1, lit_0_40, precision_1_40); (1, lit_0_50, precision_1_50);
    (1, lit_0_60, precision_1_60); (1, lit_0_70, precision_1_70);
    (1, lit_0_80, precision_1_80);
    (2, lit_0_20, precision_2_20); (2, lit_0_30, precision_2_30);
    (2, lit_0_40, precision_2_40); (2, lit_0_50, precision_2_50);
    (2, lit_0_60, precision_2_60); (2, lit_0_70, precision_2_70);
    (2, lit_0_80, precision_2_80);
    (3, lit_0_20, precision_3_20); (3, lit_0_30, precision_3_30);
    (3, lit_0_40, precision_3_40); (3, lit_0_50, precision_3_50);
    (3, lit_0_60, precision_3_60); (3, lit_0_70, precision_3_70);
    (3, lit_0_80, precision_3_80) ].

Definition recall_variants : list (Z * f64 * metric_fn) :=
  [ (0, lit_0_20, recall_0_20); (0, lit_0_30, recall_0_30);
    (0, lit_0_40, recall_0_40); (0, lit_0_50, recall_0_50);
    (0, lit_0_60, recall_0_60); (0, lit_0_70, recall_0_70);
    (0, lit_0_80, recall_0_80);
    (1, lit_0_20, recall_1_20); (1, lit_0_30, recall_1_30);
    (1, lit_0_40, recall_1_40); (1, lit_0_50, recall_1_50);
    (1, lit_0_60, recall_1_60); (1, lit_0_70, recall_1_70);
    (1, lit_0_80, recall_1_80);
    (2, lit_0_20, recall_2_20); (2, lit_0_30, recall_2_30);
    (2, lit_0_40, recall_2_40); (2, lit_0_50, recall_2_50);
    (2, lit_0_60, recall_2_60); (2, lit_0_70, recall_2_70);
    (2, lit_0_80, recall_2_80);
    (3, lit_0_20, recall_3_20); (3, lit_0_30, recall_3_30);
    (3, lit_0_40, recall_3_40); (3, lit_0_50, recall_3_50);
    (3, lit_0_60, recall_3_60); (3, lit_0_70, recall_3_70);
    (3, lit_0_80, recall_3_80) ].

(** ** Managers *)

(** [s] with more events on its trace. *)
Definition logged (s : state) (evs : list event) : state :=
  mkState (heap s) (trace s ++ evs).

(** The events a computation added to the trace of [s]. *)
Definition new_events (s s' : state) : list event :=
  drop (length (trace s)) (trace s').

Definition is_call (ev : event) : bool :=
  match ev with EvCall _ _ => true | _ => false end.

(** The entry [k] of the dict that [v] refers to, read off the store. *)
Definition peek (s : state) (v : value) (k : string) : option value :=
  match v with
  | VRef l => heap s !! l ≫= fun d => d !! k
  | _ => None
  end.

(** [v[k1][k2]], read off the store. *)
Definition peek2 (s : state) (v : value) (k1 k2 : string) : option value :=
  peek s v k1 ≫= fun b => peek s b k2.

(** The score a checkpoint records, a scalar tensor read as its number. *)
Definition unwrap (v : value) : value :=
  match v with
  | VTensor x => VFloat (f64_of_f32 x)
  | _ => v
  end.

(** [a >= b], on the values that [py_lt] orders. *)
Definition py_ge (a b : value) : result bool :=
  match a, b with
  | VTensor _, _ | _, VTensor _ => Raise (Unsupported "order of a tensor")
  | VList _, _ | _, VList _ => Raise (Unsupported "order of a list")
  | VBlob _, _ | _, VBlob _ => Raise (Unsupported "order of an opaque payload")
  | VInt x, VInt y => Ok (y <=? x)
  | VInt x, VFloat y =>
      Ok (bool_decide (cmp_int_float x y = Some Gt \/ cmp_int_float x y = Some Eq))
  | VFloat x, VInt y =>
      Ok (bool_decide (cmp_int_float y x = Some Lt \/ cmp_int_float y x = Some Eq))
  | VFloat x, VFloat y => Ok (SFleb y x)
  | VStr x, VStr y => Ok (String.leb y x)
  | _, _ => Raise TypeError
  end.

Definition rejection : message := [Lit "Skipping low scoring model"].

(** The last case of the device setup read without a condition on the
    index: with devices available, a single requested device whose index
    is not above the largest available one has the model placed on it. *)
Definition single_request_is_placed : Prop :=
  forall (E : env) (model : obj) (i : Z) (s : state),
    (0 < cuda_device_count E)%nat ->
    i <= Z.of_nat (cuda_device_count E) - 1 ->
    exists s', setup_device E model [i] s = (s', Ok (To model (Cuda i), Cuda i)).


(** The flips a test-time-augmentation wrapper is given. *)
Definition flips : obj :=
  New tta "Compose"
    [OList [New tta "HorizontalFlip" [] ∅; New tta "VerticalFlip" [] ∅]] ∅.

(** The merge mode a test-time-augmentation wrapper was built with. *)
Definition merge_mode_of (w : obj) : option value :=
  match w with
  | To (New _ _ _ kwargs) _ =>
      match kwargs !! "merge_mode" with
      | Some (OVal v) => Some v
      | _ => None
      end
  | _ => None
  end.

(** The merge mode of the wrapper is the configuration entry [key]. *)
Definition merge_mode_taken_from (key : string) : Prop :=
  forall (E : env) (model : obj) (config : value) (device : device)
         (s s' : state) (w : obj) (mode : value),
    peek s config key = Some mode ->
    build_tta_model E model config device s = (s', Ok w) ->
    merge_mode_of w = Some mode.

End Props.

Import Props.

(* ===================================================================== *)
(** * Inputs the properties are tried on                                  *)
(* ===================================================================== *)

Module Inputs.

(** A binarized prediction and truth of size [2, 3]. *)
Definition ex_pred : tensor f32 :=
  mkTensor [2; 3]%nat [f32_one; f32_one; f32_zero; f32_zero; f32_one; f32_zero].
Definition ex_truth : tensor f32 :=
  mkTensor [2; 3]%nat [f32_one; f32_zero; f32_zero; f32_one; f32_one; f32_zero].

(** One channel of probabilities and its mask, of size [2, 2]. *)
Definition ex_prob : tensor f32 :=
  mkTensor [2; 2]%nat
    [f32_one; f32_zero; f32_of_f64 lit_0_80; f32_of_f64 lit_0_30].
Definition ex_mask : tensor f32 :=
  mkTensor [2; 2]%nat [f32_one; f32_one; f32_zero; f32_zero].



(** A batch of one item with two classes, of size [1, 2, 1, 2]. *)
Definition ex_output : tensor f32 :=
  mkTensor [1; 2; 1; 2]%nat
    [f32_of_f64 lit_0_80; f32_of_f64 lit_0_30; f32_of_f64 lit_0_60; f32_of_f64 lit_0_70].
Definition ex_targets : tensor f32 :=
  mkTensor [1; 2; 1; 2]%nat [f32_one; f32_one; f32_zero; f32_one].

(** An empty batch of size [0, 4, 2, 2]. *)
Definition ex_empty : tensor f32 := mkTensor [0; 4; 2; 2]%nat [].

(** A component block [{type: ty, args: ...}] with its args dict at [a]. *)
Definition block (ty : string) (a : loc) : gmap string value :=
  {[ "type" := VStr ty; "args" := VRef a ]}.

(** A store with a training configuration at 1, whose augmentation type
    names no class of the augmentation module, two checkpoints at 20
    and 30, and an inference configuration at 40. *)
Definition demo_heap : gmap loc (gmap string value) :=
  list_to_map [
    (1%positive, {[ "seed" := VInt 42; "verbose" := VInt 2;
       "target_devices" := VList [];
       "metrics" := VList [VStr "dice_mean"];
       "arch" := VRef 2%positive; "optimizer" := VRef 3%positive;
       "lr_scheduler" := VRef 4%positive; "augmentation" := VRef 5%positive;
       "data_loader" := VRef 6%positive; "loss" := VRef 7%positive ]});
    (2%positive, block "Unet" 8%positive);
    (3%positive, block "RAdam" 9%positive);
    (4%positive, block "CosineAnnealingScheduler" 10%positive);
    (5%positive, block "HeavyTransforms" 11%positive);
    (6%positive, block "CloudSegDataLoader" 12%positive);
    (7%positive, block "BCEDiceLoss" 13%positive);
    (8%positive, {[ "encoder_name" := VStr "resnet34" ]});
    (9%positive, ∅);
    (10%positive, ∅);
    (11%positive, ∅);
    (12%positive, ∅);
    (13%positive, ∅);
    (20%positive, {[ "state_dict" := VBlob "weights of epoch 7";
       "optimizer" := VBlob "RAdam state of epoch 7";
       "epoch" := VInt 7;
       "monitor_best" := VTensor (f32_of_f64 lit_0_50);
       "config" := VRef 21%positive ]});
    (21%positive, {[ "arch" := VRef 24%positive; "optimizer" := VRef 23%positive;
       "augmentation" := VRef 22%positive ]});
    (22%positive, block "LightTransforms" 25%positive);
    (23%positive, block "RAdam" 25%positive);
    (24%positive, block "Unet" 26%positive);
    (25%positive, ∅);
    (26%positive, {[ "encoder_name" := VStr "resnet34" ]});
    (30%positive, {[ "state_dict" := VBlob "weights of epoch 3";
       "optimizer" := VBlob "SGD state of epoch 3";
       "epoch" := VInt 3;
       "monitor_best" := VFloat lit_0_70;
       "config" := VRef 31%positive ]});
    (31%positive, {[ "arch" := VRef 33%positive; "optimizer" := VRef 32%positive;
       "augmentation" := VRef 34%positive ]});
    (32%positive, block "SGD" 35%positive);
    (33%positive, block "Unet" 36%positive);
    (34%positive, block "LightTransforms" 35%positive);
    (35%positive, ∅);
    (36%positive, {[ "encoder_name" := VStr "resnet34" ]});
    (40%positive, {[ "seed" := VInt 42; "verbose" := VInt 2;
       "device" := VNone;
       "score_threshold" := VFloat lit_0_60;
       "tta" := VStr "SegmentationTTAWrapper";
       "merge_mode" := VStr "max";
       "write" := VStr "HDF5PredictionWriter";
       "data_loader" := VRef 6%positive;
       "output" := VRef 41%positive ]});
    (41%positive, {[ "raw" := VStr "predictions.h5"; "N" := VInt 3698 ]}) ].

Definition demo_state : state := mkState demo_heap [].

(** Collaborators on a machine with [gpus] devices: every name is a
    class of its module except the augmentation ["HeavyTransforms"], no
    constructor raises, and two checkpoint files exist. *)
Definition demo_env (gpus : nat) : env :=
  mkEnv gpus
    (fun module name =>
       negb (String.eqb module module_aug && String.eqb name "HeavyTransforms"))
    (fun _ _ _ _ => None)
    (fun path =>
       if String.eqb path "saved/radam/checkpoint.pth" then Ok (VRef 20%positive)
       else if String.eqb path "saved/sgd/checkpoint.pth" then Ok (VRef 30%positive)
       else Raise (External "no such file"))
    (fun _ => None)
    (fun _ => [])
    (fun _ => [])
    (fun p => p)
    (fun _ => Ok (VStr "saved")).

Definition training_manager : manager := mkManager (VRef 1%positive).
Definition inference_manager : manager := mkManager (VRef 40%positive).

(** A store whose only dict names a wrapper class and holds ["max"]
    under [key]. *)
Definition tta_state (key : string) : state :=
  mkState
    {[ 1%positive :=
         <[ key := VStr "max" ]> {[ "tta" := VStr "SegmentationTTAWrapper" ]} ]} [].

End Inputs.

Import Inputs.

(* ===================================================================== *)
(** * More of runner.py                                                   *)
(* ===================================================================== *)

Module RunnerMore.

Section Managers.

Variable E : env.

(** [getattr(model, name)] of a model object: its submodule of that
    name, or the [AttributeError] raised when it has none. *)
Variable submodule : obj -> string -> result obj.

Definition setup_param_groups_segmentation (model : obj) (config : value)
  : M obj :=
  let! encoder_opts := getitem config "encoder" in
  let! decoder_opts := getitem config "decoder" in
  let! encoder_module := lift (submodule model "encoder") in
  let encoder := named_parameters E encoder_module in
  let encoder_bias_params :=
    snd <$> filter (fun np => endswith np.1 "bias" = true) encoder in
  let encoder_weight_params :=
    snd <$> filter (fun np => endswith np.1 "bias" <> true) encoder in
  let! decoder_module := lift (submodule model "decoder") in
  let decoder := named_parameters E decoder_module in
  let decoder_bias_params :=
    snd <$> filter (fun np => endswith np.1 "bias" = true) decoder in
  let decoder_weight_params :=
    snd <$> filter (fun np => endswith np.1 "bias" <> true) decoder in
  emit (EvLog Info
    [Lit "Found "; Fmt (VInt (Z.of_nat (length encoder_weight_params)));
     Lit " encoder weight params"]) ;;!
  emit (EvLog Info
    [Lit "Found "; Fmt (VInt (Z.of_nat (length encoder_bias_params)));
     Lit " encoder bias params"]) ;;!
  emit (EvLog Info
    [Lit "Found "; Fmt (VInt (Z.of_nat (length decoder_weight_params)));
     Lit " decoder weight params"]) ;;!
  emit (EvLog Info
    [Lit "Found "; Fmt (VInt (Z.of_nat (length decoder_bias_params)));
     Lit " decoder bias params"]) ;;!
  let! opts_ew := unpack encoder_opts in
  let! opts_dw := unpack decoder_opts in
  let! opts_eb := unpack encoder_opts in
  let! opts_db := unpack decoder_opts in
  ret (OList [ODict (opts_ew ∪ {["params" := OList encoder_weight_params]});
              ODict (opts_dw ∪ {["params" := OList decoder_weight_params]});
              ODict (opts_eb ∪ {["params" := OList encoder_bias_params]});
              ODict (opts_db ∪ {["params" := OList decoder_bias_params]})]).

End Managers.

End RunnerMore.

Import RunnerMore.

(* ===================================================================== *)
(** * Vocabulary of the further properties                                *)
(* ===================================================================== *)

Module Effects.

(** Every run of [m] relates the state it starts in to the state it ends
    in by [R], whether it returns or raises. *)
Definition respects {A} (R : state -> state -> Prop) (m : M A) : Prop :=
  forall s s' r, m s = (s', r) -> R s s'.

(** The store is left as it was. *)
Definition same_heap (s s' : state) : Prop := heap s' = heap s.

(** An [int] or a [float]. *)
Definition is_number (v : value) : Prop :=
  match v with
  | VInt _ | VFloat _ => True
  | _ => False
  end.

Definition is_string (v : value) : Prop :=
  match v with
  | VStr _ => True
  | _ => False
  end.

(** Two values that Python has no order for: [None] or a dict against
    [None], a dict, a number or a string, and a number against a
    string. *)
Definition no_order (a b : value) : Prop :=
  match a, b with
  | (VNone | VRef _), (VNone | VRef _ | VInt _ | VFloat _ | VStr _)
  | (VInt _ | VFloat _ | VStr _), (VNone | VRef _)
  | (VInt _ | VFloat _), VStr _
  | VStr _, (VInt _ | VFloat _) => True
  | _, _ => False
  end.

Definition best_score_logged (score : value) : event :=
  EvLog Info [Lit "Best score: "; Fmt score].

Definition is_write (ev : event) : bool :=
  match ev with EvWrite _ _ => true | _ => false end.

Definition is_train (ev : event) : bool :=
  match ev with EvTrain _ => true | _ => false end.

(** The trace grows, by events that satisfy [P]. *)
Definition adds_only (P : event -> bool) (s s' : state) : Prop :=
  exists evs, trace s' = trace s ++ evs /\ forallb P evs = true.

Definition no_write (ev : event) : bool := negb (is_write ev).
Definition no_train (ev : event) : bool := negb (is_train ev).
Definition any_event (ev : event) : bool := true.

Definition training_completed : event := EvLog Info [Lit "Training completed."].

(** What the inference loop computes from one item of the loader. *)
Definition prediction (tta_model : obj) (device : device) (data : obj) : obj :=
  Method
    (Method (Call "torch.sigmoid" [Method tta_model "__call__" [To data device]])
       "cpu" [])
    "numpy" [].

(** One write per item, in the order of the loader. *)
Definition writes (tta_model writer : obj) (device : device) (items : list obj)
  : list event :=
  (fun data => EvWrite writer (prediction tta_model device data)) <$> items.

(** [o] is what [get_instance] builds from the block [name] of [config],
    read off the store: the class of [module] that the block names under
    ["type"], on the positional [args] and the entries of the block's
    ["args"] as keywords. *)
Definition instance_of (s : state) (module name : string) (config : value)
    (args : list obj) (o : obj) : Prop :=
  exists t la kw,
    peek2 s config name "type" = Some (VStr t)
    /\ peek2 s config name "args" = Some (VRef la)
    /\ heap s !! la = Some kw
    /\ o = New module t args (OVal <$> kw).


(** [name] is some prefix followed by [suffix]. *)
Definition ends_with (name suffix : string) : Prop :=
  exists prefix, name = prefix +:+ suffix.

(** [weights] and [biases] split the parameters [named]: a parameter is
    a bias when its name ends in ["bias"] and a weight otherwise; each
    parameter is in exactly one of the two lists, which keep the order
    of [named]. *)
Definition split_by_bias (named : list (string * obj)) (weights biases : list obj)
  : Prop :=
  (exists nw nb,
      weights = nw.*2 /\ biases = nb.*2
      /\ nw ++ nb ≡ₚ named
      /\ nw `sublist_of` named /\ nb `sublist_of` named
      /\ Forall (fun np => ~ ends_with np.1 "bias") nw
      /\ Forall (fun np => ends_with np.1 "bias") nb).

(** The dict display [{"params": params, **opts}]. *)
Definition group (opts : gmap string value) (params : list obj) : obj :=
  ODict ((OVal <$> opts) ∪ {["params" := OList params]}).

(** The entry ["params"] of a parameter group. *)
Definition group_params (g : obj) : option obj :=
  match g with
  | ODict d => d !! "params"
  | _ => None
  end.

(** The log entry of a parameter count. *)
Definition found (n : nat) (what : string) : event :=
  EvLog Info [Lit "Found "; Fmt (VInt (Z.of_nat n)); Lit what].

End Effects.

Import Effects.

(* ===================================================================== *)
(** * Further inputs                                                      *)
(* ===================================================================== *)

Module MoreInputs.


(** A store of optimizer options: the dict at 1 gives the options at 2
    to a classifier, and to the encoder of a segmentation model, and the
    options at 3, which hold an entry ["params"], to the decoder; the
    dict at 4 gives the options at 3 to a classifier. *)
Definition options_heap : gmap loc (gmap string value) :=
  {[ 1%positive := {[ "args" := VRef 2%positive; "encoder" := VRef 2%positive;
                      "decoder" := VRef 3%positive ]};
     2%positive := {[ "lr" := VFloat lit_0_20 ]};
     3%positive := {[ "params" := VStr "all" ]};
     4%positive := {[ "args" := VRef 3%positive ]} ]}.
Definition options_state : state := mkState options_heap [].

(** A model of two layers, and its submodules. *)
Definition layer (name : string) : list (string * obj) :=
  [ (name +:+ ".weight", Attr name "weight"); (name +:+ ".bias", Attr name "bias") ].
Definition params_env : env :=
  mkEnv 0 (has_attr (demo_env 0)) (ctor_raises (demo_env 0))
    (torch_load (demo_env 0)) (cuda_set_device_raises (demo_env 0))
    (fun m =>
       match m with
       | Attr _ part => layer part
       | _ => layer "conv1" ++ layer "fc"
       end)
    (batches (demo_env 0)) (dataset_name_of (demo_env 0))
    (train_result (demo_env 0)).
Definition the_model : obj := New module_arch "Unet" [] ∅.
Definition part_of (model : obj) (name : string) : result obj :=
  match model with
  | New _ _ _ _ => Ok (Attr "model" name)
  | _ => Raise (AttributeError name)
  end.

(** A store with a configuration at 1 and a checkpoint at 2 whose score
    is not a number. *)
Definition nan_heap : gmap loc (gmap string value) :=
  {[ 1%positive := {[ "score_threshold" := VFloat lit_0_60 ]};
     2%positive := {[ "monitor_best" := VTensor S754_nan ]} ]}.
Definition nan_state : state := mkState nan_heap [].

(** A store with a configuration at 1 whose threshold is the int
    [2^53 + 1], which no float is, and a checkpoint at 2 whose score is
    the float [2^53]. *)
Definition wide_heap : gmap loc (gmap string value) :=
  {[ 1%positive := {[ "score_threshold" := VInt 9007199254740993 ]};
     2%positive := {[ "monitor_best" := VFloat (S754_finite false 4503599627370496 1) ]} ]}.
Definition wide_state : state := mkState wide_heap [].

(** Collaborators as in [demo_env], with a data loader of two batches. *)
Definition two_batches : list obj := [OVal (VStr "batch 0"); OVal (VStr "batch 1")].
Definition batches_env : env :=
  mkEnv 0 (has_attr (demo_env 0)) (ctor_raises (demo_env 0))
    (torch_load (demo_env 0)) (cuda_set_device_raises (demo_env 0))
    (named_parameters (demo_env 0)) (fun _ => two_batches)
    (dataset_name_of (demo_env 0)) (train_result (demo_env 0)).

End MoreInputs.

Import MoreInputs.

(* ===================================================================== *)
(** * Further vocabulary and inputs of the metrics                        *)
(* ===================================================================== *)

Module MetricProps.

(** The Python float [1.0]. *)
Definition f64_one : f64 := S754_finite false 4503599627370496 (-52).

(** [eps = 1e-9] as it meets a float32 tensor. *)
Definition eps32 : f32 := as_f32 default_eps.

End MetricProps.

Import MetricProps.

Module MetricInputs.


(** A batch of one item with four classes, of size [1, 4, 1, 1]. *)
Definition ex_four : tensor f32 :=
  mkTensor [1; 4; 1; 1]%nat
    [f32_of_f64 lit_0_80; f32_of_f64 lit_0_30; f32_one; f32_zero].

End MetricInputs.

Import MetricInputs.

(* ===================================================================== *)
(** * Properties of the metrics                                           *)
(* ===================================================================== *)

Section Float32Counts.

(** Float32 holds every count up to [2^24] exactly, so the sum of a
    mask is its number of [True] entries. *)

Lemma pshl_digits (m : positive) (a : nat) :
  Z.pos (digits2_pos (pshl m a)) = Z.pos (digits2_pos m) + Z.of_nat a.
Proof.
  induction a as [|a IH].
  - unfold pshl. cbn [Nat.iter nat_rect]. rewrite Z.add_0_r. reflexivity.
  - change (pshl m (S a)) with (xO (pshl m a)).
    change (digits2_pos (xO (pshl m a))) with (Pos.succ (digits2_pos (pshl m a))).
    rewrite Pos2Z.inj_succ, IH. lia.
Qed.

Lemma pshl_add (m : positive) (a b : nat) : pshl (pshl m a) b = pshl m (a + b).
Proof. unfold pshl. rewrite Nat.add_comm. symmetry. apply Nat.iter_add. Qed.

Lemma pshl_val (m : positive) (a : nat) :
  Z.pos (pshl m a) = Z.pos m * 2 ^ Z.of_nat a.
Proof.
  induction a as [|a IH].
  - unfold pshl. cbn [Nat.iter nat_rect]. rewrite Z.mul_1_r. reflexivity.
  - change (pshl m (S a)) with (xO (pshl m a)).
    rewrite Pos2Z.inj_xO, IH, Nat2Z.inj_succ, Z.pow_succ_r by lia. lia.
Qed.

Lemma pos_iter_pshl (m d : positive) :
  PosDef.Pos.iter xO m d = pshl m (Pos.to_nat d).
Proof. exact (Pos2Nat.inj_iter d xO m). Qed.

Lemma iter_pos_nat {A} (f : A -> A) (p : positive) (x : A) :
  SpecFloat.iter_pos f p x = Nat.iter (Pos.to_nat p) f x.
Proof.
  revert x. induction p as [p IH|p IH|]; intros x; cbn [SpecFloat.iter_pos].
  - rewrite !IH, Pos2Nat.inj_xI, <- Nat.iter_add, <- Nat.iter_succ_r.
    f_equal. lia.
  - rewrite !IH, Pos2Nat.inj_xO, <- Nat.iter_add. f_equal. lia.
  - reflexivity.
Qed.

(** Shifting out zero bits loses nothing. *)
Lemma shr_exact (M : positive) (a : nat) :
  Nat.iter a shr_1 (Build_shr_record (Z.pos (pshl M a)) false false)
  = Build_shr_record (Z.pos M) false false.
Proof.
  induction a as [|a IH]; [reflexivity|].
  rewrite Nat.iter_succ_r. cbn [pshl Nat.iter shr_1 orb]. exact IH.
Qed.

(** A 24-digit mantissa with an exponent in range is kept as it is. *)
Lemma round_aux_canonical (s : bool) (M : positive) (E : Z) :
  Z.pos (digits2_pos M) = 24 -> -149 <= E <= 104 ->
  binary_round_aux prec32 emax32 s (Z.pos M) E loc_Exact = S754_finite s M E.
Proof.
  intros Hd HE. unfold binary_round_aux, shr_fexp, fexp, emin, prec32, emax32.
  cbn [Zdigits2 shr_record_of_loc]. rewrite Hd.
  replace (Z.max (24 + E - 24) (3 - 128 - 24) - E) with 0 by lia.
  cbn [shr shr_m loc_of_shr_record round_nearest_even Zdigits2]. rewrite Hd.
  replace (Z.max (24 + E - 24) (3 - 128 - 24) - E) with 0 by lia.
  cbn [shr shr_m]. rewrite (proj2 (Z.leb_le _ _)) by lia. reflexivity.
Qed.

Lemma round_shift_left (s : bool) (m : positive) (a : nat) (e : Z) :
  Z.pos (digits2_pos m) + Z.of_nat a = 24 -> -149 <= e - Z.of_nat a <= 104 ->
  binary_round prec32 emax32 s m e = S754_finite s (pshl m a) (e - Z.of_nat a).
Proof.
  intros Hd He. unfold binary_round, shl_align, fexp, emin, prec32, emax32.
  replace (Z.max (Z.pos (digits2_pos m) + e - 24) (3 - 128 - 24) - e)
    with (- Z.of_nat a) by lia.
  destruct a as [|a].
  - change (Z.of_nat 0) with 0 in *. cbn [Z.opp]. rewrite Z.sub_0_r.
    unfold pshl; cbn [Nat.iter nat_rect]. apply round_aux_canonical; lia.
  - change (- Z.of_nat (S a)) with (Z.neg (Pos.of_succ_nat a)). cbv iota beta.
    rewrite pos_iter_pshl, SuccNat2Pos.id_succ.
    replace (Z.max (Z.pos (digits2_pos m) + e - 24) (3 - 128 - 24))
      with (e - Z.of_nat (S a)) by lia.
    apply round_aux_canonical; [rewrite pshl_digits|]; lia.
Qed.

Lemma round_shift_right (s : bool) (M : positive) (a : nat) (e : Z) :
  Z.pos (digits2_pos M) = 24 -> -149 <= e -> e + Z.of_nat a <= 104 ->
  binary_round prec32 emax32 s (pshl M a) e = S754_finite s M (e + Z.of_nat a).
Proof.
  intros Hd He Hea. destruct a as [|a].
  - change (pshl M 0) with M. rewrite (round_shift_left s M 0 e) by lia.
    change (pshl M 0) with M. f_equal.
  - unfold binary_round, shl_align, fexp, emin, prec32, emax32.
    rewrite pshl_digits, Hd.
    replace (Z.max (24 + Z.of_nat (S a) + e - 24) (3 - 128 - 24) - e)
      with (Z.pos (Pos.of_succ_nat a)) by lia.
    cbv iota beta.
    unfold binary_round_aux, shr_fexp, fexp, emin.
    cbn [Zdigits2 shr_record_of_loc]. rewrite pshl_digits, Hd.
    replace (Z.max (24 + Z.of_nat (S a) + e - 24) (3 - 128 - 24) - e)
      with (Z.pos (Pos.of_succ_nat a)) by lia.
    cbn [shr]. rewrite iter_pos_nat, SuccNat2Pos.id_succ, shr_exact.
    cbn [shr_m loc_of_shr_record round_nearest_even Zdigits2]. rewrite Hd.
    replace (Z.max (24 + (e + Z.pos (Pos.of_succ_nat a)) - 24) (3 - 128 - 24)
             - (e + Z.pos (Pos.of_succ_nat a))) with 0 by lia.
    cbn [shr shr_m].
    rewrite (proj2 (Z.leb_le _ _)) by lia. reflexivity.
Qed.

Lemma digits_bounds (n : positive) :
  2 ^ (Z.pos (digits2_pos n) - 1) <= Z.pos n < 2 ^ Z.pos (digits2_pos n).
Proof.
  induction n as [n IH|n IH|].
  - change (digits2_pos n~1) with (Pos.succ (digits2_pos n)).
    rewrite Pos2Z.inj_succ. change (Z.pos n~1) with (2 * Z.pos n + 1).
    replace (Z.succ (Z.pos (digits2_pos n)) - 1)
      with (Z.succ (Z.pos (digits2_pos n) - 1)) by lia.
    rewrite !Z.pow_succ_r by lia.
    destruct IH as [H1 H2]. revert H1 H2.
    generalize (2 ^ (Z.pos (digits2_pos n) - 1)) (2 ^ Z.pos (digits2_pos n)).
    intros; lia.
  - change (digits2_pos n~0) with (Pos.succ (digits2_pos n)).
    rewrite Pos2Z.inj_succ. change (Z.pos n~0) with (2 * Z.pos n).
    replace (Z.succ (Z.pos (digits2_pos n)) - 1)
      with (Z.succ (Z.pos (digits2_pos n) - 1)) by lia.
    rewrite !Z.pow_succ_r by lia.
    destruct IH as [H1 H2]. revert H1 H2.
    generalize (2 ^ (Z.pos (digits2_pos n) - 1)) (2 ^ Z.pos (digits2_pos n)).
    intros; lia.
  - cbn. lia.
Qed.

Lemma digits_le_24 (n : positive) : Z.pos n < 2 ^ 24 -> Z.pos (digits2_pos n) <= 24.
Proof.
  intros Hn. destruct (digits_bounds n) as [Hlo _].
  destruct (Z.le_gt_cases (Z.pos (digits2_pos n)) 24) as [H|H]; [exact H|].
  exfalso.
  assert (2 ^ 24 <= 2 ^ (Z.pos (digits2_pos n) - 1)) by (apply Z.pow_le_mono_r; lia).
  lia.
Qed.

(** The float32 image of a positive count up to [2^24] is a finite
    value, also reached from the count scaled by [2^23]. *)
Lemma f32_of_pos_exact (n : positive) :
  Z.pos n <= 2 ^ 24 ->
  exists M E, f32_of_Z (Z.pos n) = S754_finite false M E
    /\ binary_round prec32 emax32 false (pshl n 23) (-23) = S754_finite false M E
    /\ (Z.pos n < 2 ^ 24 ->
        exists a : nat, (a <= 23)%nat /\ M = pshl n a /\ E = - Z.of_nat a).
Proof.
  intros Hn. destruct (Z.eq_dec (Z.pos n) (2 ^ 24)) as [Heq|Hne].
  - assert (n = 16777216%positive) as -> by (apply Pos2Z.inj; rewrite Heq; reflexivity).
    exists 8388608%positive, 1. repeat split; try (vm_compute; reflexivity).
    intros H. exfalso. revert H. vm_compute. congruence.
  - assert (Hlt : Z.pos n < 2 ^ 24) by lia.
    pose proof (digits_le_24 n Hlt) as Hd.
    set (a := Z.to_nat (24 - Z.pos (digits2_pos n))).
    assert (Ha : Z.of_nat a = 24 - Z.pos (digits2_pos n)) by (unfold a; lia).
    exists (pshl n a), (- Z.of_nat a). split; [|split].
    + unfold f32_of_Z, binary_normalize.
      rewrite (round_shift_left false n a 0) by lia. reflexivity.
    + replace 23%nat with (a + (23 - a))%nat by lia.
      rewrite <- pshl_add.
      rewrite (round_shift_right false (pshl n a) (23 - a) (-23)).
      * f_equal. lia.
      * rewrite pshl_digits. lia.
      * lia.
      * lia.
    + intros _. exists a. repeat split. lia.
Qed.

Lemma f32_add_one (k : Z) :
  0 <= k < 2 ^ 24 -> f32_add (f32_of_Z k) f32_one = f32_of_Z (k + 1).
Proof.
  intros Hk. destruct k as [|k|k]; [reflexivity| |lia].
  destruct (f32_of_pos_exact k) as (M & E & -> & _ & Hform); [lia|].
  destruct Hform as (a & Ha & -> & ->); [lia|].
  destruct (f32_of_pos_exact (k + 1)) as (M' & E' & HM' & Hsh & _); [lia|].
  change (Z.pos k + 1) with (Z.pos (k + 1)). rewrite HM', <- Hsh.
  unfold f32_add, SFadd, f32_one.
  replace (Z.min (- Z.of_nat a) (-23)) with (-23) by lia.
  assert (Hal : fst (shl_align (pshl k a) (- Z.of_nat a) (-23)) = pshl k 23).
  { unfold shl_align. destruct (-23 - - Z.of_nat a) as [|d|d] eqn:Hd; cbn [fst].
    - f_equal. lia.
    - lia.
    - rewrite pos_iter_pshl, pshl_add. f_equal. lia. }
  rewrite Hal. change (fst (shl_align 8388608 (-23) (-23))) with 8388608%positive.
  cbn [cond_Zopp].
  replace (Z.pos (pshl k 23) + 8388608) with (Z.pos (pshl (k + 1) 23)); [reflexivity|].
  rewrite !pshl_val, Pos2Z.inj_add. change (2 ^ Z.of_nat 23) with 8388608. lia.
Qed.

Lemma f32_add_zero (k : Z) :
  0 <= k <= 2 ^ 24 -> f32_add (f32_of_Z k) f32_zero = f32_of_Z k.
Proof.
  intros Hk. destruct k as [|k|k]; [reflexivity| |lia].
  destruct (f32_of_pos_exact k) as (M & E & -> & _); [lia|]. reflexivity.
Qed.

Lemma card_cons (b : bool) (m : list bool) :
  card (b :: m) = (if b then 1 else 0) + card m.
Proof.
  unfold card. rewrite filter_cons.
  destruct b; case_decide; try congruence; cbn [length]; lia.
Qed.

Lemma card_nonneg (m : list bool) : 0 <= card m.
Proof. unfold card. lia. Qed.

Lemma fsum_from (m : list bool) (k : Z) :
  0 <= k -> k + card m <= 2 ^ 24 ->
  foldl f32_add (f32_of_Z k) (bool_to_f32 <$> m) = f32_of_Z (k + card m).
Proof.
  revert k. induction m as [|b m IH]; intros k Hk Hb.
  - cbn. f_equal. unfold card. cbn. lia.
  - rewrite card_cons in *. pose proof (card_nonneg m).
    cbn [fmap list_fmap foldl]. destruct b; cbn [bool_to_f32].
    + rewrite f32_add_one by lia. rewrite IH by lia. f_equal. lia.
    + rewrite f32_add_zero by lia. rewrite IH by lia. f_equal.
Qed.

Lemma fsum_mask (m : list bool) :
  card m <= 2 ^ 24 -> fsum (bool_to_f32 <$> m) = f32_of_Z (card m).
Proof. intros H. unfold fsum. apply (fsum_from m 0); lia. Qed.

End Float32Counts.

Section Confusion.

Lemma bit_cases (z : f32) : is_bit z -> exists a, z = bool_to_f32 a.
Proof. intros [->| ->]; [exists false|exists true]; reflexivity. Qed.

Lemma at_pos_bits (pv tv a b : bool) :
  at_pos pv tv (bool_to_f32 a, bool_to_f32 b) = true <-> a = pv /\ b = tv.
Proof. destruct pv, tv, a, b; vm_compute; intuition congruence. Qed.

(** Counting the quotients that satisfy [f] counts the positions
    [(pv, tv)], when [f] holds of exactly that quotient. *)
Lemma count_quotients (f : f32 -> bool) (pv tv : bool) (p t : list f32) :
  (forall a b : bool,
      f (f32_div (bool_to_f32 a) (bool_to_f32 b)) = true <-> a = pv /\ b = tv) ->
  Forall is_bit p -> Forall is_bit t ->
  Z.of_nat (length (filter (fun b => b = true) (f <$> zip_with f32_div p t)))
  = positions pv tv p t.
Proof.
  intros Hf Hp. unfold positions. revert t.
  induction Hp as [|x p Hx Hp IH]; intros t Ht; [reflexivity|].
  destruct Ht as [|y t Hy Ht]; [reflexivity|].
  cbn [zip_with fmap list_fmap zip].
  rewrite !filter_cons.
  specialize (IH t Ht).
  destruct (bit_cases x Hx) as [a ->], (bit_cases y Hy) as [b ->].
  specialize (Hf a b). pose proof (at_pos_bits pv tv a b) as Hat.
  destruct (decide (f (f32_div (bool_to_f32 a) (bool_to_f32 b)) = true)) as [H|H];
    destruct (decide (at_pos pv tv (bool_to_f32 a, bool_to_f32 b) = true)) as [H'|H'];
    cbn [length]; try lia; exfalso; tauto.
Qed.

Lemma positions_total (p t : list f32) :
  Forall is_bit p -> Forall is_bit t -> length p = length t ->
  positions true true p t + positions true false p t
  + positions false false p t + positions false true p t = Z.of_nat (length p).
Proof.
  intros Hp. unfold positions. revert t.
  induction Hp as [|x p Hx Hp IH]; intros t Ht Hlen.
  - reflexivity.
  - destruct Ht as [|y t Hy Ht]; [discriminate Hlen|].
    injection Hlen as Hlen. specialize (IH t Ht Hlen).
    cbn [zip zip_with]. rewrite !filter_cons.
    destruct (bit_cases x Hx) as [a ->], (bit_cases y Hy) as [b ->].
    destruct a, b; repeat case_decide; cbn [length];
      repeat match goal with
      | H : at_pos _ _ _ = true |- _ => apply at_pos_bits in H; destruct H; try discriminate
      | H : at_pos _ _ _ <> true |- _ =>
          exfalso; apply H; apply at_pos_bits; split; reflexivity
      end; lia.
Qed.

(** C1. On binarized tensors of one size, [_confusion] returns the numbers
    of positions where (prediction, truth) is (1,1), (1,0), (0,0) and
    (0,1); the quotient at a position is [1], [+inf], [nan] or [0]
    accordingly; and the four counts add up to the number of elements. *)
Theorem confusion_counts (prediction truth : tensor f32) :
  shape prediction = shape truth ->
  well_formed prediction -> well_formed truth ->
  Forall is_bit (data prediction) -> Forall is_bit (data truth) ->
  let p := data prediction in
  let t := data truth in
  _confusion prediction truth =
    Ok (positions true true p t, positions true false p t,
        positions false false p t, positions false true p t)
  /\ (exists q, tdiv prediction truth = Ok q /\
        forall i x y, p !! i = Some x -> t !! i = Some y ->
          data q !! i = Some (f32_div x y) /\ f32_div x y = quotient_class x y)
  /\ positions true true p t + positions true false p t
     + positions false false p t + positions false true p t
     = Z.of_nat (numel prediction).
Proof.
  intros Hs Hwp Hwt Hp Ht p t. subst p t.
  unfold _confusion, tdiv, tzip. rewrite decide_True by exact Hs.
  cbn [Py.bind]. unfold count_true, eq_scalar, isnan, tmap, mkTensor. cbn [data].
  split; [|split].
  - rewrite (count_quotients _ true true), (count_quotients _ true false),
      (count_quotients _ false false), (count_quotients _ false true);
      try assumption; try reflexivity;
      intros [] []; vm_compute; intuition congruence.
  - eexists; split; [reflexivity|]. cbn [data].
    intros i x y Hx Hy. split.
    + rewrite lookup_zip_with, Hx, Hy. reflexivity.
    + rewrite Forall_lookup in Hp, Ht.
      destruct (Hp i x Hx) as [->| ->], (Ht i y Hy) as [->| ->]; vm_compute; reflexivity.
  - rewrite positions_total; [|assumption..|].
    + rewrite Hwp. reflexivity.
    + rewrite Hwp, Hwt. unfold numel. rewrite Hs. reflexivity.
Qed.

Lemma confusion_counts_witness :
  _confusion ex_pred ex_truth = Ok (2, 1, 2, 1)
  /\ 2 + 1 + 2 + 1 = Z.of_nat (numel ex_pred).
Proof.
  destruct (confusion_counts ex_pred ex_truth) as (Hc & _ & Ht).
  - reflexivity.
  - reflexivity.
  - reflexivity.
  - repeat (constructor; [first [left; reflexivity | right; reflexivity]|]).
    constructor.
  - repeat (constructor; [first [left; reflexivity | right; reflexivity]|]).
    constructor.
  - split; [exact Hc | exact Ht].
Defined.

End Confusion.

Section Dice.

Lemma mul_masks (P T : list bool) :
  zip_with f32_mul (bool_to_f32 <$> P) (bool_to_f32 <$> T)
  = bool_to_f32 <$> zip_with andb P T.
Proof.
  revert T. induction P as [|a P IH]; intros [|b T]; try reflexivity.
  cbn [fmap list_fmap zip_with]. rewrite <- IH. f_equal.
  destruct a, b; reflexivity.
Qed.

Lemma card_zip_le (P T : list bool) : card (zip_with andb P T) <= card P.
Proof.
  revert T. induction P as [|a P IH]; intros [|b T]; cbn [zip_with];
    try (pose proof (card_nonneg (a :: P))); try (unfold card; cbn; lia).
  rewrite !card_cons. specialize (IH T). destruct a, b; cbn [andb]; lia.
Qed.

Lemma dice_single_channel_viewed (probability truth : tensor f32)
    (threshold eps : num) :
  viewable probability = true -> viewable truth = true ->
  length (data probability) = length (data truth) ->
  let P := mask_above threshold probability in
  let T := mask_above (PyFloat lit_0_50) truth in
  dice_single_channel probability truth threshold eps
  = num_truediv
      (num_add (num_mul (PyFloat lit_2_0)
                  (Scalar (fsum (bool_to_f32 <$> zip_with andb P T)))) eps)
      (num_add (num_add (Scalar (fsum (bool_to_f32 <$> P)))
                  (Scalar (fsum (bool_to_f32 <$> T)))) eps).
Proof.
  intros Hp Ht Hlen P T.
  unfold dice_single_channel, view_flat. rewrite Hp, Ht. cbn [Py.bind].
  unfold tmul, tzip, float, gt_scalar, tmap, mkTensor. cbn [shape data].
  rewrite Hlen. rewrite decide_True by reflexivity. cbn [Py.bind].
  unfold sum. cbn [data].
  fold (mask_above threshold probability). fold (mask_above (PyFloat lit_0_50) truth).
  fold P. fold T.
  rewrite mul_masks. reflexivity.
Qed.




End Dice.

Section PrecisionRecall.

Lemma count_true_nonneg (m : tensor bool) : 0 <= count_true m.
Proof. unfold count_true. lia. Qed.

Lemma confusion_nonneg (p t : tensor f32) (tp fp tn fn : Z) :
  _confusion p t = Ok (tp, fp, tn, fn) -> 0 <= tp /\ 0 <= fp /\ 0 <= tn /\ 0 <= fn.
Proof.
  unfold _confusion. destruct (tdiv p t) as [q|e]; cbn [Py.bind]; [|discriminate].
  intros H. injection H as <- <- <- <-. repeat split; apply count_true_nonneg.
Qed.

(** The guard leaves no zero divisor. *)
Lemma guarded_truediv (a b : Z) :
  0 <= a -> 0 <= b ->
  (if (a =? 0) && (b =? 0) then Ok (PyInt 1)
   else num_truediv (PyInt a) (num_add (PyInt a) (PyInt b))) = Ok (ratio a b).
Proof.
  intros Ha Hb. unfold ratio.
  destruct ((a =? 0) && (b =? 0)) eqn:E; [reflexivity|].
  cbn [num_add num_truediv as_f64].
  destruct (a + b =? 0) eqn:E'; [|reflexivity].
  apply Z.eqb_eq in E'. assert (a = 0 /\ b = 0) as [-> ->] by lia. discriminate E.
Qed.

Lemma select_dim1_ok {A} (t : tensor A) (c : Z) (b ch : nat) (rest : list nat) :
  shape t = b :: ch :: rest -> - Z.of_nat ch <= c < Z.of_nat ch ->
  exists s, select_dim1 t c = Ok s /\ shape s = b :: rest.
Proof.
  intros Hs Hc. unfold select_dim1. rewrite Hs. unfold norm_index.
  destruct (decide (0 <= c < Z.of_nat ch)); cbn [Py.bind].
  - eexists; split; reflexivity.
  - rewrite decide_True by lia. cbn [Py.bind]. eexists; split; reflexivity.
Qed.

Lemma select_dim1_no_zero_division {A} (t : tensor A) (c : Z) :
  select_dim1 t c <> Raise ZeroDivisionError.
Proof.
  unfold select_dim1, norm_index.
  repeat (case_match; cbn [Py.bind]; try congruence).
Qed.

Lemma confusion_ok (p t : tensor f32) :
  shape p = shape t -> exists tp fp tn fn, _confusion p t = Ok (tp, fp, tn, fn).
Proof.
  intros Hs. unfold _confusion, tdiv, tzip. rewrite decide_True by exact Hs.
  cbn [Py.bind]. do 4 eexists. reflexivity.
Qed.

Lemma confusion_no_zero_division (p t : tensor f32) :
  _confusion p t <> Raise ZeroDivisionError.
Proof.
  unfold _confusion, tdiv, tzip. case_decide; cbn [Py.bind]; congruence.
Qed.

Lemma precision_unfold (output targets : tensor f32) (class_ : Z) (threshold : num)
    (sel tgt : tensor f32) (tp fp tn fn : Z) :
  select_dim1 output class_ = Ok sel ->
  select_dim1 targets class_ = Ok tgt ->
  _confusion (float (gt_scalar sel threshold)) tgt = Ok (tp, fp, tn, fn) ->
  precision output targets class_ threshold = Ok (ratio tp fp)
  /\ recall output targets class_ threshold = Ok (ratio tp fn).
Proof.
  intros Ho Ht Hc.
  destruct (confusion_nonneg _ _ _ _ _ _ Hc) as (? & ? & ? & ?).
  unfold precision, recall. rewrite Ho, Ht. cbn [Py.bind]. rewrite Hc. cbn [Py.bind].
  split; apply guarded_truediv; assumption.
Qed.

(** C3. [precision] returns [TP / (TP + FP)] and exactly [1] when [TP]
    and [FP] are both zero; [recall] returns [TP / (TP + FN)] and exactly
    [1] when [TP] and [FN] are both zero; neither ever raises a division
    by zero, and both return on tensors of one size and a class that
    the channel dimension has. *)
Theorem precision_recall_guarded (output targets : tensor f32) (class_ : Z)
    (threshold : num) :
  precision output targets class_ threshold <> Raise ZeroDivisionError
  /\ recall output targets class_ threshold <> Raise ZeroDivisionError
  /\ (forall sel tgt tp fp tn fn,
        select_dim1 output class_ = Ok sel ->
        select_dim1 targets class_ = Ok tgt ->
        _confusion (float (gt_scalar sel threshold)) tgt = Ok (tp, fp, tn, fn) ->
        precision output targets class_ threshold = Ok (ratio tp fp)
        /\ recall output targets class_ threshold = Ok (ratio tp fn)
        /\ (tp = 0 -> fp = 0 -> precision output targets class_ threshold = Ok (PyInt 1))
        /\ (tp = 0 -> fn = 0 -> recall output targets class_ threshold = Ok (PyInt 1)))
  /\ (forall b ch rest,
        shape output = b :: ch :: rest -> shape targets = b :: ch :: rest ->
        - Z.of_nat ch <= class_ < Z.of_nat ch ->
        exists sel tgt tp fp tn fn,
          select_dim1 output class_ = Ok sel /\
          select_dim1 targets class_ = Ok tgt /\
          _confusion (float (gt_scalar sel threshold)) tgt = Ok (tp, fp, tn, fn)).
Proof.
  assert (Hnz : precision output targets class_ threshold <> Raise ZeroDivisionError
                /\ recall output targets class_ threshold <> Raise ZeroDivisionError).
  { destruct (select_dim1 output class_) as [sel|e] eqn:Ho.
    2:{ pose proof (select_dim1_no_zero_division output class_).
        unfold precision, recall. rewrite Ho. cbn [Py.bind]. split; congruence. }
    destruct (select_dim1 targets class_) as [tgt|e] eqn:Ht.
    2:{ pose proof (select_dim1_no_zero_division targets class_).
        unfold precision, recall. rewrite Ho, Ht. cbn [Py.bind]. split; congruence. }
    destruct (_confusion (float (gt_scalar sel threshold)) tgt)
      as [[[[tp fp] tn] fn]|e] eqn:Hc.
    - destruct (precision_unfold _ _ _ _ _ _ _ _ _ _ Ho Ht Hc) as [-> ->].
      split; discriminate.
    - pose proof (confusion_no_zero_division (float (gt_scalar sel threshold)) tgt).
      unfold precision, recall. rewrite Ho, Ht. cbn [Py.bind]. rewrite Hc. cbn [Py.bind].
      split; congruence. }
  destruct Hnz as [Hp Hr]. split; [exact Hp|]. split; [exact Hr|]. split.
  - intros sel tgt tp fp tn fn Ho Ht Hc.
    destruct (precision_unfold _ _ _ _ _ _ _ _ _ _ Ho Ht Hc) as [Hpr Hre].
    repeat split; try assumption.
    + intros -> ->. rewrite Hpr. reflexivity.
    + intros -> ->. rewrite Hre. reflexivity.
  - intros b ch rest Hso Hst Hc.
    destruct (select_dim1_ok output class_ b ch rest Hso Hc) as (sel & Hsel & Hss).
    destruct (select_dim1_ok targets class_ b ch rest Hst Hc) as (tgt & Htgt & Hts).
    destruct (confusion_ok (float (gt_scalar sel threshold)) tgt) as (tp & fp & tn & fn & Hcf).
    { unfold float, gt_scalar, tmap, mkTensor; cbn [shape]. exact (eq_trans Hss (eq_sym Hts)). }
    exists sel, tgt, tp, fp, tn, fn. auto.
Qed.

Lemma precision_recall_guarded_witness :
  (precision ex_output ex_targets 0 default_threshold = Ok (ratio 1 0)
   /\ recall ex_output ex_targets 0 default_threshold = Ok (ratio 1 1))
  /\ precision ex_output ex_targets 0 (PyFloat lit_0_80) = Ok (PyInt 1)
  /\ exists sel tgt tp fp tn fn,
       select_dim1 ex_output 1 = Ok sel /\ select_dim1 ex_targets 1 = Ok tgt /\
       _confusion (float (gt_scalar sel default_threshold)) tgt = Ok (tp, fp, tn, fn).
Proof.
  split; [|split].
  - destruct (precision_recall_guarded ex_output ex_targets 0 default_threshold)
      as (_ & _ & H & _).
    destruct (H (mkStrided [1; 1; 2]%nat [4; 2; 1]%nat [f32_of_f64 lit_0_80; f32_of_f64 lit_0_30])
                (mkStrided [1; 1; 2]%nat [4; 2; 1]%nat [f32_one; f32_one]) 1 0 0 1)
      as (Hp & Hr & _); [reflexivity..|].
    split; [exact Hp | exact Hr].
  - destruct (precision_recall_guarded ex_output ex_targets 0 (PyFloat lit_0_80))
      as (_ & _ & H & _).
    destruct (H (mkStrided [1; 1; 2]%nat [4; 2; 1]%nat [f32_of_f64 lit_0_80; f32_of_f64 lit_0_30])
                (mkStrided [1; 1; 2]%nat [4; 2; 1]%nat [f32_one; f32_one]) 0 0 0 2)
      as (_ & _ & Hp & _); [reflexivity..|].
    apply Hp; reflexivity.
  - destruct (precision_recall_guarded ex_output ex_targets 1 default_threshold)
      as (_ & _ & _ & H).
    apply (H 1%nat 2%nat [1; 2]%nat); [reflexivity | reflexivity | lia].
Defined.

End PrecisionRecall.

Section BoundVariants.

(** C9. Each pre-bound variant, for every class in 0..3 and every
    threshold of the grid, returns what the general [precision] or
    [recall] returns when called with that class and threshold. *)
Theorem bound_variants_agree (output targets : tensor f32) :
  Forall (fun v : Z * f64 * metric_fn =>
            v.2 output targets = precision output targets v.1.1 (PyFloat v.1.2))
         precision_variants
  /\ Forall (fun v : Z * f64 * metric_fn =>
               v.2 output targets = recall output targets v.1.1 (PyFloat v.1.2))
            recall_variants
  /\ fst <$> precision_variants = grid
  /\ fst <$> recall_variants = grid.
Proof.
  split; [|split; [|split]].
  - unfold precision_variants. repeat (constructor; [reflexivity|]). constructor.
  - unfold recall_variants. repeat (constructor; [reflexivity|]). constructor.
  - reflexivity.
  - reflexivity.
Qed.

End BoundVariants.

Section DiceBatch.

Lemma dice_single_channel_scalar (o t : tensor f32) (thr eps : num) :
  viewable o = true -> viewable t = true ->
  length (data o) = length (data t) ->
  exists x, dice_single_channel o t thr eps = Ok (Scalar x).
Proof.
  intros Ho Ht Hl. rewrite dice_single_channel_viewed by assumption.
  destruct eps; cbn; eexists; reflexivity.
Qed.

Lemma index_bc_ok {A} (t : tensor A) (b : nat) (c : Z) (bs ch h w : nat) :
  shape t = [bs; ch; h; w] -> (b < bs)%nat -> - Z.of_nat ch <= c < Z.of_nat ch ->
  exists k, norm_index c ch = Ok k /\
    index_bc t (Z.of_nat b) c =
      Ok (mkStrided [h; w] (drop 2 (strides t))
            (slice (data t) ((b * ch + k) * numel_of [h; w]) (numel_of [h; w]))).
Proof.
  intros Hs Hb Hc. unfold index_bc. rewrite Hs.
  assert (Hn : norm_index (Z.of_nat b) bs = Ok b).
  { unfold norm_index. rewrite decide_True by lia. rewrite Nat2Z.id. reflexivity. }
  rewrite Hn. cbn [Py.bind].
  unfold norm_index.
  destruct (decide (0 <= c < Z.of_nat ch)); cbn [Py.bind].
  - eexists; split; reflexivity.
  - rewrite decide_True by lia. cbn [Py.bind]. eexists; split; reflexivity.
Qed.

Lemma slice_length_eq {A B} (l : list A) (l' : list B) (s n : nat) :
  length l = length l' -> length (slice l s n) = length (slice l' s n).
Proof. intros H. unfold slice. rewrite !length_take, !length_drop, H. reflexivity. Qed.

(** Once an item has been added, the total is a tensor. *)
Lemma dice_loop_scalar (c : Z) (output targets : tensor f32) (thr : num)
    (B ch h w : nat) (bs : list nat) (total : num) :
  shape output = [B; ch; h; w] -> shape targets = [B; ch; h; w] ->
  planes_viewable output = true -> planes_viewable targets = true ->
  length (data output) = length (data targets) ->
  - Z.of_nat ch <= c < Z.of_nat ch ->
  Forall (fun b => (b < B)%nat) bs ->
  (bs = [] -> is_scalar total = true) ->
  exists x, dice_loop c output targets thr bs total = Ok (Scalar x).
Proof.
  intros Ho Ht Hvo Hvt Hl Hc Hbs. revert total.
  unfold planes_viewable in Hvo, Hvt. rewrite Ho in Hvo. rewrite Ht in Hvt.
  induction Hbs as [|b bs Hb Hbs IH]; intros total Htot.
  - destruct total; try (specialize (Htot eq_refl); discriminate Htot).
    eexists; reflexivity.
  - cbn [dice_loop].
    destruct (index_bc_ok output b c B ch h w Ho Hb Hc) as (k & Hk & ->).
    destruct (index_bc_ok targets b c B ch h w Ht Hb Hc) as (k' & Hk' & ->).
    assert (k' = k) as -> by congruence.
    cbn [Py.bind].
    edestruct dice_single_channel_scalar as [d ->].
    { exact Hvo. }
    { exact Hvt. }
    { cbn [data]. apply slice_length_eq, Hl. }
    cbn [Py.bind]. apply IH. intros _.
    destruct total; reflexivity.
Qed.

(** C10. On a batch of size zero [dice_c], and with it [dice_0] to
    [dice_3] and [dice_mean], raise [ZeroDivisionError]: the total is
    still the Python float [0.0] and is divided by [B = 0]. On a batch
    that is not empty, tensors of one size whose slices [view] accepts
    and a class of the channel dimension, [dice_c] returns a tensor
    scalar. *)
Theorem dice_requires_nonempty_batch (c : Z) (output targets : tensor f32)
    (threshold : num) :
  (forall C H W, shape targets = [0%nat; C; H; W] ->
     dice_c c output targets threshold = Raise ZeroDivisionError
     /\ dice_0 output targets threshold = Raise ZeroDivisionError
     /\ dice_1 output targets threshold = Raise ZeroDivisionError
     /\ dice_2 output targets threshold = Raise ZeroDivisionError
     /\ dice_3 output targets threshold = Raise ZeroDivisionError
     /\ dice_mean output targets threshold = Raise ZeroDivisionError)
  /\ (forall B C H W,
        shape targets = [B; C; H; W] -> shape output = [B; C; H; W] ->
        well_formed output -> well_formed targets ->
        planes_viewable output = true -> planes_viewable targets = true ->
        - Z.of_nat C <= c < Z.of_nat C ->
        (0 < B)%nat ->
        exists x, dice_c c output targets threshold = Ok (Scalar x)).
Proof.
  split.
  - intros C H W Hs.
    assert (Hc : forall k, dice_c k output targets threshold = Raise ZeroDivisionError).
    { intros k. unfold dice_c, size4. rewrite Hs. reflexivity. }
    unfold dice_mean, dice_0, dice_1, dice_2, dice_3. rewrite !Hc. repeat split.
  - intros B C H W Ht Ho Hwo Hwt Hvo Hvt Hc HB.
    unfold dice_c, size4. rewrite Ht. cbn [Py.bind].
    destruct (dice_loop_scalar c output targets threshold B C H W (seq 0 B)
                (PyFloat lit_0_0)) as [x ->]; try assumption.
    + unfold well_formed, numel in Hwo, Hwt. rewrite Hwo, Hwt, Ho, Ht. reflexivity.
    + apply Forall_forall. intros b Hb. apply elem_of_seq in Hb. lia.
    + intros Hnil. destruct B; [lia|discriminate Hnil].
    + cbn [Py.bind num_truediv]. eexists; reflexivity.
Qed.

Lemma dice_requires_nonempty_batch_witness :
  dice_mean ex_empty ex_empty default_threshold = Raise ZeroDivisionError
  /\ exists x, dice_c 1 ex_output ex_targets default_threshold = Ok (Scalar x).
Proof.
  split.
  - destruct (dice_requires_nonempty_batch 0 ex_empty ex_empty default_threshold)
      as [H _].
    apply (H 4%nat 2%nat 2%nat). reflexivity.
  - destruct (dice_requires_nonempty_batch 1 ex_output ex_targets default_threshold)
      as [_ H].
    apply (H 1%nat 2%nat 1%nat 2%nat);
      [reflexivity | reflexivity | reflexivity | reflexivity
      | reflexivity | reflexivity | lia | lia].
Defined.

End DiceBatch.

(* ===================================================================== *)
(** * Properties of the managers                                          *)
(* ===================================================================== *)

Section Store.

Lemma getitem_peek (s : state) (v : value) (k : string) (x : value) :
  peek s v k = Some x -> getitem v k s = (s, Ok x).
Proof.
  unfold peek, getitem. destruct v; try discriminate.
  destruct (heap s !! l) as [d|]; cbn; [|discriminate].
  destruct (d !! k); cbn; congruence.
Qed.

Lemma getitem_ok (s s' : state) (v : value) (k : string) (x : value) :
  getitem v k s = (s', Ok x) -> s' = s /\ peek s v k = Some x.
Proof.
  unfold getitem, peek. destruct v; try (intros H; discriminate H).
  destruct (heap s !! l) as [d|]; cbn; [|intros H; discriminate H].
  destruct (d !! k); intros H; inversion H; auto.
Qed.

Lemma getitem_state (s s' : state) (v : value) (k : string) (r : result value) :
  getitem v k s = (s', r) -> s' = s.
Proof. unfold getitem. repeat case_match; congruence. Qed.

Lemma peek_logged (s : state) (evs : list event) (v : value) (k : string) :
  peek (logged s evs) v k = peek s v k.
Proof. reflexivity. Qed.

Lemma logged_logged (s : state) (e1 e2 : list event) :
  logged (logged s e1) e2 = logged s (e1 ++ e2).
Proof. unfold logged. cbn. rewrite <- app_assoc. reflexivity. Qed.

Lemma emit_logged (s : state) (e : event) : emit e s = (logged s [e], Ok tt).
Proof. reflexivity. Qed.

Lemma new_events_logged (s s1 : state) (evs : list event) :
  trace s1 = trace s -> new_events s (logged s1 evs) = evs.
Proof.
  intros H. unfold new_events, logged. cbn [trace]. rewrite H. apply drop_app_length.
Qed.

(** A dict that exists is not the one a copy allocates. *)
Lemma peek_alloc (s : state) (d : gmap string value) (tr : list event)
    (v : value) (k : string) (x : value) :
  peek s v k = Some x ->
  peek (mkState (<[fresh (dom (heap s)) := d]> (heap s)) tr) v k = Some x.
Proof.
  unfold peek. destruct v; try discriminate. cbn [heap].
  destruct (heap s !! l) as [d0|] eqn:Hl; [|discriminate].
  intros H. rewrite lookup_insert_ne; [rewrite Hl; exact H|].
  intros <-. apply (is_fresh (dom (heap s))). apply elem_of_dom. eauto.
Qed.

Lemma dict_copy_peek (s : state) (v : value) (k : string) (x : value) :
  peek s v k = Some x ->
  exists l d, v = VRef l /\ heap s !! l = Some d /\
    dict_copy v s
    = (mkState (<[fresh (dom (heap s)) := d]> (heap s)) (trace s),
       Ok (VRef (fresh (dom (heap s))))).
Proof.
  unfold peek, dict_copy. destruct v; try discriminate.
  destruct (heap s !! l) as [d|] eqn:Hl; [|discriminate].
  intros _. exists l, d. auto.
Qed.

End Store.

(** One step of a computation whose first action is known. *)
Ltac step :=
  unfold mbind at 1;
  first
    [ rewrite emit_logged, ?logged_logged
    | erewrite getitem_peek by (rewrite ?peek_logged; eassumption) ].

Section DeviceSetup.

Lemma max_list_ge (l : list Z) (x : Z) : x ∈ l -> x <= max_list l.
Proof.
  unfold max_list. generalize (hd 0 l). intros d.
  induction 1 as [x l|x y l _ IH]; cbn [foldr]; lia.
Qed.

Lemma max_list_in (l : list Z) : l <> [] -> max_list l ∈ l.
Proof.
  destruct l as [|a l]; [congruence|]. intros _. unfold max_list. cbn [hd].
  assert (H : forall d l', d ∈ (a :: l) -> (forall x, x ∈ l' -> x ∈ (a :: l)) ->
                foldr Z.max d l' ∈ (a :: l)).
  { intros d l'. revert d.
    induction l' as [|b l' IH]; intros d Hd Hl'; cbn [foldr]; [exact Hd|].
    destruct (Z.max_spec b (foldr Z.max d l')) as [[_ ->]|[_ ->]].
    - apply IH; [exact Hd|]. intros x Hx. apply Hl'. right. exact Hx.
    - apply Hl'. left. }
  apply H; [left|auto].
Qed.

(** With [n > 0] devices the largest available index is [n - 1]. *)
Lemma max_available (n : nat) :
  (0 < n)%nat -> max_list (Z.of_nat <$> seq 0 n) = Z.of_nat n - 1.
Proof.
  intros Hn. apply Z.le_antisymm.
  - assert (Hin : max_list (Z.of_nat <$> seq 0 n) ∈ (Z.of_nat <$> seq 0 n)).
    { apply max_list_in. destruct n; [lia|discriminate]. }
    apply list_elem_of_fmap in Hin as (i & -> & Hi). apply elem_of_seq in Hi. lia.
  - apply max_list_ge. apply list_elem_of_fmap. exists (n - 1)%nat. split; [lia|].
    apply elem_of_seq. lia.
Qed.

Lemma no_devices (n : nat) : (Z.of_nat <$> seq 0 n) = [] <-> n = 0%nat.
Proof. destruct n; split; intros H; try reflexivity; try discriminate; lia. Qed.

(** C6. [setup_device]: with no device available, or none requested,
    the model is moved to the CPU and the CPU device returned, without
    error; with devices available and a requested index above the
    largest available one, it raises; otherwise, when every requested
    index is the index of a device (not negative), several requested
    devices wrap the model in [DataParallel] and a single one has the
    model moved to it; and when the first requested index is negative,
    [torch.device] raises [RuntimeError] and nothing is returned. *)
Theorem setup_device_cases (E : env) (model : obj) (target_devices : list Z)
    (s : state) :
  let n := cuda_device_count E in
  (n = 0%nat \/ target_devices = [] ->
     exists ev, setup_device E model target_devices s
                = (logged s [ev], Ok (To model Cpu, Cpu)))
  /\ ((0 < n)%nat -> (exists i, i ∈ target_devices /\ Z.of_nat n - 1 < i) ->
      exists s' msg,
        setup_device E model target_devices s = (s', Raise (Exception msg))
        /\ heap s' = heap s)
  /\ ((0 < n)%nat -> target_devices <> [] ->
      (forall i, i ∈ target_devices -> 0 <= i <= Z.of_nat n - 1) ->
      exists ev,
        ((1 < length target_devices)%nat ->
           setup_device E model target_devices s
           = (logged s [ev],
              Ok (DataParallel model target_devices, Cuda (hd 0 target_devices))))
        /\ (length target_devices = 1%nat ->
           setup_device E model target_devices s
           = (logged s [ev],
              Ok (To model (Cuda (hd 0 target_devices)), Cuda (hd 0 target_devices)))))
  /\ ((0 < n)%nat -> target_devices <> [] ->
      (forall i, i ∈ target_devices -> i <= Z.of_nat n - 1) ->
      hd 0 target_devices < 0 ->
      exists ev,
        setup_device E model target_devices s = (logged s [ev], Raise RuntimeError)).
Proof.
  intros n. unfold setup_device. fold n. split; [|split; [|split]].
  - intros [Hn|Ht].
    + rewrite bool_decide_eq_true_2 by (apply no_devices; exact Hn).
      eexists. reflexivity.
    + destruct (bool_decide (Z.of_nat <$> seq 0 n = [])); [eexists; reflexivity|].
      rewrite bool_decide_eq_true_2 by exact Ht. eexists. reflexivity.
  - intros Hn (i & Hi & Hlt).
    rewrite bool_decide_eq_false_2 by (rewrite no_devices; lia).
    rewrite bool_decide_eq_false_2 by (intros ->; inversion Hi).
    rewrite max_available by exact Hn.
    pose proof (max_list_ge _ _ Hi) as Hmax.
    rewrite (proj2 (Z.ltb_lt _ _)) by lia.
    do 2 eexists. split; reflexivity.
  - intros Hn Hne Hall.
    rewrite bool_decide_eq_false_2 by (rewrite no_devices; lia).
    rewrite bool_decide_eq_false_2 by exact Hne.
    rewrite max_available by exact Hn.
    pose proof (Hall _ (max_list_in _ Hne)) as Hmax.
    rewrite (proj2 (Z.ltb_ge _ _)) by lia.
    assert (Hhd : 0 <= hd 0 target_devices).
    { destruct target_devices as [|a l]; [congruence|]. apply (Hall a). left. }
    assert (Hids : forallb (fun i => 0 <=? i) target_devices = true).
    { apply forallb_forall. intros i Hi. apply Z.leb_le.
      apply (Hall i), list_elem_of_In, Hi. }
    unfold mbind at 1. rewrite emit_logged.
    unfold mbind at 1, lift at 1, cuda_device.
    rewrite (proj2 (Z.ltb_ge _ _)) by exact Hhd.
    eexists. split; intros Hlen.
    + rewrite (proj2 (Nat.ltb_lt _ _)) by exact Hlen.
      unfold mbind, lift, data_parallel. rewrite Hids. reflexivity.
    + rewrite Hlen. reflexivity.
  - intros Hn Hne Hall Hneg.
    rewrite bool_decide_eq_false_2 by (rewrite no_devices; lia).
    rewrite bool_decide_eq_false_2 by exact Hne.
    rewrite max_available by exact Hn.
    pose proof (Hall _ (max_list_in _ Hne)) as Hmax.
    rewrite (proj2 (Z.ltb_ge _ _)) by lia.
    unfold mbind at 1. rewrite emit_logged.
    unfold mbind at 1, lift at 1, cuda_device.
    rewrite (proj2 (Z.ltb_lt _ _)) by exact Hneg.
    eexists. reflexivity.
Qed.

Lemma setup_device_cases_witness :
  (exists ev, setup_device (demo_env 0) (OVal VNone) [0; 1] demo_state
              = (logged demo_state [ev], Ok (To (OVal VNone) Cpu, Cpu)))
  /\ (exists s' msg, setup_device (demo_env 2) (OVal VNone) [0; 5] demo_state
                     = (s', Raise (Exception msg)) /\ heap s' = heap demo_state)
  /\ (exists ev, setup_device (demo_env 2) (OVal VNone) [0; 1] demo_state
                 = (logged demo_state [ev],
                    Ok (DataParallel (OVal VNone) [0; 1], Cuda 0)))
  /\ (exists ev, setup_device (demo_env 2) (OVal VNone) [1] demo_state
                 = (logged demo_state [ev], Ok (To (OVal VNone) (Cuda 1), Cuda 1)))
  /\ (exists ev, setup_device (demo_env 2) (OVal VNone) [-1] demo_state
                 = (logged demo_state [ev], Raise RuntimeError)).
Proof.
  split; [|split; [|split; [|split]]].
  - apply (setup_device_cases (demo_env 0) (OVal VNone) [0; 1] demo_state).
    left. reflexivity.
  - apply (setup_device_cases (demo_env 2) (OVal VNone) [0; 5] demo_state).
    + cbn. lia.
    + exists 5. split; [apply list_elem_of_further, list_elem_of_here | cbn; lia].
  - destruct (setup_device_cases (demo_env 2) (OVal VNone) [0; 1] demo_state)
      as (_ & _ & H & _).
    destruct H as (ev & H & _).
    + cbn. lia.
    + discriminate.
    + intros i Hi. apply list_elem_of_In in Hi. cbn in *. lia.
    + exists ev. apply H. cbn. lia.
  - destruct (setup_device_cases (demo_env 2) (OVal VNone) [1] demo_state)
      as (_ & _ & H & _).
    destruct H as (ev & _ & H).
    + cbn. lia.
    + discriminate.
    + intros i Hi. apply list_elem_of_In in Hi. cbn in *. lia.
    + exists ev. apply H. reflexivity.
  - apply (setup_device_cases (demo_env 2) (OVal VNone) [-1] demo_state).
    + cbn. lia.
    + discriminate.
    + intros i Hi. apply list_elem_of_In in Hi. cbn in *. lia.
    + cbn. lia.
Defined.

(** C6, as stated, fails in its last case: a single requested device is
    not always the device the model is placed on. With two devices
    available and the request [[-1]], no index exceeds the largest
    available one, and [setup_device] raises [RuntimeError] where the
    device is made, instead of returning. *)
Lemma negative_index_is_not_placed : ~ single_request_is_placed.
Proof.
  intros H.
  destruct (H (demo_env 2) (OVal VNone) (-1) demo_state) as [s' Hs'].
  - cbn. lia.
  - cbn. lia.
  - vm_compute in Hs'. discriminate Hs'.
Qed.

End DeviceSetup.

Section Resume.



End Resume.

Section ScoreCheck.

Lemma SFcompare_antisym (a b : spec_float) :
  SFcompare b a = option_map CompOpp (SFcompare a b).
Proof.
  destruct a as [[]|[]| |[] m1 e1], b as [[]|[]| |[] m2 e2]; try reflexivity;
    cbn [SFcompare option_map];
    rewrite (Z.compare_antisym e1 e2); destruct (e1 ?= e2); cbn [CompOpp];
    try reflexivity;
    rewrite (Pos.compare_cont_antisym m1 m2); cbn [CompOpp];
    destruct (Pos.compare_cont Eq m1 m2); reflexivity.
Qed.

Lemma f_leb_not_ltb (a b : spec_float) : SFleb b a = true -> f_ltb a b = false.
Proof.
  unfold SFleb, f_ltb, SFltb. rewrite (SFcompare_antisym a b).
  destruct (SFcompare a b) as [[]|]; cbn; congruence.
Qed.

Lemma string_leb_not_ltb (a b : string) :
  String.leb b a = true -> String.ltb a b = false.
Proof.
  unfold String.leb, String.ltb. rewrite (String.compare_antisym a b).
  destruct (String.compare b a); cbn; congruence.
Qed.

(** A score at or above the threshold is not below it. *)
Lemma py_ge_not_lt (a b : value) : py_ge a b = Ok true -> py_lt a b = Ok false.
Proof.
  destruct a, b; cbn [py_ge py_lt]; try discriminate;
    intros H; injection H as H; f_equal.
  - lia.
  - apply bool_decide_eq_true in H. apply bool_decide_eq_false.
    destruct H as [H|H]; rewrite H; discriminate.
  - apply bool_decide_eq_true in H. apply bool_decide_eq_false.
    destruct H as [H|H]; rewrite H; discriminate.
  - apply f_leb_not_ltb, H.
  - apply string_leb_not_ltb, H.
Qed.

Lemma extract_score_peek (s : state) (checkpoint mb : value) :
  peek s checkpoint "monitor_best" = Some mb ->
  extract_score checkpoint s = (s, Ok (unwrap mb)).
Proof.
  intros H. unfold extract_score. unfold mbind. rewrite (getitem_peek _ _ _ _ H).
  destruct mb; reflexivity.
Qed.

Lemma check_score_low (self : manager) (s : state) (checkpoint mb thr : value) :
  peek s checkpoint "monitor_best" = Some mb ->
  peek s (cfg self) "score_threshold" = Some thr ->
  py_lt (unwrap mb) thr = Ok true ->
  check_score self checkpoint s
  = (logged s [EvLog Info [Lit "Best score: "; Fmt (unwrap mb)]; EvLog Warning rejection],
     Raise (Exception rejection)).
Proof.
  intros Hmb Hthr Hlt. unfold check_score.
  unfold mbind at 1. rewrite (extract_score_peek _ _ _ Hmb).
  do 2 step. unfold mbind at 1. unfold lift. rewrite Hlt.
  step. reflexivity.
Qed.

Lemma check_score_pass (self : manager) (s : state) (checkpoint mb thr : value) :
  peek s checkpoint "monitor_best" = Some mb ->
  peek s (cfg self) "score_threshold" = Some thr ->
  py_lt (unwrap mb) thr = Ok false ->
  check_score self checkpoint s
  = (logged s [EvLog Info [Lit "Best score: "; Fmt (unwrap mb)]], Ok (unwrap mb)).
Proof.
  intros Hmb Hthr Hlt. unfold check_score.
  unfold mbind at 1. rewrite (extract_score_peek _ _ _ Hmb).
  do 2 step. unfold mbind at 1. unfold lift. rewrite Hlt. reflexivity.
Qed.

(** C4. A checkpoint whose [monitor_best], a scalar tensor read as its
    number, is below [score_threshold] makes [check_score] raise, and
    makes [InferenceManager.run] raise with no class instantiated up to
    there; a score at or above the threshold passes the check, which
    returns it. *)
Theorem low_score_rejected (E : env) (self : manager) (s : state)
    (checkpoint mb thr : value) :
  peek s checkpoint "monitor_best" = Some mb ->
  peek s (cfg self) "score_threshold" = Some thr ->
  (py_lt (unwrap mb) thr = Ok true ->
     (exists s', check_score self checkpoint s = (s', Raise (Exception rejection))
                 /\ existsb is_call (new_events s s') = false)
     /\ (forall path, torch_load E path = Ok checkpoint ->
           exists s' e, inference_run E self path s = (s', Raise e)
                        /\ existsb is_call (new_events s s') = false))
  /\ (py_ge (unwrap mb) thr = Ok true ->
      exists s', check_score self checkpoint s = (s', Ok (unwrap mb))
                 /\ heap s' = heap s).
Proof.
  intros Hmb Hthr. split.
  - intros Hlt. split.
    + eexists. rewrite (check_score_low _ _ _ _ _ Hmb Hthr Hlt). split; [reflexivity|].
      rewrite new_events_logged by reflexivity. reflexivity.
    + intros path Hload. unfold inference_run.
      destruct (dict_copy_peek _ _ _ _ Hthr) as (l & d & Hself & Hl & Hcopy).
      unfold mbind at 1. rewrite Hcopy.
      set (s1 := mkState _ (trace s)).
      assert (Hs1 : trace s1 = trace s) by reflexivity.
      unfold mbind at 1.
      destruct (getitem (VRef (fresh (dom (heap s)))) "device" s1) as [s2 [dv|e]] eqn:Hdev;
        apply getitem_state in Hdev as ->.
      2:{ do 2 eexists. split; [reflexivity|].
          unfold new_events. rewrite Hs1, drop_all. reflexivity. }
      step. unfold mbind at 1.
      destruct (cuda_set_device_raises E (inference_setup_device dv)) as [e|].
      { unfold raise. do 2 eexists. split; [reflexivity|].
        rewrite new_events_logged by exact Hs1. reflexivity. }
      unfold ret at 1. unfold mbind at 1. unfold load_checkpoint.
      do 2 step. unfold lift. rewrite Hload.
      unfold mbind at 1.
      erewrite check_score_low; [| | |exact Hlt].
      * do 2 eexists. split; [reflexivity|].
        rewrite logged_logged, new_events_logged by exact Hs1. reflexivity.
      * rewrite peek_logged. apply peek_alloc. exact Hmb.
      * rewrite peek_logged. apply peek_alloc. exact Hthr.
  - intros Hge. eexists.
    rewrite (check_score_pass _ _ _ _ _ Hmb Hthr (py_ge_not_lt _ _ Hge)).
    split; reflexivity.
Qed.

Lemma low_score_rejected_witness :
  (exists s' e,
      inference_run (demo_env 0) inference_manager "saved/radam/checkpoint.pth" demo_state
      = (s', Raise e)
      /\ existsb is_call (new_events demo_state s') = false)
  /\ (exists s',
        check_score inference_manager (VRef 30%positive) demo_state
        = (s', Ok (VFloat lit_0_70))
        /\ heap s' = heap demo_state).
Proof.
  split.
  - destruct (low_score_rejected (demo_env 0) inference_manager demo_state
                (VRef 20%positive) (VTensor (f32_of_f64 lit_0_50)) (VFloat lit_0_60))
      as [H _]; [vm_compute; reflexivity | vm_compute; reflexivity |].
    destruct H as [_ H]; [vm_compute; reflexivity|].
    apply (H "saved/radam/checkpoint.pth"). reflexivity.
  - destruct (low_score_rejected (demo_env 0) inference_manager demo_state
                (VRef 30%positive) (VFloat lit_0_70) (VFloat lit_0_60))
      as [_ H]; [vm_compute; reflexivity | vm_compute; reflexivity |].
    apply H. vm_compute. reflexivity.
Defined.

End ScoreCheck.

Section TestTimeAugmentation.

Lemma tta_wrapper_ok (E : env) (model : obj) (config : value)
    (device : device) (s : state) (name : string) :
  peek s config "tta" = Some (VStr name) ->
  has_attr E tta name = true ->
  ctor_raises E tta name [model; flips] {[ "merge_mode" := OVal (VStr "mean") ]} = None ->
  build_tta_model E model config device s
  = (logged s [EvCall tta name],
     Ok (To (New tta name [model; flips] {[ "merge_mode" := OVal (VStr "mean") ]}) device)).
Proof.
  intros Hpeek Hattr Hctor. unfold build_tta_model.
  step. unfold mbind at 1. unfold getattr. rewrite Hattr.
  unfold ret at 1. unfold mbind at 1. unfold construct. step.
  fold flips. rewrite Hctor. reflexivity.
Qed.

(** C7, as the code has it. Whenever [build_tta_model] returns, the
    wrapper is the class that the configuration names under ["tta"],
    built over the horizontal and the vertical flip, and its merge mode
    is the constant ["mean"], whatever the configuration holds. *)
Theorem tta_wrapper_built (E : env) (model : obj) (config : value)
    (device : device) (s s' : state) (w : obj) :
  build_tta_model E model config device s = (s', Ok w) ->
  exists name,
    peek s config "tta" = Some (VStr name)
    /\ w = To (New tta name [model; flips] {[ "merge_mode" := OVal (VStr "mean") ]}) device
    /\ merge_mode_of w = Some (VStr "mean")
    /\ s' = logged s [EvCall tta name].
Proof.
  unfold build_tta_model. unfold mbind at 1.
  destruct (getitem config "tta" s) as [s1 [name|e]] eqn:Hget; [|intros H; discriminate H].
  apply getitem_ok in Hget as [-> Hpeek].
  unfold mbind at 1. unfold getattr.
  destruct name as [| | |n| | | |]; try (intros H; discriminate H).
  destruct (has_attr E tta n); [|intros H; discriminate H].
  unfold ret at 1. unfold mbind at 1. unfold construct. unfold mbind at 1.
  rewrite emit_logged.
  destruct (ctor_raises E tta n _ _); [intros H; discriminate H|].
  unfold ret. intros H. inversion H; subst. exists n.
  split; [exact Hpeek|]. split; [reflexivity|]. split; reflexivity.
Qed.

Lemma tta_wrapper_built_witness :
  exists s' w,
    build_tta_model (demo_env 0) (OVal VNone) (VRef 40%positive) Cpu demo_state
      = (s', Ok w)
    /\ peek demo_state (VRef 40%positive) "tta" = Some (VStr "SegmentationTTAWrapper")
    /\ peek demo_state (VRef 40%positive) "merge_mode" = Some (VStr "max")
    /\ merge_mode_of w = Some (VStr "mean").
Proof.
  assert (Hb : build_tta_model (demo_env 0) (OVal VNone) (VRef 40%positive) Cpu demo_state
               = (logged demo_state [EvCall tta "SegmentationTTAWrapper"],
                  Ok (To (New tta "SegmentationTTAWrapper" [OVal VNone; flips]
                            {[ "merge_mode" := OVal (VStr "mean") ]}) Cpu)))
    by (vm_compute; reflexivity).
  do 2 eexists. split; [exact Hb|].
  split; [vm_compute; reflexivity|]. split; [vm_compute; reflexivity|].
  destruct (tta_wrapper_built _ _ _ _ _ _ _ Hb) as (name & _ & _ & Hm & _).
  exact Hm.
Defined.

(** C7, as stated, fails: the merge mode is no entry of the
    configuration. A configuration holding ["max"] under any key still
    gets a wrapper that merges by ["mean"]. *)
Lemma tta_merge_mode_not_configured : ~ exists key, merge_mode_taken_from key.
Proof.
  intros [key Hkey].
  assert (Hpeek : peek (tta_state key) (VRef 1%positive) key = Some (VStr "max")).
  { unfold peek, tta_state. cbn [heap]. rewrite lookup_singleton_eq. cbn.
    apply lookup_insert_eq. }
  assert (Hname : exists name,
             peek (tta_state key) (VRef 1%positive) "tta" = Some (VStr name)).
  { unfold peek, tta_state. cbn [heap]. rewrite lookup_singleton_eq. cbn.
    destruct (decide (key = "tta")) as [->|Hne].
    - exists "max". apply lookup_insert_eq.
    - exists "SegmentationTTAWrapper". rewrite lookup_insert_ne by exact Hne.
      apply lookup_singleton_eq. }
  destruct Hname as [name Hname].
  pose proof (tta_wrapper_ok (demo_env 1) (OVal VNone) _ Cpu _ _ Hname eq_refl eq_refl)
    as Hb.
  pose proof (Hkey _ _ _ _ _ _ _ _ Hpeek Hb) as Hm.
  cbn [merge_mode_of] in Hm. rewrite lookup_singleton_eq in Hm. discriminate Hm.
Qed.

End TestTimeAugmentation.

Section ConfigurationSharing.

(** C8 fails on the code. The run works on [self.cfg.copy()], a copy
    that shares the nested dicts; when the augmentation named by the
    configuration cannot be built, the fallback writes
    ["LightTransforms"] into the shared augmentation block. When the run
    ends the top-level dict of the manager is as it was, and the
    augmentation type read through it has changed. *)
Theorem fallback_rewrites_manager_config :
  peek2 demo_state (cfg training_manager) "augmentation" "type"
    = Some (VStr "HeavyTransforms")
  /\ exists s',
       training_run (demo_env 0) training_manager None demo_state
         = (s', Ok (VStr "saved"))
       /\ heap s' !! 1%positive = heap demo_state !! 1%positive
       /\ peek2 s' (cfg training_manager) "augmentation" "type"
          = Some (VStr "LightTransforms").
Proof.
  split; [vm_compute; reflexivity|].
  eexists. split; [|split].
  - vm_compute. reflexivity.
  - vm_compute. reflexivity.
  - vm_compute. reflexivity.
Qed.

End ConfigurationSharing.

(* ===================================================================== *)
(** * Further properties of the managers                                  *)
(* ===================================================================== *)

Section Respect.

Context {A B : Type}.
Variable R : state -> state -> Prop.
Hypothesis R_refl : forall s, R s s.
Hypothesis R_trans : forall s1 s2 s3, R s1 s2 -> R s2 s3 -> R s1 s3.

Lemma respects_ret (a : A) : respects R (ret a).
Proof using R_refl. intros s s' r H. inversion H; subst. apply R_refl. Qed.

Lemma respects_raise (e : exn) : respects R (@raise A e).
Proof using R_refl. intros s s' r H. inversion H; subst. apply R_refl. Qed.

Lemma respects_lift (x : result A) : respects R (lift x).
Proof using R_refl. intros s s' r H. inversion H; subst. apply R_refl. Qed.

Lemma respects_bind (m : M A) (k : A -> M B) :
  respects R m -> (forall a, respects R (k a)) -> respects R (mbind m k).
Proof using R_trans.
  intros Hm Hk s s' r. unfold mbind.
  destruct (m s) as [s1 [a|e]] eqn:Hms; intros H.
  - eapply R_trans; [eapply Hm; exact Hms | eapply Hk; exact H].
  - inversion H; subst. eapply Hm; exact Hms.
Qed.

Lemma respects_try (m h : M A) :
  respects R m -> respects R h -> respects R (try_except m h).
Proof using R_trans.
  intros Hm Hh s s' r. unfold try_except.
  destruct (m s) as [s1 [a|e]] eqn:Hms; intros H.
  - inversion H; subst. eapply Hm; exact Hms.
  - eapply R_trans; [eapply Hm; exact Hms | eapply Hh; exact H].
Qed.

End Respect.

Section StoreRelations.

Lemma same_heap_refl (s : state) : same_heap s s.
Proof. reflexivity. Qed.

Lemma same_heap_trans (s1 s2 s3 : state) :
  same_heap s1 s2 -> same_heap s2 s3 -> same_heap s1 s3.
Proof. unfold same_heap. congruence. Qed.

End StoreRelations.

(** Splits a goal [respects R m] along the structure of [m], given that
    [R] is reflexive and transitive; what is left is closed by the
    lemmas of the database [respect]. *)
Ltac respect_steps Hrefl Htrans :=
  repeat first
    [ progress intros
    | apply (respects_ret _ Hrefl)
    | apply (respects_raise _ Hrefl)
    | apply (respects_lift _ Hrefl)
    | apply (respects_bind _ Htrans)
    | apply (respects_try _ Htrans)
    | match goal with
      | |- respects _ (match ?x with _ => _ end) => destruct x
      end
    | solve [eauto with respect] ].

Create HintDb respect.

Section ReadOnly.

Variable E : env.

Lemma getitem_same_heap (v : value) (k : string) : respects same_heap (getitem v k).
Proof.
  intros s s' r H. apply getitem_state in H. subst. reflexivity.
Qed.

Lemma unpack_same_heap (v : value) : respects same_heap (unpack v).
Proof.
  intros s s' r. unfold unpack. repeat case_match; intros Heq; inversion Heq; reflexivity.
Qed.

Lemma emit_same_heap (e : event) : respects same_heap (emit e).
Proof. intros s s' r H. inversion H. reflexivity. Qed.

#[local] Hint Resolve getitem_same_heap unpack_same_heap emit_same_heap : respect.

Lemma getattr_same_heap (module : string) (name : value) :
  respects same_heap (getattr E module name).
Proof.
  unfold getattr. respect_steps same_heap_refl same_heap_trans.
Qed.

Lemma construct_same_heap (module name : string) (args : list obj)
    (kwargs : gmap string obj) :
  respects same_heap (construct E module name args kwargs).
Proof.
  unfold construct. respect_steps same_heap_refl same_heap_trans.
Qed.

#[local] Hint Resolve getattr_same_heap construct_same_heap : respect.

Lemma get_instance_same_heap (module name : string) (config : value)
    (args : list obj) :
  respects same_heap (get_instance E module name config args).
Proof.
  unfold get_instance. respect_steps same_heap_refl same_heap_trans.
Qed.

Lemma load_checkpoint_same_heap (path : string) (device : device) :
  respects same_heap (load_checkpoint E path device).
Proof.
  unfold load_checkpoint. respect_steps same_heap_refl same_heap_trans.
Qed.

Lemma extract_score_same_heap (checkpoint : value) :
  respects same_heap (extract_score checkpoint).
Proof.
  unfold extract_score. respect_steps same_heap_refl same_heap_trans.
Qed.

#[local] Hint Resolve extract_score_same_heap : respect.

Lemma check_score_same_heap (self : manager) (checkpoint : value) :
  respects same_heap (check_score self checkpoint).
Proof.
  unfold check_score. respect_steps same_heap_refl same_heap_trans.
Qed.

Lemma build_tta_model_same_heap (model : obj) (config : value) (device : device) :
  respects same_heap (build_tta_model E model config device).
Proof.
  unfold build_tta_model. respect_steps same_heap_refl same_heap_trans.
Qed.

Lemma group_name_same_heap (train_cfg : value) :
  respects same_heap (get_group_name_for_config train_cfg).
Proof.
  unfold get_group_name_for_config. respect_steps same_heap_refl same_heap_trans.
Qed.

#[local] Hint Resolve group_name_same_heap : respect.

Lemma build_h5_writer_same_heap (config train_cfg : value)
    (model_checkpoint : string) (score : value) :
  respects same_heap (build_h5_writer E config train_cfg model_checkpoint score).
Proof.
  unfold build_h5_writer. respect_steps same_heap_refl same_heap_trans.
Qed.

End ReadOnly.

#[global] Hint Resolve getitem_same_heap unpack_same_heap emit_same_heap
  getattr_same_heap construct_same_heap get_instance_same_heap
  load_checkpoint_same_heap extract_score_same_heap
  check_score_same_heap build_tta_model_same_heap group_name_same_heap
  build_h5_writer_same_heap : respect.


Section Inversion.

Context {A B : Type}.

Lemma bind_inv (m : M A) (k : A -> M B) (s s' : state) (r : result B) :
  mbind m k s = (s', r) ->
  (exists a s1, m s = (s1, Ok a) /\ k a s1 = (s', r))
  \/ (exists e, m s = (s', Raise e) /\ r = Raise e).
Proof.
  unfold mbind. destruct (m s) as [s1 [a|e]]; intros H.
  - left. eauto.
  - right. inversion H; subst. eauto.
Qed.

Lemma bind_ok (m : M A) (k : A -> M B) (s s' : state) (b : B) :
  mbind m k s = (s', Ok b) ->
  exists a s1, m s = (s1, Ok a) /\ k a s1 = (s', Ok b).
Proof.
  intros H. apply bind_inv in H as [H|(e & _ & He)]; [exact H|discriminate He].
Qed.

End Inversion.

Section GetInstance.

Variable E : env.

Lemma peek_heap (s1 s2 : state) (v : value) (k : string) :
  heap s2 = heap s1 -> peek s2 v k = peek s1 v k.
Proof. intros H. unfold peek. rewrite H. reflexivity. Qed.



End GetInstance.


Section Copies.

Lemma dict_copy_inv (v c : value) (s s1 : state) :
  dict_copy v s = (s1, Ok c) ->
  exists l d,
    v = VRef l /\ heap s !! l = Some d
    /\ c = VRef (fresh (dom (heap s)))
    /\ s1 = mkState (<[fresh (dom (heap s)) := d]> (heap s)) (trace s).
Proof.
  unfold dict_copy. destruct v; try discriminate.
  destruct (heap s !! l) as [d|] eqn:Hl; [|discriminate].
  intros H. inversion H. exists l, d. auto.
Qed.

Lemma fresh_loc_unused (s : state) (l : loc) (d : gmap string value) :
  heap s !! l = Some d -> l <> fresh (dom (heap s)).
Proof.
  intros Hl ->. apply (is_fresh (dom (heap s))). apply elem_of_dom. eauto.
Qed.

End Copies.

Section ParameterGroups.

Variable E : env.

Lemma substring_all (s : string) : String.substring 0 (String.length s) s = s.
Proof. induction s as [|c s IH]; cbn; [reflexivity|]. rewrite IH. reflexivity. Qed.

Lemma substring_suffix (prefix suffix : string) :
  String.substring (String.length prefix) (String.length suffix) (prefix +:+ suffix)
  = suffix.
Proof.
  induction prefix as [|c prefix IH]; cbn; [apply substring_all|exact IH].
Qed.

Lemma length_app_string (a b : string) :
  String.length (a +:+ b) = (String.length a + String.length b)%nat.
Proof.
  induction a as [|c a IH]; [reflexivity|].
  change (S (String.length (a +:+ b)) = S (String.length a + String.length b)).
  rewrite IH. reflexivity.
Qed.

Lemma substring_split (s : string) (i : nat) :
  (i <= String.length s)%nat ->
  s = String.substring 0 i s +:+ String.substring i (String.length s - i) s.
Proof.
  revert i. induction s as [|c s IH]; intros i Hi.
  - cbn in Hi. assert (i = 0%nat) as -> by lia. reflexivity.
  - destruct i as [|i].
    + simpl. rewrite substring_all. reflexivity.
    + cbn in Hi.
      change (String c s
              = String c (String.substring 0 i s
                          +:+ String.substring i (String.length s - i) s)).
      f_equal. apply IH. lia.
Qed.

(** [endswith] is the test that Python's [str.endswith] makes. *)
Lemma endswith_spec (name suffix : string) :
  endswith name suffix = true <-> ends_with name suffix.
Proof.
  unfold endswith, ends_with. split.
  - destruct (Nat.leb_spec (String.length suffix) (String.length name)) as [Hle|Hlt];
      [|discriminate].
    intros H. apply String.eqb_eq in H.
    exists (String.substring 0 (String.length name - String.length suffix) name).
    set (k := String.length suffix) in *.
    pose proof (substring_split name (String.length name - k) ltac:(lia)) as Hs.
    replace (String.length name - (String.length name - k))%nat with k in Hs by lia.
    rewrite H in Hs. exact Hs.
  - intros [prefix ->]. rewrite length_app_string.
    destruct (Nat.leb_spec (String.length suffix)
                (String.length prefix + String.length suffix)) as [_|Hlt]; [|lia].
    replace (String.length prefix + String.length suffix - String.length suffix)%nat
      with (String.length prefix) by lia.
    rewrite substring_suffix. apply String.eqb_refl.
Qed.

(** The two comprehensions over the named parameters split them. *)
Lemma filters_split (named : list (string * obj)) :
  split_by_bias named
    (snd <$> filter (fun np => endswith np.1 "bias" <> true) named)
    (snd <$> filter (fun np => endswith np.1 "bias" = true) named).
Proof.
  exists (filter (fun np => endswith np.1 "bias" <> true) named),
         (filter (fun np => endswith np.1 "bias" = true) named).
  split; [reflexivity|]. split; [reflexivity|]. split; [|split; [|split; [|split]]].
  - rewrite (comm (++)). apply filter_app_complement.
  - apply sublist_filter.
  - apply sublist_filter.
  - apply Forall_forall. intros np Hnp. apply list_elem_of_filter in Hnp as [Hb _].
    intros He. apply Hb, endswith_spec, He.
  - apply Forall_forall. intros np Hnp. apply list_elem_of_filter in Hnp as [Hb _].
    apply endswith_spec, Hb.
Qed.

Lemma unpack_ok (v : value) (s s' : state) (kw : gmap string obj) :
  unpack v s = (s', Ok kw) ->
  s' = s /\ exists l d, v = VRef l /\ heap s !! l = Some d /\ kw = OVal <$> d.
Proof.
  unfold unpack. destruct v; try (intros H; discriminate H).
  destruct (heap s !! l) as [d|] eqn:Hl; [|intros H; discriminate H].
  intros H. inversion H; subst. split; [reflexivity|]. exists l, d. auto.
Qed.

Lemma lift_ok {A} (r : result A) (s s' : state) (a : A) :
  lift r s = (s', Ok a) -> s' = s /\ r = Ok a.
Proof. unfold lift. intros H. inversion H. auto. Qed.

Lemma classifier_groups_ok (model : obj) (config : value) (s s' : state)
    (groups : obj) :
  setup_param_groups_classifier E model config s = (s', Ok groups) ->
  exists la kw,
    peek s config "args" = Some (VRef la) /\ heap s !! la = Some kw
    /\ groups
       = OList [group kw (snd <$> filter (fun np => endswith np.1 "bias" <> true)
                                    (named_parameters E model));
                group kw (snd <$> filter (fun np => endswith np.1 "bias" = true)
                                    (named_parameters E model))]
    /\ s' = logged s
              [found (length (filter (fun np => endswith np.1 "bias" <> true)
                                (named_parameters E model))) " weight params";
               found (length (filter (fun np => endswith np.1 "bias" = true)
                                (named_parameters E model))) " bias params"].
Proof.
  unfold setup_param_groups_classifier. intros H.
  do 2 (unfold mbind at 1 in H; rewrite emit_logged, ?logged_logged in H).
  apply bind_ok in H as (a1 & s1 & H1 & H). apply getitem_ok in H1 as [-> H1].
  apply bind_ok in H as (o1 & s2 & H2 & H). apply unpack_ok in H2 as [-> (la & kw & -> & Hla & ->)].
  apply bind_ok in H as (a2 & s3 & H3 & H). apply getitem_ok in H3 as [-> H3].
  apply bind_ok in H as (o2 & s4 & H4 & H). apply unpack_ok in H4 as [-> (la2 & kw2 & -> & Hla2 & ->)].
  unfold ret in H. inversion H; subst. clear H.
  rewrite peek_logged in H1, H3. rewrite H1 in H3. injection H3 as <-.
  cbn [logged heap] in Hla, Hla2. rewrite Hla in Hla2. injection Hla2 as <-.
  exists la, kw. rewrite !length_fmap. auto.
Qed.

(** X6. The parameter groups of a classifier. When
    [setup_param_groups_classifier] returns, the options are the dict
    under ["args"], and the result is two groups over those options: the
    first holds the parameters whose names do not end in ["bias"], the
    second those whose names do; every parameter of the model is in
    exactly one group, in the order of the model; the two counts are
    logged and the store is as it was. *)
Theorem classifier_groups_split (model : obj) (config : value) (s s' : state)
    (groups : obj) :
  setup_param_groups_classifier E model config s = (s', Ok groups) ->
  exists la kw weights biases,
    peek s config "args" = Some (VRef la) /\ heap s !! la = Some kw
    /\ groups = OList [group kw weights; group kw biases]
    /\ split_by_bias (named_parameters E model) weights biases
    /\ s' = logged s [found (length weights) " weight params";
                      found (length biases) " bias params"].
Proof.
  intros H. apply classifier_groups_ok in H as (la & kw & Hargs & Hla & -> & ->).
  exists la, kw. do 2 eexists.
  split; [exact Hargs|]. split; [exact Hla|]. split; [reflexivity|].
  split; [apply filters_split|]. rewrite !length_fmap. reflexivity.
Qed.

(** X7. An option named ["params"] takes the place of the parameters.
    The groups are written [{"params": ..., **options}], so an entry
    ["params"] of the options comes later and wins: both groups of a
    classifier then hold that entry, and neither holds a list of
    parameters of the model. Without such an entry each group holds its
    list. *)
Theorem params_option_replaces_parameters (model : obj) (config : value)
    (s s' : state) (groups : obj) (la : loc) (kw : gmap string value) :
  setup_param_groups_classifier E model config s = (s', Ok groups) ->
  peek s config "args" = Some (VRef la) -> heap s !! la = Some kw ->
  exists g_weight g_bias,
    groups = OList [g_weight; g_bias]
    /\ (forall v, kw !! "params" = Some v ->
          group_params g_weight = Some (OVal v) /\ group_params g_bias = Some (OVal v))
    /\ (kw !! "params" = None ->
          exists weights biases,
            split_by_bias (named_parameters E model) weights biases
            /\ group_params g_weight = Some (OList weights)
            /\ group_params g_bias = Some (OList biases)).
Proof.
  intros H Hargs Hla.
  apply classifier_groups_ok in H as (la' & kw' & Hargs' & Hla' & -> & _).
  rewrite Hargs in Hargs'. injection Hargs' as <-.
  rewrite Hla in Hla'. injection Hla' as <-.
  do 2 eexists. split; [reflexivity|]. split.
  - intros v Hv. unfold group, group_params.
    assert (Hk : (OVal <$> kw) !! "params" = Some (OVal v))
      by (rewrite lookup_fmap, Hv; reflexivity).
    split; apply lookup_union_Some_l; exact Hk.
  - intros Hnone. do 2 eexists. split; [apply filters_split|].
    unfold group, group_params.
    assert (Hk : (OVal <$> kw) !! "params" = None)
      by (rewrite lookup_fmap, Hnone; reflexivity).
    split; rewrite lookup_union_r by exact Hk; apply lookup_singleton_eq.
Qed.

Variable submodule : obj -> string -> result obj.

(** X8. The parameter groups of a segmentation model. When
    [setup_param_groups_segmentation] returns, the model has an encoder
    and a decoder, and the result is four groups in this order: encoder
    weights, decoder weights, encoder biases, decoder biases; the
    encoder groups are over the options under ["encoder"], the decoder
    groups over those under ["decoder"]; each submodule's parameters are
    split by whether the name ends in ["bias"]; the four counts are
    logged in the order encoder weights, encoder biases, decoder
    weights, decoder biases. *)
Theorem segmentation_groups_split (model : obj) (config : value) (s s' : state)
    (groups : obj) :
  setup_param_groups_segmentation E submodule model config s = (s', Ok groups) ->
  exists encoder decoder le ld encoder_opts decoder_opts ew eb dw db,
    submodule model "encoder" = Ok encoder /\ submodule model "decoder" = Ok decoder
    /\ peek s config "encoder" = Some (VRef le) /\ heap s !! le = Some encoder_opts
    /\ peek s config "decoder" = Some (VRef ld) /\ heap s !! ld = Some decoder_opts
    /\ groups = OList [group encoder_opts ew; group decoder_opts dw;
                       group encoder_opts eb; group decoder_opts db]
    /\ split_by_bias (named_parameters E encoder) ew eb
    /\ split_by_bias (named_parameters E decoder) dw db
    /\ s' = logged s [found (length ew) " encoder weight params";
                      found (length eb) " encoder bias params";
                      found (length dw) " decoder weight params";
                      found (length db) " decoder bias params"].
Proof.
  unfold setup_param_groups_segmentation. intros H.
  apply bind_ok in H as (eo & s1 & H1 & H). apply getitem_ok in H1 as [-> H1].
  apply bind_ok in H as (do_ & s2 & H2 & H). apply getitem_ok in H2 as [-> H2].
  apply bind_ok in H as (enc & s3 & H3 & H). apply lift_ok in H3 as [-> H3].
  apply bind_ok in H as (dec & s4 & H4 & H). apply lift_ok in H4 as [-> H4].
  do 4 (unfold mbind at 1 in H; rewrite emit_logged, ?logged_logged in H).
  apply bind_ok in H as (o1 & s5 & H5 & H).
  apply unpack_ok in H5 as [-> (le & encoder_opts & -> & Hle & ->)].
  apply bind_ok in H as (o2 & s6 & H6 & H).
  apply unpack_ok in H6 as [-> (ld & decoder_opts & -> & Hld & ->)].
  apply bind_ok in H as (o3 & s7 & H7 & H).
  apply unpack_ok in H7 as [-> (le' & eo' & Heq & Hle' & ->)].
  apply bind_ok in H as (o4 & s8 & H8 & H).
  apply unpack_ok in H8 as [-> (ld' & do' & Heq' & Hld' & ->)].
  injection Heq as <-. injection Heq' as <-.
  cbn [logged heap] in *.
  rewrite Hle in Hle'. injection Hle' as <-.
  rewrite Hld in Hld'. injection Hld' as <-.
  unfold ret in H. inversion H; subst. clear H.
  exists enc, dec, le, ld, encoder_opts, decoder_opts. do 4 eexists.
  split; [exact H3|]. split; [exact H4|]. split; [exact H1|]. split; [exact Hle|].
  split; [exact H2|]. split; [exact Hld|]. split; [reflexivity|].
  split; [apply filters_split|]. split; [apply filters_split|].
  rewrite !length_fmap. reflexivity.
Qed.

End ParameterGroups.

Lemma classifier_groups_split_witness :
  exists la kw weights biases,
    peek options_state (VRef 1%positive) "args" = Some (VRef la)
    /\ heap options_state !! la = Some kw
    /\ OList [group {[ "lr" := VFloat lit_0_20 ]}
                [Attr "conv1" "weight"; Attr "fc" "weight"];
              group {[ "lr" := VFloat lit_0_20 ]}
                [Attr "conv1" "bias"; Attr "fc" "bias"]]
       = OList [group kw weights; group kw biases]
    /\ split_by_bias (named_parameters params_env the_model) weights biases
    /\ (setup_param_groups_classifier params_env the_model (VRef 1%positive)
          options_state).1
       = logged options_state [found (length weights) " weight params";
                               found (length biases) " bias params"].
Proof.
  refine (classifier_groups_split params_env the_model (VRef 1%positive) options_state
            (setup_param_groups_classifier params_env the_model (VRef 1%positive)
               options_state).1
            (OList [group {[ "lr" := VFloat lit_0_20 ]}
                      [Attr "conv1" "weight"; Attr "fc" "weight"];
                    group {[ "lr" := VFloat lit_0_20 ]}
                      [Attr "conv1" "bias"; Attr "fc" "bias"]]) _).
  vm_compute. reflexivity.
Defined.

Lemma params_option_replaces_parameters_witness :
  exists g_weight g_bias,
    OList [group {[ "params" := VStr "all" ]}
             [Attr "conv1" "weight"; Attr "fc" "weight"];
           group {[ "params" := VStr "all" ]}
             [Attr "conv1" "bias"; Attr "fc" "bias"]]
    = OList [g_weight; g_bias]
    /\ (forall v,
          ({[ "params" := VStr "all" ]} : gmap string value) !! "params" = Some v ->
          group_params g_weight = Some (OVal v) /\ group_params g_bias = Some (OVal v))
    /\ (({[ "params" := VStr "all" ]} : gmap string value) !! "params" = None ->
          exists weights biases,
            split_by_bias (named_parameters params_env the_model) weights biases
            /\ group_params g_weight = Some (OList weights)
            /\ group_params g_bias = Some (OList biases)).
Proof.
  refine (params_option_replaces_parameters params_env the_model (VRef 4%positive)
            options_state
            (setup_param_groups_classifier params_env the_model (VRef 4%positive)
               options_state).1
            (OList [group {[ "params" := VStr "all" ]}
                      [Attr "conv1" "weight"; Attr "fc" "weight"];
                    group {[ "params" := VStr "all" ]}
                      [Attr "conv1" "bias"; Attr "fc" "bias"]])
            3%positive {[ "params" := VStr "all" ]} _ _ _);
    vm_compute; reflexivity.
Defined.

Lemma segmentation_groups_split_witness :
  exists encoder decoder le ld encoder_opts decoder_opts ew eb dw db,
    part_of the_model "encoder" = Ok encoder /\ part_of the_model "decoder" = Ok decoder
    /\ peek options_state (VRef 1%positive) "encoder" = Some (VRef le)
    /\ heap options_state !! le = Some encoder_opts
    /\ peek options_state (VRef 1%positive) "decoder" = Some (VRef ld)
    /\ heap options_state !! ld = Some decoder_opts
    /\ OList [group {[ "lr" := VFloat lit_0_20 ]} [Attr "encoder" "weight"];
              group {[ "params" := VStr "all" ]} [Attr "decoder" "weight"];
              group {[ "lr" := VFloat lit_0_20 ]} [Attr "encoder" "bias"];
              group {[ "params" := VStr "all" ]} [Attr "decoder" "bias"]]
       = OList [group encoder_opts ew; group decoder_opts dw;
                group encoder_opts eb; group decoder_opts db]
    /\ split_by_bias (named_parameters params_env encoder) ew eb
    /\ split_by_bias (named_parameters params_env decoder) dw db
    /\ (setup_param_groups_segmentation params_env part_of the_model (VRef 1%positive)
          options_state).1
       = logged options_state [found (length ew) " encoder weight params";
                               found (length eb) " encoder bias params";
                               found (length dw) " decoder weight params";
                               found (length db) " decoder bias params"].
Proof.
  refine (segmentation_groups_split params_env part_of the_model (VRef 1%positive)
            options_state
            (setup_param_groups_segmentation params_env part_of the_model
               (VRef 1%positive) options_state).1
            (OList [group {[ "lr" := VFloat lit_0_20 ]} [Attr "encoder" "weight"];
                    group {[ "params" := VStr "all" ]} [Attr "decoder" "weight"];
                    group {[ "lr" := VFloat lit_0_20 ]} [Attr "encoder" "bias"];
                    group {[ "params" := VStr "all" ]} [Attr "decoder" "bias"]]) _).
  vm_compute. reflexivity.
Defined.

Section ScoreOutcomes.

Lemma check_score_ok (self : manager) (checkpoint : value) (s s' : state)
    (best : value) :
  check_score self checkpoint s = (s', Ok best) ->
  exists mb thr,
    peek s checkpoint "monitor_best" = Some mb
    /\ peek s (cfg self) "score_threshold" = Some thr
    /\ py_lt (unwrap mb) thr = Ok false
    /\ best = unwrap mb
    /\ s' = logged s [best_score_logged (unwrap mb)].
Proof.
  unfold check_score. intros H.
  apply bind_ok in H as (b & s1 & H1 & H).
  unfold extract_score in H1. apply bind_ok in H1 as (mb & s2 & Hmb & H1).
  apply getitem_ok in Hmb as [-> Hmb].
  assert (s1 = s /\ b = unwrap mb) as [-> ->].
  { destruct mb; unfold ret in H1; inversion H1; auto. }
  unfold mbind at 1 in H. rewrite emit_logged in H.
  apply bind_ok in H as (thr & s3 & Hthr & H). apply getitem_ok in Hthr as [-> Hthr].
  apply bind_ok in H as (low & s4 & Hlow & H). apply lift_ok in Hlow as [-> Hlow].
  destruct low.
  - unfold mbind, emit, raise in H. discriminate H.
  - unfold ret in H. inversion H; subst. exists mb, thr. auto.
Qed.

Lemma check_score_raises (self : manager) (s : state) (checkpoint mb thr : value)
    (e : exn) :
  peek s checkpoint "monitor_best" = Some mb ->
  peek s (cfg self) "score_threshold" = Some thr ->
  py_lt (unwrap mb) thr = Raise e ->
  check_score self checkpoint s
  = (logged s [best_score_logged (unwrap mb)], Raise e).
Proof.
  intros Hmb Hthr Hlt. unfold check_score.
  unfold mbind at 1. rewrite (extract_score_peek _ _ _ Hmb).
  do 2 step. unfold mbind at 1. unfold lift. rewrite Hlt. reflexivity.
Qed.

(** X9. The outcomes of [check_score], by what the checkpoint and the
    configuration of the manager hold. A checkpoint without
    ["monitor_best"] raises [KeyError] with nothing logged. Otherwise
    the score, a tensor read as its number, is logged, and: a
    configuration without ["score_threshold"] raises [KeyError]; two
    numbers, or two strings, are compared, a score below the threshold
    is rejected with a warning and one that is not below is returned;
    two values that have no order raise [TypeError]. *)
Theorem check_score_outcomes (self : manager) (checkpoint : value) (s : state) :
  (forall l d, checkpoint = VRef l -> heap s !! l = Some d ->
     d !! "monitor_best" = None ->
     check_score self checkpoint s = (s, Raise (KeyError "monitor_best")))
  /\ forall mb, peek s checkpoint "monitor_best" = Some mb ->
     let score := unwrap mb in
     let s1 := logged s [best_score_logged score] in
     (forall l d, cfg self = VRef l -> heap s !! l = Some d ->
        d !! "score_threshold" = None ->
        check_score self checkpoint s = (s1, Raise (KeyError "score_threshold")))
     /\ forall thr, peek s (cfg self) "score_threshold" = Some thr ->
        ((is_number score /\ is_number thr) \/ (is_string score /\ is_string thr) ->
         exists low,
           py_lt score thr = Ok low
           /\ check_score self checkpoint s
              = if low : bool
                then (logged s1 [EvLog Warning rejection], Raise (Exception rejection))
                else (s1, Ok score))
        /\ (no_order score thr ->
            check_score self checkpoint s = (s1, Raise TypeError)).
Proof.
  split.
  - intros l d -> Hl Hd. unfold check_score, extract_score.
    unfold mbind, getitem. rewrite Hl, Hd. reflexivity.
  - intros mb Hmb score s1. split.
    + intros l d Hc Hl Hd. unfold check_score.
      unfold mbind at 1. rewrite (extract_score_peek _ _ _ Hmb).
      step. unfold mbind, getitem. rewrite Hc. cbn [heap logged].
      rewrite Hl, Hd. reflexivity.
    + intros thr Hthr. split.
      * intros Hnum.
        assert (Hlow : exists low, py_lt score thr = Ok low).
        { destruct Hnum as [[Ha Hb]|[Ha Hb]];
            destruct score, thr; try contradiction; cbn [py_lt]; eauto. }
        destruct Hlow as [low Hlow]. exists low. split; [exact Hlow|].
        destruct low.
        -- rewrite (check_score_low _ _ _ _ _ Hmb Hthr Hlow).
           unfold s1. rewrite logged_logged. reflexivity.
        -- apply (check_score_pass _ _ _ _ _ Hmb Hthr Hlow).
      * intros Hno. apply (check_score_raises _ _ _ _ _ _ Hmb Hthr).
        fold score. destruct score, thr; try contradiction; reflexivity.
Qed.

Lemma f_ltb_nan_l (y : spec_float) : f_ltb S754_nan y = false.
Proof. destruct y as [[]|[]| |[]]; reflexivity. Qed.

Lemma f_ltb_nan_r (x : spec_float) : f_ltb x S754_nan = false.
Proof. destruct x as [[]|[]| |[]]; reflexivity. Qed.

(** X10. A score that is not a number is never rejected. When the
    recorded score is NaN, as a float or as a tensor, or the threshold
    is, the comparison [best_score < threshold] is false, and
    [check_score] returns the score as it does for a score above the
    threshold. *)
Theorem nan_score_passes (self : manager) (checkpoint : value) (s : state)
    (mb thr : value) :
  peek s checkpoint "monitor_best" = Some mb ->
  peek s (cfg self) "score_threshold" = Some thr ->
  (unwrap mb = VFloat S754_nan /\ is_number thr)
  \/ (thr = VFloat S754_nan /\ is_number (unwrap mb)) ->
  check_score self checkpoint s
  = (logged s [best_score_logged (unwrap mb)], Ok (unwrap mb)).
Proof.
  intros Hmb Hthr Hnan. apply check_score_pass with (thr := thr); try assumption.
  destruct Hnan as [[-> Hn]|[-> Hn]].
  - destruct thr; try contradiction; cbn [py_lt].
    + reflexivity.
    + rewrite f_ltb_nan_l. reflexivity.
  - destruct (unwrap mb); try contradiction; cbn [py_lt].
    + reflexivity.
    + rewrite f_ltb_nan_r. reflexivity.
Qed.

End ScoreOutcomes.

Lemma check_score_outcomes_witness :
  check_score (mkManager (VRef 1%positive)) (VRef 2%positive) wide_state
  = (logged
       (logged wide_state
          [best_score_logged (VFloat (S754_finite false 4503599627370496 1))])
       [EvLog Warning rejection],
     Raise (Exception rejection)).
Proof.
  destruct (proj1 (proj2 (proj2 (check_score_outcomes (mkManager (VRef 1%positive))
                                   (VRef 2%positive) wide_state)
                            (VFloat (S754_finite false 4503599627370496 1)) eq_refl)
                     (VInt 9007199254740993) eq_refl)
              (or_introl (conj I I)))
    as [low [Hlow Hrun]].
  vm_compute in Hlow. injection Hlow as <-. exact Hrun.
Defined.

Lemma nan_score_passes_witness :
  check_score (mkManager (VRef 1%positive)) (VRef 2%positive) nan_state
  = (logged nan_state [best_score_logged (unwrap (VTensor S754_nan))],
     Ok (unwrap (VTensor S754_nan))).
Proof.
  refine (nan_score_passes (mkManager (VRef 1%positive)) (VRef 2%positive) nan_state
            (VTensor S754_nan) (VFloat lit_0_60) _ _ _).
  - vm_compute. reflexivity.
  - vm_compute. reflexivity.
  - left. split; [reflexivity|exact I].
Defined.

Section TraceGrowth.

Variable P : event -> bool.

Lemma adds_only_refl (s : state) : adds_only P s s.
Proof. exists []. rewrite app_nil_r. auto. Qed.

Lemma adds_only_trans (s1 s2 s3 : state) :
  adds_only P s1 s2 -> adds_only P s2 s3 -> adds_only P s1 s3.
Proof.
  intros (e1 & H1 & F1) (e2 & H2 & F2). exists (e1 ++ e2). split.
  - rewrite H2, H1, app_assoc. reflexivity.
  - rewrite forallb_app, F1, F2. reflexivity.
Qed.

Lemma getitem_adds (v : value) (k : string) : respects (adds_only P) (getitem v k).
Proof.
  intros s s' r H. apply getitem_state in H. subst. apply adds_only_refl.
Qed.

Lemma unpack_adds (v : value) : respects (adds_only P) (unpack v).
Proof.
  intros s s' r. unfold unpack.
  repeat case_match; intros Heq; inversion Heq; apply adds_only_refl.
Qed.

Lemma dict_copy_adds (v : value) : respects (adds_only P) (dict_copy v).
Proof.
  intros s s' r. unfold dict_copy.
  repeat case_match; intros Heq; inversion Heq; try apply adds_only_refl.
  exists []. cbn. rewrite app_nil_r. auto.
Qed.

Lemma setitem_adds (v : value) (k : string) (x : value) :
  respects (adds_only P) (setitem v k x).
Proof.
  intros s s' r. unfold setitem.
  repeat case_match; intros Heq; inversion Heq; try apply adds_only_refl.
  exists []. cbn. rewrite app_nil_r. auto.
Qed.

Lemma emit_adds (e : event) : P e = true -> respects (adds_only P) (emit e).
Proof.
  intros He s s' r H. inversion H. exists [e]. cbn. rewrite He. auto.
Qed.

Lemma adds_step {A} (m : M A) (s0 s s1 : state) (r : result A) :
  adds_only P s0 s -> respects (adds_only P) m -> m s = (s1, r) ->
  adds_only P s0 s1.
Proof.
  intros H0 Hm Hs. eapply adds_only_trans; [exact H0|]. eapply Hm, Hs.
Qed.

End TraceGrowth.

#[global] Hint Resolve getitem_adds unpack_adds dict_copy_adds setitem_adds : respect.
#[global] Hint Extern 1 (respects (adds_only _) (emit _)) =>
  (apply emit_adds; reflexivity) : respect.

Create HintDb managers.

#[global] Hint Unfold getattr construct get_instance setup_device
  setup_param_groups_classifier resume_checkpoint load_checkpoint extract_score
  check_score build_tta_model get_group_name_for_config build_h5_writer : managers.

(** Proves [respects (adds_only P) m] for a helper [m] that emits only
    events of [P]. *)
Ltac adds_steps P :=
  repeat autounfold with managers;
  respect_steps (adds_only_refl P) (adds_only_trans P).

Section InferenceTrace.

Variable E : env.

Lemma metric_handles_adds (P : event -> bool) (metrics : list value) :
  respects (adds_only P) (metric_handles E metrics).
Proof.
  induction metrics as [|met rest IH]; cbn [metric_handles]; adds_steps P.
Qed.

(** The loop writes one prediction per item and does nothing else. *)
Lemma inference_loop_run (tta_model writer : obj) (device : device)
    (items : list obj) (s : state) :
  inference_loop tta_model writer device items s
  = (logged s (writes tta_model writer device items), Ok tt).
Proof.
  revert s. induction items as [|data rest IH]; intros s.
  - cbn. unfold ret, logged. rewrite app_nil_r. destruct s; reflexivity.
  - cbn [inference_loop]. unfold mbind at 1. unfold emit at 1.
    change (mkState (heap s) (trace s ++ ?l)) with (logged s l).
    rewrite IH, logged_logged. reflexivity.
Qed.

Lemma heap_step {A} (m : M A) (s s1 : state) (r : result A) :
  respects same_heap m -> m s = (s1, r) -> heap s1 = heap s.
Proof. intros Hm Hs. exact (Hm _ _ _ Hs). Qed.

Lemma load_checkpoint_ok (path : string) (device : device) (s s' : state)
    (checkpoint : value) :
  load_checkpoint E path device s = (s', Ok checkpoint) ->
  torch_load E path = Ok checkpoint.
Proof.
  unfold load_checkpoint. intros H.
  do 2 (unfold mbind at 1 in H; rewrite emit_logged in H).
  apply lift_ok in H as [_ H]. exact H.
Qed.

Lemma getattr_ok (module : string) (name : value) (s s' : state) (n : string) :
  getattr E module name s = (s', Ok n) -> s' = s /\ name = VStr n.
Proof.
  unfold getattr. destruct name; try (intros H; discriminate H).
  destruct (has_attr E module s0); intros H; inversion H; auto.
Qed.

Lemma construct_ok (module name : string) (args : list obj)
    (kwargs : gmap string obj) (s s' : state) (o : obj) :
  construct E module name args kwargs s = (s', Ok o) ->
  o = New module name args kwargs.
Proof.
  unfold construct. unfold mbind. rewrite emit_logged.
  destruct (ctor_raises E module name args kwargs); intros H; inversion H.
  reflexivity.
Qed.

(** What [get_instance] returns is built from the block it names. *)
Lemma get_instance_ok (module name : string) (config : value) (args : list obj)
    (s s' : state) (o : obj) :
  get_instance E module name config args s = (s', Ok o) ->
  instance_of s module name config args o.
Proof.
  unfold get_instance. intros H.
  apply bind_ok in H as (block & s1 & Hb & H). apply getitem_ok in Hb as [-> Hb].
  apply bind_ok in H as (ty & s1 & Ht & H). apply getitem_ok in Ht as [-> Ht].
  unfold mbind at 1 in H. rewrite emit_logged in H.
  apply bind_ok in H as (ctor & s1 & Hc & H). apply getattr_ok in Hc as [-> ->].
  apply bind_ok in H as (block' & s1 & Hb' & H). apply getitem_ok in Hb' as [-> Hb'].
  rewrite peek_logged in Hb'. assert (block' = block) as -> by congruence.
  apply bind_ok in H as (kw & s1 & Hk & H). apply getitem_ok in Hk as [-> Hk].
  rewrite peek_logged in Hk.
  apply bind_ok in H as (kwargs & s1 & Hu & H).
  apply unpack_ok in Hu as (-> & la & d & -> & Hla & ->).
  apply construct_ok in H. exists ctor, la, d.
  unfold peek2. rewrite Hb. cbn. auto.
Qed.

Lemma peek2_heap (s1 s2 : state) (v : value) (k1 k2 : string) :
  heap s2 = heap s1 -> peek2 s2 v k1 k2 = peek2 s1 v k1 k2.
Proof.
  intros Hh. unfold peek2. rewrite (peek_heap s1 s2 v k1 Hh).
  destruct (peek s1 v k1) as [b|]; [|reflexivity]. cbn. apply peek_heap, Hh.
Qed.

Lemma instance_of_heap (s1 s2 : state) (module name : string) (config : value)
    (args : list obj) (o : obj) :
  heap s2 = heap s1 ->
  instance_of s1 module name config args o -> instance_of s2 module name config args o.
Proof.
  intros Hh (t & la & kw & Ht & Ha & Hla & ->). exists t, la, kw.
  rewrite !(peek2_heap s1 s2) by exact Hh. rewrite Hh. auto.
Qed.

(** A copy of a dict has the entries of the dict. *)
Lemma copy_peek (v c : value) (s s1 : state) (k : string) :
  dict_copy v s = (s1, Ok c) -> peek s1 c k = peek s1 v k.
Proof.
  intros H. apply dict_copy_inv in H as (l & d & -> & Hl & -> & ->).
  unfold peek. cbn [heap]. rewrite lookup_insert_eq.
  rewrite lookup_insert_ne by (symmetry; eapply fresh_loc_unused; exact Hl).
  rewrite Hl. reflexivity.
Qed.

Lemma build_tta_model_ok (model : obj) (config : value) (device : device)
    (s s' : state) (w : obj) :
  build_tta_model E model config device s = (s', Ok w) ->
  exists name,
    peek s config "tta" = Some (VStr name)
    /\ w = To (New tta name [model; flips] {[ "merge_mode" := OVal (VStr "mean") ]})
             device.
Proof.
  unfold build_tta_model. intros H.
  apply bind_ok in H as (name & s1 & Hn & H). apply getitem_ok in Hn as [-> Hn].
  apply bind_ok in H as (wrapper & s1 & Hw & H). apply getattr_ok in Hw as [-> ->].
  apply bind_ok in H as (o & s1 & Ho & H). apply construct_ok in Ho as ->.
  unfold ret in H. inversion H; subst. exists wrapper. auto.
Qed.

Lemma build_h5_writer_ok (config train_cfg : value) (model_checkpoint : string)
    (score : value) (s s' : state) (writer : obj) :
  build_h5_writer E config train_cfg model_checkpoint score s = (s', Ok writer) ->
  exists name kw,
    writer = New h5 name [] kw /\ kw !! "score" = Some (OVal score)
    /\ peek s config "write" = Some (VStr name).
Proof.
  unfold build_h5_writer. intros H.
  apply bind_ok in H as (g & s1 & Hg & H).
  assert (Hh : heap s1 = heap s).
  { eapply heap_step; [|exact Hg]. eauto with respect. }
  apply bind_ok in H as (w & s2 & Hw & H). apply getitem_ok in Hw as [-> Hw].
  apply bind_ok in H as (name & s2 & Hn & H). apply getattr_ok in Hn as [-> ->].
  do 4 (let a := fresh "a" in
        let s2 := fresh "s" in
        let Hs := fresh "Hs" in
        apply bind_ok in H as (a & s2 & Hs & H)).
  apply construct_ok in H. do 2 eexists. split; [exact H|].
  split; [vm_compute; reflexivity|].
  rewrite <- (peek_heap s s1) by exact Hh. exact Hw.
Qed.

(** The steps of a run that returns. *)
Lemma inference_run_ok (self : manager) (model_checkpoint : string)
    (s s' : state) (v : value) :
  inference_run E self model_checkpoint s = (s', Ok v) ->
  exists cfg s1 dv checkpoint best train_cfg arch sd wrapper transforms
         data_loader writer before,
    let device := inference_setup_device dv in
    let tta_model :=
      Method (To (New tta wrapper [LoadStateDict arch sd; flips]
                    {[ "merge_mode" := OVal (VStr "mean") ]}) device) "eval" [] in
    dict_copy (Runner.cfg self) s = (s1, Ok cfg)
    /\ heap s' = heap s1
    /\ peek s1 cfg "device" = Some dv
    /\ torch_load E model_checkpoint = Ok checkpoint
    /\ (exists sb sc, check_score self checkpoint sb = (sc, Ok best)
                      /\ heap sb = heap s1)
    /\ peek s1 checkpoint "config" = Some train_cfg
    /\ peek s1 checkpoint "state_dict" = Some sd
    /\ instance_of s1 module_arch "arch" train_cfg [] arch
    /\ peek s1 cfg "tta" = Some (VStr wrapper)
    /\ instance_of s1 module_aug "augmentation" train_cfg [] transforms
    /\ instance_of s1 module_data "data_loader" cfg [transforms] data_loader
    /\ (exists sd se,
          build_h5_writer E cfg train_cfg model_checkpoint best sd = (se, Ok writer)
          /\ heap sd = heap s1)
    /\ new_events s s'
       = before
         ++ writes tta_model writer device (batches E data_loader)
         ++ [EvLogObj Info (Method writer "close" [])]
    /\ forallb no_write before = true
    /\ v = VNone.
Proof.
  intros H. unfold inference_run in H.
  pose proof (adds_only_refl no_write s) as Hacc.
  apply bind_ok in H as (cfg & s1 & Hcopy & H).
  pose proof (adds_step _ _ _ _ _ _ Hacc (dict_copy_adds _ _) Hcopy) as Hacc1.
  clear Hacc. rename Hacc1 into Hacc.
  do 14 (let a := fresh "a" in
         let s2 := fresh "s" in
         let Hs := fresh "Hs" in
         let Ha := fresh "Ha" in
         let Hh := fresh "Hh" in
         let Hm := fresh "Hm" in
         apply bind_ok in H as (a & s2 & Hs & H);
         match type of Hs with
         | ?m _ = _ =>
             assert (Hm : respects (adds_only no_write) m) by adds_steps no_write;
             assert (Hh : respects same_heap m)
               by (respect_steps same_heap_refl same_heap_trans)
         end;
         pose proof (adds_step _ _ _ _ _ _ Hacc Hm Hs) as Ha;
         apply (fun Hr => heap_step _ _ _ _ Hr Hs) in Hh;
         clear Hacc Hm; rename Ha into Hacc).
  unfold mbind in H. rewrite inference_loop_run in H.
  unfold emit, ret in H. inversion H; subst. clear H.
  destruct Hacc as (before & Htr & Hnw).
  match goal with
  | Hdev : getitem cfg "device" _ = (_, Ok ?dv),
    Hl : load_checkpoint _ _ _ ?sa = (?sb, Ok ?ck),
    Hc : check_score _ ?ck ?sb' = (?sc, Ok ?best),
    Hcf : getitem ?ck "config" _ = (_, Ok ?tc),
    Har : get_instance _ module_arch _ ?tc _ _ = (_, Ok ?arch),
    Hsd : getitem ?ck "state_dict" _ = (_, Ok ?sd),
    Htta : build_tta_model _ _ _ _ _ = (_, Ok ?tm),
    Hau : get_instance _ module_aug _ _ _ _ = (_, Ok ?tr),
    Hdl : get_instance _ module_data _ _ _ _ = (_, Ok ?dl),
    Hw : build_h5_writer _ _ _ _ _ ?sd' = (?se, Ok ?w) |- _ =>
      apply getitem_ok in Hdev as [? Hdev];
      apply load_checkpoint_ok in Hl;
      apply getitem_ok in Hcf as [? Hcf];
      apply get_instance_ok in Har;
      apply getitem_ok in Hsd as [? Hsd];
      apply build_tta_model_ok in Htta as (wrapper & Htta & ?);
      apply get_instance_ok in Hau;
      apply get_instance_ok in Hdl;
      subst;
      exists cfg, s1, dv, ck, best, tc, arch, sd, wrapper, tr, dl, w, before
  end.
  cbn zeta. cbn [logged heap] in *.
  split; [exact Hcopy|].
  split; [congruence|].
  split; [assumption|].
  split; [assumption|].
  split; [do 2 eexists; split; [eassumption|congruence]|].
  split; [erewrite peek_heap; [eassumption|congruence]|].
  split; [erewrite peek_heap; [eassumption|congruence]|].
  split; [eapply instance_of_heap; [|eassumption]; congruence|].
  split; [erewrite peek_heap; [eassumption|congruence]|].
  split; [eapply instance_of_heap; [|eassumption]; congruence|].
  split; [eapply instance_of_heap; [|eassumption]; congruence|].
  split; [do 2 eexists; split; [eassumption|congruence]|].
  split; [|split; [exact Hnw|reflexivity]].
  unfold new_events, logged. cbn [trace]. rewrite Htr.
  rewrite <- !app_assoc. rewrite drop_app_length. reflexivity.
Qed.

Lemma instance_of_copy (v c : value) (s s1 : state) (module name : string)
    (args : list obj) (o : obj) :
  dict_copy v s = (s1, Ok c) ->
  instance_of s1 module name c args o -> instance_of s1 module name v args o.
Proof.
  intros Hc (t & la & kw & Ht & Ha & Hla & ->). exists t, la, kw.
  unfold peek2 in *. rewrite <- (copy_peek _ _ _ _ name Hc). auto.
Qed.

(** X5. A run of the inference manager that returns has written one
    prediction per batch of the data loader, in the order of the loader;
    nothing is written before the loop, and the last thing the run does
    is to log what closing the writer returns. The run returns [None].
    Each prediction is computed by the wrapper that the configuration
    names under ["tta"], built over the model of the checkpoint's
    configuration with the checkpoint's weights loaded, on the batch
    moved to the device that the configuration names; the loader is the
    one built from the manager's configuration over the augmentation of
    the checkpoint's configuration, and the writer is the class that the
    configuration names under ["write"]. *)
Theorem inference_writes_each_batch (self : manager) (model_checkpoint : string)
    (s s' : state) (v : value) :
  inference_run E self model_checkpoint s = (s', Ok v) ->
  exists dv wrapper checkpoint train_cfg sd arch transforms data_loader name kw
         before,
    let device := inference_setup_device dv in
    let tta_model :=
      Method (To (New tta wrapper [LoadStateDict arch sd; flips]
                    {[ "merge_mode" := OVal (VStr "mean") ]}) device) "eval" [] in
    let writer := New h5 name [] kw in
    peek s' (cfg self) "device" = Some dv
    /\ peek s' (cfg self) "tta" = Some (VStr wrapper)
    /\ peek s' (cfg self) "write" = Some (VStr name)
    /\ torch_load E model_checkpoint = Ok checkpoint
    /\ peek s' checkpoint "config" = Some train_cfg
    /\ peek s' checkpoint "state_dict" = Some sd
    /\ instance_of s' module_arch "arch" train_cfg [] arch
    /\ instance_of s' module_aug "augmentation" train_cfg [] transforms
    /\ instance_of s' module_data "data_loader" (cfg self) [transforms] data_loader
    /\ new_events s s'
       = before
         ++ writes tta_model writer device (batches E data_loader)
         ++ [EvLogObj Info (Method writer "close" [])]
    /\ forallb no_write before = true
    /\ v = VNone.
Proof.
  intros H. apply inference_run_ok in H
    as (cfg & s1 & dv & checkpoint & best & train_cfg & arch & sd & wrapper
        & transforms & data_loader & writer & before
        & Hcopy & Hs' & Hdev & Hload & _ & Hcfg & Hsd & Harch & Htta & Haug & Hdl
        & (sw & se & Hw & Hsw) & Hev & Hnw & ->).
  apply build_h5_writer_ok in Hw as (name & kw & -> & _ & Hname).
  exists dv, wrapper, checkpoint, train_cfg, sd, arch, transforms, data_loader,
    name, kw, before.
  cbn zeta.
  rewrite !(peek_heap s1 s') by exact Hs'.
  rewrite <- !(copy_peek _ _ _ _ _ Hcopy).
  split; [exact Hdev|]. split; [exact Htta|].
  split; [rewrite (peek_heap sw s1) by (symmetry; exact Hsw); exact Hname|].
  split; [exact Hload|]. split; [exact Hcfg|]. split; [exact Hsd|].
  split; [exact (instance_of_heap _ _ _ _ _ _ _ Hs' Harch)|].
  split; [exact (instance_of_heap _ _ _ _ _ _ _ Hs' Haug)|].
  split; [apply (instance_of_heap s1 s' _ _ _ _ _ Hs'),
            (instance_of_copy _ _ _ _ _ _ _ _ Hcopy), Hdl|].
  split; [exact Hev|]. split; [exact Hnw|reflexivity].
Qed.

(** X11. What a run of the inference manager writes comes with the
    score that passed the check. When the run returns, the checkpoint
    read from the file records a score, the configuration of the manager
    holds a threshold, the score is not below it, and every prediction
    written went to a writer of the prediction file module that was
    created with that score. *)
Theorem written_score_passed_check (self : manager) (model_checkpoint : string)
    (s s' : state) (v : value) :
  inference_run E self model_checkpoint s = (s', Ok v) ->
  exists checkpoint mb thr,
    torch_load E model_checkpoint = Ok checkpoint
    /\ peek s' checkpoint "monitor_best" = Some mb
    /\ peek s' (cfg self) "score_threshold" = Some thr
    /\ py_lt (unwrap mb) thr = Ok false
    /\ forall writer output, EvWrite writer output ∈ new_events s s' ->
         exists name kw,
           writer = New h5 name [] kw /\ kw !! "score" = Some (OVal (unwrap mb)).
Proof.
  intros H. apply inference_run_ok in H
    as (cfg & s1 & dv & checkpoint & best & train_cfg & arch & sd & wrapper
        & transforms & data_loader & writer & before
        & Hcopy & Hs' & _ & Hload & (sb & sc & Hcheck & Hsb) & _ & _ & _ & _ & _ & _
        & (sw & se & Hw & Hsw) & Hev & Hnw & ->).
  apply check_score_ok in Hcheck as (mb & thr & Hmb & Hthr & Hlt & -> & _).
  apply build_h5_writer_ok in Hw as (name & kw & -> & Hscore & _).
  exists checkpoint, mb, thr.
  split; [exact Hload|].
  split; [rewrite (peek_heap sb) by congruence; exact Hmb|].
  split; [rewrite (peek_heap sb) by congruence; exact Hthr|].
  split; [exact Hlt|].
  intros w o Hin. rewrite Hev in Hin.
  apply elem_of_app in Hin as [Hin|Hin].
  - exfalso. rewrite forallb_forall in Hnw.
    apply list_elem_of_In, Hnw in Hin. discriminate Hin.
  - apply elem_of_app in Hin as [Hin|Hin].
    + apply list_elem_of_fmap in Hin as (data & Heq & _). injection Heq as -> _.
      eauto.
    + apply list_elem_of_singleton in Hin. discriminate Hin.
Qed.

End InferenceTrace.

Lemma inference_writes_each_batch_witness :
  exists dv wrapper checkpoint train_cfg sd arch transforms data_loader name kw
         before,
    let s' := (inference_run batches_env inference_manager "saved/sgd/checkpoint.pth"
                 demo_state).1 in
    let device := inference_setup_device dv in
    let tta_model :=
      Method (To (New tta wrapper [LoadStateDict arch sd; flips]
                    {[ "merge_mode" := OVal (VStr "mean") ]}) device) "eval" [] in
    let writer := New h5 name [] kw in
    peek s' (cfg inference_manager) "device" = Some dv
    /\ peek s' (cfg inference_manager) "tta" = Some (VStr wrapper)
    /\ peek s' (cfg inference_manager) "write" = Some (VStr name)
    /\ torch_load batches_env "saved/sgd/checkpoint.pth" = Ok checkpoint
    /\ peek s' checkpoint "config" = Some train_cfg
    /\ peek s' checkpoint "state_dict" = Some sd
    /\ instance_of s' module_arch "arch" train_cfg [] arch
    /\ instance_of s' module_aug "augmentation" train_cfg [] transforms
    /\ instance_of s' module_data "data_loader" (cfg inference_manager) [transforms]
         data_loader
    /\ new_events demo_state s'
       = before
         ++ writes tta_model writer device (batches batches_env data_loader)
         ++ [EvLogObj Info (Method writer "close" [])]
    /\ forallb no_write before = true
    /\ VNone = VNone.
Proof.
  refine (inference_writes_each_batch batches_env inference_manager
            "saved/sgd/checkpoint.pth" demo_state
            (inference_run batches_env inference_manager "saved/sgd/checkpoint.pth"
               demo_state).1 VNone _).
  vm_compute. reflexivity.
Defined.

Lemma written_score_passed_check_witness :
  exists checkpoint mb thr,
    torch_load batches_env "saved/sgd/checkpoint.pth" = Ok checkpoint
    /\ peek (inference_run batches_env inference_manager "saved/sgd/checkpoint.pth"
               demo_state).1 checkpoint "monitor_best" = Some mb
    /\ peek (inference_run batches_env inference_manager "saved/sgd/checkpoint.pth"
               demo_state).1 (cfg inference_manager) "score_threshold" = Some thr
    /\ py_lt (unwrap mb) thr = Ok false
    /\ forall writer output,
         EvWrite writer output
         ∈ new_events demo_state
             (inference_run batches_env inference_manager "saved/sgd/checkpoint.pth"
                demo_state).1 ->
         exists name kw,
           writer = New h5 name [] kw /\ kw !! "score" = Some (OVal (unwrap mb)).
Proof.
  refine (written_score_passed_check batches_env inference_manager
            "saved/sgd/checkpoint.pth" demo_state
            (inference_run batches_env inference_manager "saved/sgd/checkpoint.pth"
               demo_state).1 VNone _).
  vm_compute. reflexivity.
Defined.

Section TrainingTrace.

Variable E : env.

#[local] Hint Resolve metric_handles_adds : respect.

(** X14. A training run that returns has trained once. The run hands
    one trainer to [train], as the last thing it does before logging
    that training is completed, and returns what [train] returned; the
    trainer is given the copy of the configuration that the run made,
    not the dict of the manager. *)
Theorem training_trains_once (self : manager) (resume : option string)
    (s s' : state) (v : value) :
  training_run E self resume s = (s', Ok v) ->
  exists before trainer args kwargs,
    new_events s s' = before ++ [EvTrain trainer; training_completed]
    /\ forallb no_train before = true
    /\ train_result E trainer = Ok v
    /\ trainer = New "uco.trainer" "Trainer" args kwargs
    /\ kwargs !! "config" = Some (OVal (VRef (fresh (dom (heap s))))).
Proof.
  intros H. unfold training_run in H.
  pose proof (adds_only_refl no_train s) as Hacc.
  apply bind_ok in H as (cfg & s1 & Hcopy & H).
  pose proof (adds_step _ _ _ _ _ _ Hacc (dict_copy_adds _ _) Hcopy) as Hacc1.
  clear Hacc. rename Hacc1 into Hacc.
  apply dict_copy_inv in Hcopy as (l0 & d0 & _ & _ & -> & _).
  do 18 (let a := fresh "a" in
         let s2 := fresh "s" in
         let Hs := fresh "Hs" in
         let Ha := fresh "Ha" in
         let Hm := fresh "Hm" in
         apply bind_ok in H as (a & s2 & Hs & H);
         match type of Hs with
         | ?m _ = _ =>
             assert (Hm : respects (adds_only no_train) m)
               by adds_steps no_train
         end;
         pose proof (adds_step _ _ _ _ _ _ Hacc Hm Hs) as Ha;
         clear Hacc Hm Hs; rename Ha into Hacc;
         repeat match type of H with
                | (match ?x with _ => _ end) _ = _ => destruct x
                end).
  unfold mbind at 1 in H. rewrite emit_logged in H.
  apply bind_ok in H as (dir & st & Htrain & H). apply lift_ok in Htrain as [-> Htrain].
  unfold mbind, emit, ret in H. inversion H; subst. clear H.
  destruct Hacc as (before & Htr & Hnt).
  exists before. do 3 eexists.
  split; [|split; [exact Hnt|split; [exact Htrain|split; [reflexivity|]]]].
  - unfold new_events, logged. cbn [trace]. rewrite Htr.
    rewrite <- !app_assoc. rewrite drop_app_length. reflexivity.
  - vm_compute. reflexivity.
Qed.

(** X15. The inference manager selects a CUDA device before it reads
    anything. With a configuration whose ["device"] is [None] or
    ["cpu"], the first thing a run does is to call
    [torch.cuda.set_device] on the CPU device; when that call raises,
    the run raises the same and has done nothing else. *)
Theorem cpu_inference_sets_cuda_device (self : manager) (model_checkpoint : string)
    (s s' : state) (r : result value) (dv : value) :
  peek s (cfg self) "device" = Some dv ->
  dv = VNone \/ dv = VStr "cpu" ->
  inference_run E self model_checkpoint s = (s', r) ->
  (exists rest, new_events s s' = EvSetCudaDevice Cpu :: rest)
  /\ (forall e, cuda_set_device_raises E Cpu = Some e ->
        r = Raise e /\ new_events s s' = [EvSetCudaDevice Cpu]).
Proof.
  intros Hdev Hcpu H. unfold inference_run in H.
  destruct (dict_copy_peek _ _ _ _ Hdev) as (l0 & d0 & Hself & Hl0 & Hcopy).
  unfold mbind at 1 in H. rewrite Hcopy in H.
  assert (Hd : peek (mkState (<[fresh (dom (heap s)) := d0]> (heap s)) (trace s))
                 (VRef (fresh (dom (heap s)))) "device" = Some dv).
  { unfold peek. cbn [heap]. rewrite lookup_insert_eq. cbn.
    rewrite Hself in Hdev. unfold peek in Hdev. rewrite Hl0 in Hdev. exact Hdev. }
  unfold mbind at 1 in H. rewrite (getitem_peek _ _ _ _ Hd) in H.
  assert (Hc : inference_setup_device dv = Cpu) by (destruct Hcpu as [->| ->]; reflexivity).
  rewrite Hc in H.
  unfold mbind at 1 in H. rewrite emit_logged in H.
  apply bind_inv in H as [(u & s1 & Hset & H)|(e & Hset & ->)].
  - destruct (cuda_set_device_raises E Cpu) as [e|] eqn:Hraise; [discriminate Hset|].
    unfold ret in Hset. inversion Hset; subst. clear Hset.
    assert (Hg : adds_only any_event
                   (logged (mkState (<[fresh (dom (heap s)) := d0]> (heap s)) (trace s))
                      [EvSetCudaDevice Cpu]) s').
    { revert H.
      match goal with
      | |- ?m _ = _ -> _ =>
          assert (Hm : respects (adds_only any_event) m); [|apply Hm]
      end.
      assert (Hloop : forall t w d items,
                 respects (adds_only any_event) (inference_loop t w d items)).
      { intros t w d items. induction items; cbn [inference_loop];
          adds_steps any_event. }
      repeat autounfold with managers.
      repeat first [ apply Hloop
                   | progress respect_steps (adds_only_refl any_event)
                                (adds_only_trans any_event) ]. }
    destruct Hg as (evs & Htr & _). split; [|intros e He; discriminate He].
    exists evs. unfold new_events. rewrite Htr. cbn [logged trace].
    rewrite <- app_assoc. rewrite drop_app_length. reflexivity.
  - destruct (cuda_set_device_raises E Cpu) as [e'|] eqn:Hraise; [|discriminate Hset].
    unfold raise in Hset. inversion Hset; subst. clear Hset. split.
    + exists []. apply new_events_logged. reflexivity.
    + intros e0 He0. injection He0 as <-. split; [reflexivity|].
      apply new_events_logged. reflexivity.
Qed.

End TrainingTrace.

Lemma training_trains_once_witness :
  exists before trainer args kwargs,
    new_events demo_state
      (training_run (demo_env 0) training_manager None demo_state).1
    = before ++ [EvTrain trainer; training_completed]
    /\ forallb no_train before = true
    /\ train_result (demo_env 0) trainer = Ok (VStr "saved")
    /\ trainer = New "uco.trainer" "Trainer" args kwargs
    /\ kwargs !! "config" = Some (OVal (VRef (fresh (dom (heap demo_state))))).
Proof.
  refine (training_trains_once (demo_env 0) training_manager None demo_state
            (training_run (demo_env 0) training_manager None demo_state).1
            (VStr "saved") _).
  vm_compute. reflexivity.
Defined.

Lemma cpu_inference_sets_cuda_device_witness :
  (exists rest,
      new_events demo_state
        (inference_run (demo_env 0) inference_manager "saved/sgd/checkpoint.pth"
           demo_state).1
      = EvSetCudaDevice Cpu :: rest)
  /\ (forall e, cuda_set_device_raises (demo_env 0) Cpu = Some e ->
        (inference_run (demo_env 0) inference_manager "saved/sgd/checkpoint.pth"
           demo_state).2 = Raise e
        /\ new_events demo_state
             (inference_run (demo_env 0) inference_manager "saved/sgd/checkpoint.pth"
                demo_state).1
           = [EvSetCudaDevice Cpu]).
Proof.
  refine (cpu_inference_sets_cuda_device (demo_env 0) inference_manager
            "saved/sgd/checkpoint.pth" demo_state
            (inference_run (demo_env 0) inference_manager "saved/sgd/checkpoint.pth"
               demo_state).1
            (inference_run (demo_env 0) inference_manager "saved/sgd/checkpoint.pth"
               demo_state).2
            VNone _ _ _).
  - vm_compute. reflexivity.
  - left. reflexivity.
  - apply surjective_pairing.
Defined.

(* ===================================================================== *)
(** * Further properties of the metrics                                   *)
(* ===================================================================== *)

Section ConfusionClasses.





End ConfusionClasses.


Section DiceChannels.

Lemma dice_c_out_of_range (c : Z) (output targets : tensor f32) (threshold : num)
    (B C H W : nat) :
  shape targets = [B; C; H; W] -> shape output = [B; C; H; W] ->
  (0 < B)%nat -> ~ (- Z.of_nat C <= c < Z.of_nat C) ->
  dice_c c output targets threshold = Raise IndexError.
Proof.
  intros Ht Ho HB Hc. unfold dice_c, size4. rewrite Ht. cbn [Py.bind].
  destruct B as [|B]; [lia|]. cbn [seq dice_loop].
  unfold index_bc at 1. rewrite Ho.
  assert (norm_index (Z.of_nat 0) (S B) = Ok 0%nat) as ->.
  { unfold norm_index. rewrite decide_True by lia. reflexivity. }
  cbn [Py.bind].
  assert (norm_index c C = Raise IndexError) as ->.
  { unfold norm_index. rewrite !decide_False by lia. reflexivity. }
  reflexivity.
Qed.

Lemma dice_c_scalar (c : Z) (output targets : tensor f32) (threshold : num)
    (B C H W : nat) :
  shape targets = [B; C; H; W] -> shape output = [B; C; H; W] ->
  well_formed output -> well_formed targets ->
  planes_viewable output = true -> planes_viewable targets = true ->
  (0 < B)%nat -> - Z.of_nat C <= c < Z.of_nat C ->
  exists x, dice_c c output targets threshold = Ok (Scalar x).
Proof.
  intros Ht Ho Hwo Hwt Hvo Hvt HB Hc. unfold dice_c, size4. rewrite Ht. cbn [Py.bind].
  destruct (dice_loop_scalar c output targets threshold B C H W (seq 0 B)
              (PyFloat lit_0_0)) as [x ->]; try assumption.
  - unfold well_formed, numel in Hwo, Hwt. rewrite Hwo, Hwt, Ho, Ht. reflexivity.
  - apply Forall_forall. intros b Hb. apply elem_of_seq in Hb. lia.
  - intros Hnil. destruct B; [lia|discriminate Hnil].
  - cbn [Py.bind num_truediv]. eexists; reflexivity.
Qed.

(** X17. [dice_mean] is the mean over the classes 0 to 3, whatever the
    number of classes of the tensors. On a batch that is not empty, of
    tensors of one size whose slices [view] accepts, with fewer than
    four classes it raises [IndexError]; with four or more it returns a
    tensor scalar, and the classes from 4 on play no part. *)
Theorem dice_mean_needs_four_classes (output targets : tensor f32) (threshold : num)
    (B C H W : nat) :
  shape targets = [B; C; H; W] -> shape output = [B; C; H; W] ->
  well_formed output -> well_formed targets ->
  planes_viewable output = true -> planes_viewable targets = true ->
  (0 < B)%nat ->
  ((C < 4)%nat -> dice_mean output targets threshold = Raise IndexError)
  /\ ((4 <= C)%nat ->
      exists d0 d1 d2 d3,
        dice_c 0 output targets threshold = Ok (Scalar d0)
        /\ dice_c 1 output targets threshold = Ok (Scalar d1)
        /\ dice_c 2 output targets threshold = Ok (Scalar d2)
        /\ dice_c 3 output targets threshold = Ok (Scalar d3)
        /\ dice_mean output targets threshold
           = Ok (Scalar (f32_div (f32_add (f32_add (f32_add d0 d1) d2) d3)
                           (f32_of_Z 4)))).
Proof.
  intros Ht Ho Hwo Hwt Hvo Hvt HB.
  assert (Hin : forall c, - Z.of_nat C <= c < Z.of_nat C ->
                  exists x, dice_c c output targets threshold = Ok (Scalar x))
    by (intros c Hc; eapply dice_c_scalar; eassumption).
  assert (Hout : forall c, ~ (- Z.of_nat C <= c < Z.of_nat C) ->
                   dice_c c output targets threshold = Raise IndexError)
    by (intros c Hc; eapply dice_c_out_of_range; eassumption).
  unfold dice_mean, dice_0, dice_1, dice_2, dice_3. split.
  - intros HC.
    destruct C as [|[|[|[|C]]]]; [| | | |lia].
    + rewrite (Hout 0) by lia. reflexivity.
    + destruct (Hin 0) as [x0 ->]; [lia|]. rewrite (Hout 1) by lia. reflexivity.
    + destruct (Hin 0) as [x0 ->]; [lia|]. destruct (Hin 1) as [x1 ->]; [lia|].
      rewrite (Hout 2) by lia. reflexivity.
    + destruct (Hin 0) as [x0 ->]; [lia|]. destruct (Hin 1) as [x1 ->]; [lia|].
      destruct (Hin 2) as [x2 ->]; [lia|]. rewrite (Hout 3) by lia. reflexivity.
  - intros HC.
    destruct (Hin 0) as [x0 H0]; [lia|]. destruct (Hin 1) as [x1 H1]; [lia|].
    destruct (Hin 2) as [x2 H2]; [lia|]. destruct (Hin 3) as [x3 H3]; [lia|].
    exists x0, x1, x2, x3. rewrite H0, H1, H2, H3. repeat split; reflexivity.
Qed.

End DiceChannels.

Lemma dice_mean_needs_four_classes_witness :
  dice_mean ex_output ex_targets default_threshold = Raise IndexError
  /\ exists d0 d1 d2 d3,
       dice_c 0 ex_four ex_four default_threshold = Ok (Scalar d0)
       /\ dice_c 1 ex_four ex_four default_threshold = Ok (Scalar d1)
       /\ dice_c 2 ex_four ex_four default_threshold = Ok (Scalar d2)
       /\ dice_c 3 ex_four ex_four default_threshold = Ok (Scalar d3)
       /\ dice_mean ex_four ex_four default_threshold
          = Ok (Scalar (f32_div (f32_add (f32_add (f32_add d0 d1) d2) d3)
                          (f32_of_Z 4))).
Proof.
  split.
  - refine (proj1 (dice_mean_needs_four_classes ex_output ex_targets default_threshold
                     1%nat 2%nat 1%nat 2%nat _ _ _ _ _ _ _) _);
      first [reflexivity | lia].
  - refine (proj2 (dice_mean_needs_four_classes ex_four ex_four default_threshold
                     1%nat 4%nat 1%nat 1%nat _ _ _ _ _ _ _) _);
      first [reflexivity | lia].
Defined.

Section FloatQuotients.

(** A finite value divided by itself, before rounding. *)
Lemma div_core_self (prec emax : Z) (p M : positive) (E : Z) :
  prec = Z.pos p -> 3 <= emax ->
  SFdiv_core_binary prec emax (Z.pos M) E (Z.pos M) E
  = (2 ^ Z.pos p, - prec, loc_Exact).
Proof.
  intros Hp He. unfold SFdiv_core_binary, fexp, emin.
  replace (Zdigits2 (Z.pos M) + E - (Zdigits2 (Z.pos M) + E)) with 0 by lia.
  replace (Z.min (Z.max (0 - prec) (3 - emax - prec)) (E - E)) with (- prec) by lia.
  replace (E - E - - prec) with (Z.pos p) by lia.
  cbv iota beta.
  rewrite Z.shiftl_mul_pow2 by lia.
  assert (Hq : Z.div_eucl (Z.pos M * 2 ^ Z.pos p) (Z.pos M) = (2 ^ Z.pos p, 0)).
  { pose proof (Z.div_mul (2 ^ Z.pos p) (Z.pos M) ltac:(lia)) as Hd.
    pose proof (Z.mod_mul (2 ^ Z.pos p) (Z.pos M) ltac:(lia)) as Hm.
    rewrite (Z.mul_comm (Z.pos M)).
    unfold Z.div, Z.modulo in Hd, Hm.
    destruct (Z.div_eucl (2 ^ Z.pos p * Z.pos M) (Z.pos M)) as [q r].
    cbn in Hd, Hm. subst. reflexivity. }
  rewrite Hq. f_equal.
  unfold new_location, new_location_even, new_location_odd.
  destruct (Z.even (Z.pos M)); reflexivity.
Qed.

Lemma f64_div_self (s : bool) (M : positive) (E : Z) :
  f64_div (S754_finite s M E) (S754_finite s M E) = f64_one.
Proof.
  unfold f64_div, SFdiv.
  rewrite (div_core_self prec64 emax64 53 M E) by (reflexivity || (unfold emax64; lia)).
  rewrite xorb_nilpotent. vm_compute. reflexivity.
Qed.

Lemma f32_div_self (s : bool) (M : positive) (E : Z) :
  f32_div (S754_finite s M E) (S754_finite s M E) = f32_one.
Proof.
  unfold f32_div, SFdiv.
  rewrite (div_core_self prec32 emax32 24 M E) by (reflexivity || (unfold emax32; lia)).
  rewrite xorb_nilpotent. vm_compute. reflexivity.
Qed.

End FloatQuotients.

Section Float64Counts.

(** A 53-digit mantissa with an exponent in range is kept as it is. *)
Lemma round_aux_canonical64 (s : bool) (M : positive) (E : Z) :
  Z.pos (digits2_pos M) = 53 -> -1074 <= E <= 971 ->
  binary_round_aux prec64 emax64 s (Z.pos M) E loc_Exact = S754_finite s M E.
Proof.
  intros Hd HE. unfold binary_round_aux, shr_fexp, fexp, emin, prec64, emax64.
  cbn [Zdigits2 shr_record_of_loc]. rewrite Hd.
  replace (Z.max (53 + E - 53) (3 - 1024 - 53) - E) with 0 by lia.
  cbn [shr shr_m loc_of_shr_record round_nearest_even Zdigits2]. rewrite Hd.
  replace (Z.max (53 + E - 53) (3 - 1024 - 53) - E) with 0 by lia.
  cbn [shr shr_m]. rewrite (proj2 (Z.leb_le _ _)) by lia. reflexivity.
Qed.

Lemma round_shift_left64 (s : bool) (m : positive) (a : nat) (e : Z) :
  Z.pos (digits2_pos m) + Z.of_nat a = 53 -> -1074 <= e - Z.of_nat a <= 971 ->
  binary_round prec64 emax64 s m e = S754_finite s (pshl m a) (e - Z.of_nat a).
Proof.
  intros Hd He. unfold binary_round, shl_align, fexp, emin, prec64, emax64.
  replace (Z.max (Z.pos (digits2_pos m) + e - 53) (3 - 1024 - 53) - e)
    with (- Z.of_nat a) by lia.
  destruct a as [|a].
  - change (Z.of_nat 0) with 0 in *. cbn [Z.opp]. rewrite Z.sub_0_r.
    unfold pshl; cbn [Nat.iter nat_rect]. apply round_aux_canonical64; lia.
  - change (- Z.of_nat (S a)) with (Z.neg (Pos.of_succ_nat a)). cbv iota beta.
    rewrite pos_iter_pshl, SuccNat2Pos.id_succ.
    replace (Z.max (Z.pos (digits2_pos m) + e - 53) (3 - 1024 - 53))
      with (e - Z.of_nat (S a)) by lia.
    apply round_aux_canonical64; [rewrite pshl_digits|]; lia.
Qed.

Lemma digits_le (n : positive) (d : Z) :
  0 <= d -> Z.pos n < 2 ^ d -> Z.pos (digits2_pos n) <= d.
Proof.
  intros Hd Hn. destruct (digits_bounds n) as [Hlo _].
  destruct (Z.le_gt_cases (Z.pos (digits2_pos n)) d) as [H|H]; [exact H|].
  exfalso.
  assert (2 ^ d <= 2 ^ (Z.pos (digits2_pos n) - 1)) by (apply Z.pow_le_mono_r; lia).
  lia.
Qed.

(** The Python float of a positive count below [2^53] is a finite
    positive value. *)
Lemma f64_of_pos_finite (n : positive) :
  Z.pos n < 2 ^ 53 -> exists M E, f64_of_Z (Z.pos n) = S754_finite false M E.
Proof.
  intros Hn. pose proof (digits_le n 53 ltac:(lia) Hn) as Hd.
  set (a := Z.to_nat (53 - Z.pos (digits2_pos n))).
  assert (Ha : Z.of_nat a = 53 - Z.pos (digits2_pos n)) by (unfold a; lia).
  exists (pshl n a), (- Z.of_nat a).
  unfold f64_of_Z, binary_normalize.
  rewrite (round_shift_left64 false n a 0) by lia. reflexivity.
Qed.

(** [a / (a + b)] at its two ends. *)
Lemma ratio_one (a : Z) : 0 < a < 2 ^ 53 -> ratio a 0 = PyFloat f64_one.
Proof.
  intros Ha. unfold ratio. destruct a as [|a|a]; try lia.
  change ((Z.pos a =? 0) && (0 =? 0)) with false. cbv iota. rewrite Z.add_0_r.
  destruct (f64_of_pos_finite a) as (M & E & ->); [lia|].
  rewrite f64_div_self. reflexivity.
Qed.

Lemma ratio_zero (b : Z) : 0 < b < 2 ^ 53 -> ratio 0 b = PyFloat f64_zero.
Proof.
  intros Hb. unfold ratio. destruct b as [|b|b]; try lia.
  change ((0 =? 0) && (Z.pos b =? 0)) with false. cbv iota. rewrite Z.add_0_l.
  destruct (f64_of_pos_finite b) as (M & E & ->); [lia|]. reflexivity.
Qed.

(** X18. The two ends of [precision] and [recall]. When there are true
    positives and no false positives, [precision] is exactly the float
    [1.0]; when there are false positives and no true positive it is
    exactly [0.0]; and the same for [recall] with the false negatives.
    So a perfect score comes as the float [1.0] when something was
    predicted, and as the int [1] when nothing was. The counts are taken
    below [2^53]. *)
Theorem precision_recall_ends (output targets : tensor f32) (class_ : Z)
    (threshold : num) (sel tgt : tensor f32) (tp fp tn fn : Z) :
  select_dim1 output class_ = Ok sel ->
  select_dim1 targets class_ = Ok tgt ->
  _confusion (float (gt_scalar sel threshold)) tgt = Ok (tp, fp, tn, fn) ->
  tp < 2 ^ 53 -> fp < 2 ^ 53 -> fn < 2 ^ 53 ->
  (0 < tp -> fp = 0 ->
     precision output targets class_ threshold = Ok (PyFloat f64_one))
  /\ (tp = 0 -> 0 < fp ->
      precision output targets class_ threshold = Ok (PyFloat f64_zero))
  /\ (0 < tp -> fn = 0 ->
      recall output targets class_ threshold = Ok (PyFloat f64_one))
  /\ (tp = 0 -> 0 < fn ->
      recall output targets class_ threshold = Ok (PyFloat f64_zero)).
Proof.
  intros Ho Ht Hc Htp Hfp Hfn.
  destruct (precision_unfold _ _ _ _ _ _ _ _ _ _ Ho Ht Hc) as [-> ->].
  repeat split.
  - intros H ->. rewrite ratio_one by lia. reflexivity.
  - intros -> H. rewrite ratio_zero by lia. reflexivity.
  - intros H ->. rewrite ratio_one by lia. reflexivity.
  - intros -> H. rewrite ratio_zero by lia. reflexivity.
Qed.

End Float64Counts.

Lemma precision_recall_ends_witness :
  precision ex_output ex_targets 0 default_threshold = Ok (PyFloat f64_one).
Proof.
  refine (proj1 (precision_recall_ends ex_output ex_targets 0 default_threshold
                   (mkStrided [1; 1; 2]%nat [4; 2; 1]%nat [f32_of_f64 lit_0_80; f32_of_f64 lit_0_30])
                   (mkStrided [1; 1; 2]%nat [4; 2; 1]%nat [f32_one; f32_one]) 1 0 0 1 _ _ _ _ _ _)
            _ _);
    first [reflexivity | vm_compute; reflexivity].
Defined.

Section Float32Rounding.

Lemma shr_1_nonneg (X : Z) (r s : bool) :
  0 <= X ->
  shr_1 (Build_shr_record X r s) = Build_shr_record (Z.div2 X) (Z.odd X) (r || s).
Proof.
  intros HX. destruct X as [|[p|p|]|p]; try reflexivity. lia.
Qed.

(** Shifting out [k] bits of which the highest is zero: the kept part is
    exact or rounded down. *)
Lemma shr_low (k : nat) (A low : Z) (r s : bool) :
  (1 <= k)%nat -> 0 <= A -> 0 <= low < 2 ^ (Z.of_nat k - 1) ->
  Nat.iter k shr_1 (Build_shr_record (A * 2 ^ Z.of_nat k + low) r s)
  = Build_shr_record A false (negb (low =? 0) || (r || s)).
Proof.
  intros Hk HA. revert low r s.
  induction k as [|k IH]; [lia|]. intros low r s Hlow.
  rewrite Nat.iter_succ_r.
  assert (Hpow : 2 ^ Z.of_nat (S k) = 2 * 2 ^ Z.of_nat k)
    by (rewrite Nat2Z.inj_succ, Z.pow_succ_r by lia; reflexivity).
  assert (Hp : 0 < 2 ^ Z.of_nat k) by (apply Z.pow_pos_nonneg; lia).
  rewrite shr_1_nonneg by nia.
  pose proof (Z.div2_odd low) as Hdo.
  assert (Hd2 : Z.div2 (A * 2 ^ Z.of_nat (S k) + low)
                = A * 2 ^ Z.of_nat k + Z.div2 low).
  { rewrite !Z.div2_div. rewrite Hpow.
    replace (A * (2 * 2 ^ Z.of_nat k) + low) with (low + A * 2 ^ Z.of_nat k * 2) by lia.
    rewrite Z.div_add by lia. lia. }
  assert (Hodd : Z.odd (A * 2 ^ Z.of_nat (S k) + low) = Z.odd low).
  { rewrite Hpow. replace (A * (2 * 2 ^ Z.of_nat k) + low)
      with (low + 2 * (A * 2 ^ Z.of_nat k)) by lia.
    apply Z.odd_add_mul_2. }
  rewrite Hd2, Hodd.
  destruct k as [|k].
  - (* one bit: [low = 0] *)
    change (Z.of_nat 1 - 1) with 0 in Hlow. change (2 ^ 0) with 1 in Hlow.
    assert (low = 0) as -> by lia.
    cbn. rewrite Z.mul_1_r, Z.add_0_r. reflexivity.
  - assert (Hl2 : 0 <= Z.div2 low < 2 ^ (Z.of_nat (S k) - 1)).
    { replace (Z.of_nat (S (S k)) - 1) with (Z.succ (Z.of_nat (S k) - 1)) in Hlow by lia.
      rewrite Z.pow_succ_r in Hlow by lia.
      destruct (Z.odd low); cbn [Z.b2z] in Hdo; lia. }
    rewrite (IH ltac:(lia) (Z.div2 low) (Z.odd low) (r || s) Hl2).
    f_equal.
    destruct (Z.odd low) eqn:Ho; cbn [Z.b2z] in Hdo.
    + assert ((low =? 0) = false) as -> by (apply Z.eqb_neq; lia).
      cbn. rewrite orb_true_r. reflexivity.
    + assert ((Z.div2 low =? 0) = (low =? 0)) as ->.
      { destruct (Z.eqb_spec (Z.div2 low) 0), (Z.eqb_spec low 0); try reflexivity; lia. }
      reflexivity.
Qed.

Lemma digits_unique (n : positive) (d : Z) :
  2 ^ (d - 1) <= Z.pos n < 2 ^ d -> Z.pos (digits2_pos n) = d.
Proof.
  intros [Hlo Hhi]. destruct (digits_bounds n) as [Dlo Dhi].
  assert (Hd : 0 < d).
  { destruct (Z.lt_ge_cases 0 d) as [H|H]; [exact H|].
    exfalso. destruct (Z.eq_dec d 0) as [->|Hn]; [cbn in Hhi; lia|].
    rewrite Z.pow_neg_r in Hhi by lia. lia. }
  destruct (Z.lt_trichotomy (Z.pos (digits2_pos n)) d) as [H|[H|H]]; [|exact H|].
  - exfalso.
    assert (2 ^ Z.pos (digits2_pos n) <= 2 ^ (d - 1)) by (apply Z.pow_le_mono_r; lia).
    lia.
  - exfalso.
    assert (2 ^ d <= 2 ^ (Z.pos (digits2_pos n) - 1)) by (apply Z.pow_le_mono_r; lia).
    lia.
Qed.

End Float32Rounding.

Section Float32Exact.

(** The float32 image of a positive count up to [2^24]: a 24-digit
    mantissa, and the same value from the count scaled by a power of two. *)
Lemma f32_form (n : positive) :
  Z.pos n <= 2 ^ 24 ->
  exists M E,
    f32_of_Z (Z.pos n) = S754_finite false M E
    /\ Z.pos (digits2_pos M) = 24 /\ -23 <= E <= 1
    /\ forall k : nat, (k <= 23)%nat ->
         binary_round prec32 emax32 false (pshl n k) (- Z.of_nat k)
         = S754_finite false M E.
Proof.
  intros Hn. destruct (Z.eq_dec (Z.pos n) (2 ^ 24)) as [Heq|Hne].
  - assert (n = 16777216%positive) as -> by (apply Pos2Z.inj; rewrite Heq; reflexivity).
    exists 8388608%positive, 1.
    split; [vm_compute; reflexivity|]. split; [reflexivity|]. split; [lia|].
    intros k Hk.
    change 16777216%positive with (pshl 8388608 1). rewrite pshl_add.
    rewrite (round_shift_right false 8388608 (1 + k) (- Z.of_nat k)); [|reflexivity|lia|lia].
    f_equal. lia.
  - assert (Hlt : Z.pos n < 2 ^ 24) by lia.
    pose proof (digits_le_24 n Hlt) as Hd.
    set (a := Z.to_nat (24 - Z.pos (digits2_pos n))).
    assert (Ha : Z.of_nat a = 24 - Z.pos (digits2_pos n)) by (unfold a; lia).
    exists (pshl n a), (- Z.of_nat a).
    split; [|split; [|split]].
    + unfold f32_of_Z, binary_normalize.
      rewrite (round_shift_left false n a 0) by lia. reflexivity.
    + rewrite pshl_digits. lia.
    + lia.
    + intros k Hk. destruct (Nat.le_gt_cases k a) as [Hka|Hka].
      * rewrite (round_shift_left false (pshl n k) (a - k) (- Z.of_nat k)).
        -- rewrite pshl_add. replace (k + (a - k))%nat with a by lia. f_equal. lia.
        -- rewrite pshl_digits. lia.
        -- lia.
      * replace k with (a + (k - a))%nat at 1 by lia. rewrite <- pshl_add.
        rewrite (round_shift_right false (pshl n a) (k - a) (- Z.of_nat k)).
        -- f_equal. lia.
        -- rewrite pshl_digits. lia.
        -- lia.
        -- lia.
Qed.

Lemma shl_align_pshl (n : positive) (i k : nat) :
  (i <= k)%nat ->
  fst (shl_align (pshl n i) (- Z.of_nat i) (- Z.of_nat k)) = pshl n k.
Proof.
  intros Hik. unfold shl_align.
  destruct (- Z.of_nat k - - Z.of_nat i) as [|d|d] eqn:Hd; cbn [fst].
  - f_equal. lia.
  - lia.
  - rewrite pos_iter_pshl, pshl_add. f_equal. lia.
Qed.

(** Counts add exactly as long as the sum is at most [2^24]. *)
Lemma f32_add_counts (a b : Z) :
  0 <= a -> 0 <= b -> a + b <= 2 ^ 24 ->
  f32_add (f32_of_Z a) (f32_of_Z b) = f32_of_Z (a + b).
Proof.
  intros Ha Hb Hab.
  destruct a as [|a|a]; [|destruct b as [|b|b]|]; try lia.
  - destruct b as [|b|b]; try lia; [reflexivity|].
    rewrite Z.add_0_l.
    destruct (f32_form b) as (M & E & -> & _); [lia|]. reflexivity.
  - rewrite Z.add_0_r. destruct (f32_form a) as (M & E & -> & _); [lia|]. reflexivity.
  - destruct (f32_of_pos_exact a) as (Ma & Ea & -> & _ & Hfa); [lia|].
    destruct Hfa as (ia & Hia & -> & ->); [lia|].
    destruct (f32_of_pos_exact b) as (Mb & Eb & -> & _ & Hfb); [lia|].
    destruct Hfb as (ib & Hib & -> & ->); [lia|].
    destruct (f32_form (a + b)) as (M & E & HM & _ & _ & Hsc); [lia|].
    change (Z.pos a + Z.pos b) with (Z.pos (a + b)). rewrite HM.
    unfold f32_add, SFadd.
    set (k := Nat.max ia ib).
    replace (Z.min (- Z.of_nat ia) (- Z.of_nat ib)) with (- Z.of_nat k) by lia.
    rewrite !shl_align_pshl by lia. cbn [cond_Zopp].
    replace (Z.pos (pshl a k) + Z.pos (pshl b k)) with (Z.pos (pshl (a + b) k)).
    + unfold binary_normalize. apply Hsc. lia.
    + rewrite !pshl_val, Pos2Z.inj_add. lia.
Qed.

(** Doubling is exact: [2.0 * x] is [x + x]. *)
Lemma f32_double (M : positive) (E : Z) :
  Z.pos (digits2_pos M) = 24 -> -127 <= E -> E + 1 <= 104 ->
  f32_mul (f32_of_f64 lit_2_0) (S754_finite false M E)
  = f32_add (S754_finite false M E) (S754_finite false M E).
Proof.
  intros Hd Hlo Hhi.
  assert (Hadd : f32_add (S754_finite false M E) (S754_finite false M E)
                 = S754_finite false M (E + 1)).
  { unfold f32_add, SFadd. rewrite Z.min_id. unfold shl_align. rewrite Z.sub_diag.
    cbn [fst cond_Zopp].
    replace (Z.pos M + Z.pos M) with (Z.pos (pshl M 1))
      by (change (pshl M 1) with (M~0)%positive; lia).
    unfold binary_normalize.
    rewrite (round_shift_right false M 1 E) by lia. reflexivity. }
  rewrite Hadd.
  change (f32_of_f64 lit_2_0) with (S754_finite false 8388608 (-22)).
  unfold f32_mul, SFmul. cbn [xorb].
  change (8388608 * M)%positive with (pshl M 23).
  pose proof (round_shift_right false M 23 (-22 + E) Hd ltac:(lia) ltac:(lia)) as Hr.
  unfold binary_round, shl_align, fexp, emin, prec32, emax32 in Hr.
  rewrite pshl_digits, Hd in Hr.
  replace (Z.max (24 + Z.of_nat 23 + (-22 + E) - 24) (3 - 128 - 24) - (-22 + E))
    with 23 in Hr by lia.
  cbv iota beta in Hr. unfold prec32, emax32. rewrite Hr. f_equal. lia.
Qed.

End Float32Exact.

Section DiceExact.

(** [eps] is below half a unit in the last place of every count: adding
    it changes nothing. *)
Lemma f32_add_eps (M : positive) (E : Z) :
  Z.pos (digits2_pos M) = 24 -> -23 <= E <= 1 ->
  f32_add (S754_finite false M E) eps32 = S754_finite false M E.
Proof.
  intros Hd HE.
  change eps32 with (S754_finite false 9007199 (-53)).
  unfold f32_add, SFadd.
  replace (Z.min E (-53)) with (-53) by lia.
  change (fst (shl_align 9007199 (-53) (-53))) with 9007199%positive.
  set (k := Z.to_nat (53 + E)).
  assert (Hk : Z.of_nat k = 53 + E) by (unfold k; lia).
  assert (Hal : fst (shl_align M E (-53)) = pshl M k).
  { unfold shl_align. destruct (-53 - E) as [|d|d] eqn:Hd'; cbn [fst]; try lia.
    rewrite pos_iter_pshl. f_equal. lia. }
  rewrite Hal. cbn [cond_Zopp].
  change (Z.pos (pshl M k) + 9007199) with (Z.pos (pshl M k + 9007199)).
  unfold binary_normalize.
  pose proof (digits_bounds M) as HM. rewrite Hd in HM.
  assert (Hpk : 2 ^ 30 <= 2 ^ Z.of_nat k) by (apply Z.pow_le_mono_r; lia).
  assert (Hval : Z.pos (pshl M k + 9007199) = Z.pos M * 2 ^ Z.of_nat k + 9007199)
    by (rewrite Pos2Z.inj_add, pshl_val; reflexivity).
  assert (Hdig : Z.pos (digits2_pos (pshl M k + 9007199)) = 24 + Z.of_nat k).
  { apply digits_unique. rewrite Hval.
    replace (24 + Z.of_nat k - 1) with (23 + Z.of_nat k) by lia.
    rewrite !Z.pow_add_r by lia.
    change (24 - 1) with 23 in HM. revert HM Hpk.
    generalize (2 ^ Z.of_nat k). change (2 ^ 23) with 8388608.
    change (2 ^ 24) with 16777216. change (2 ^ 30) with 1073741824.
    intros; nia. }
  destruct k as [|k']; [lia|].
  unfold binary_round, shl_align, fexp, emin, prec32, emax32.
  rewrite Hdig.
  replace (Z.max (24 + Z.of_nat (S k') + -53 - 24) (3 - 128 - 24) - -53)
    with (Z.pos (Pos.of_succ_nat k')) by lia.
  cbv iota beta.
  unfold binary_round_aux, shr_fexp, fexp, emin.
  cbn [Zdigits2 shr_record_of_loc]. rewrite Hdig.
  replace (Z.max (24 + Z.of_nat (S k') + -53 - 24) (3 - 128 - 24) - -53)
    with (Z.pos (Pos.of_succ_nat k')) by lia.
  cbn [shr]. rewrite iter_pos_nat, SuccNat2Pos.id_succ.
  rewrite Hval.
  rewrite (shr_low (S k') (Z.pos M) 9007199 false false); [|lia|lia|].
  2:{ split; [lia|].
      assert (2 ^ 29 <= 2 ^ (Z.of_nat (S k') - 1)) by (apply Z.pow_le_mono_r; lia).
      change (2 ^ 29) with 536870912 in *. lia. }
  cbn [Z.eqb negb orb shr_m loc_of_shr_record shr_r shr_s round_nearest_even Zdigits2].
  rewrite Hd.
  replace (Z.max (24 + (-53 + Z.pos (Pos.of_succ_nat k')) - 24) (3 - 128 - 24)
           - (-53 + Z.pos (Pos.of_succ_nat k'))) with 0 by lia.
  cbn [shr shr_m].
  rewrite (proj2 (Z.leb_le _ _)) by lia. f_equal. lia.
Qed.

Lemma card_zip_le_r (P T : list bool) : card (zip_with andb P T) <= card T.
Proof.
  revert T. induction P as [|a P IH]; intros [|b T]; cbn [zip_with];
    try (pose proof (card_nonneg (b :: T))); try (unfold card; cbn; lia).
  rewrite !card_cons. specialize (IH T). destruct a, b; cbn [andb]; lia.
Qed.

Lemma zip_andb_diag (P : list bool) : zip_with andb P P = P.
Proof.
  induction P as [|a P IH]; [reflexivity|]. cbn [zip_with]. rewrite IH.
  destruct a; reflexivity.
Qed.

Lemma dice_single_channel_counts (probability truth : tensor f32) (threshold : num) :
  let P := mask_above threshold probability in
  let T := mask_above (PyFloat lit_0_50) truth in
  viewable probability = true -> viewable truth = true ->
  length (data probability) = length (data truth) ->
  card P <= 2 ^ 24 -> card T <= 2 ^ 24 ->
  dice_single_channel probability truth threshold default_eps
  = Ok (Scalar (dice_formula (card (zip_with andb P T)) (card P) (card T))).
Proof.
  intros P T Hvp Hvt Hlen HP HT.
  rewrite dice_single_channel_viewed by assumption. cbn zeta. fold P. fold T.
  rewrite !fsum_mask; try assumption.
  - reflexivity.
  - pose proof (card_zip_le P T). lia.
Qed.

(** With a mask that is not empty, [eps] is rounded away. *)
Lemma dice_formula_exact (inter p t : Z) :
  0 <= inter -> inter <= p -> inter <= t -> 0 < p + t <= 2 ^ 24 ->
  dice_formula inter p t
  = f32_div (if inter =? 0 then eps32 else f32_of_Z (2 * inter)) (f32_of_Z (p + t)).
Proof.
  intros Hi Hip Hit Hpt. unfold dice_formula.
  fold default_eps. change (f32_of_f64 lit_1e_9) with eps32.
  rewrite (f32_add_counts p t) by lia.
  assert (Hden : f32_add (f32_of_Z (p + t)) eps32 = f32_of_Z (p + t)).
  { destruct (p + t) as [|n|n] eqn:Hn; try lia.
    destruct (f32_form n) as (M & E & -> & Hd & HE & _); [lia|].
    apply f32_add_eps; assumption. }
  rewrite Hden. f_equal.
  destruct inter as [|n|n]; try lia.
  - reflexivity.
  - change (Z.pos n =? 0) with false. cbv iota.
    destruct (f32_form n) as (M & E & HM & Hd & HE & _); [lia|].
    rewrite HM, f32_double by (assumption || lia). rewrite <- HM.
    rewrite f32_add_counts by lia.
    replace (Z.pos n + Z.pos n) with (2 * Z.pos n) by lia.
    change (2 * Z.pos n) with (Z.pos n~0).
    destruct (f32_form (n~0)) as (M' & E' & -> & Hd' & HE' & _); [lia|].
    apply f32_add_eps; assumption.
Qed.

(** X19. [eps] only matters for empty masks. On two tensors that can
    be viewed flat and have as many elements, with [P] the prediction
    above the threshold and [T] the truth above 0.5, not both empty and
    of at most [2^24] elements together, [dice_single_channel] is the
    float32 quotient [2 |P n T| / (|P| + |T|)] of the exact counts when
    the masks meet, with [eps] rounded away; it is [eps / (|P| + |T|)],
    and not zero, when they do not meet; and it is exactly [1] when the
    two masks are the same. *)
Theorem dice_exact_on_counts (probability truth : tensor f32) (threshold : num) :
  let P := mask_above threshold probability in
  let T := mask_above (PyFloat lit_0_50) truth in
  let inter := card (zip_with andb P T) in
  viewable probability = true -> viewable truth = true ->
  length (data probability) = length (data truth) ->
  0 < card P + card T -> card P + card T <= 2 ^ 24 ->
  dice_single_channel probability truth threshold default_eps
  = Ok (Scalar (f32_div (if inter =? 0 then eps32 else f32_of_Z (2 * inter))
                  (f32_of_Z (card P + card T))))
  /\ (P = T ->
      dice_single_channel probability truth threshold default_eps
      = Ok (Scalar f32_one)).
Proof.
  intros P T inter Hvp Hvt Hlen Hpos Hle.
  pose proof (card_nonneg P) as HP0. pose proof (card_nonneg T) as HT0.
  pose proof (card_nonneg (zip_with andb P T)) as HI0.
  pose proof (card_zip_le P T) as HIP. pose proof (card_zip_le_r P T) as HIT.
  assert (Hmain : dice_single_channel probability truth threshold default_eps
                  = Ok (Scalar (f32_div
                                  (if inter =? 0 then eps32 else f32_of_Z (2 * inter))
                                  (f32_of_Z (card P + card T))))).
  { rewrite (dice_single_channel_counts probability truth threshold Hvp Hvt Hlen)
      by (fold P T; lia).
    fold P T. rewrite dice_formula_exact by (fold inter; lia). reflexivity. }
  split; [exact Hmain|].
  intros HPT. rewrite Hmain. subst inter. rewrite <- HPT in *.
  rewrite zip_andb_diag.
  destruct (card P) as [|n|n] eqn:Hc; try lia.
  change (Z.pos n =? 0) with false. cbv iota.
  replace (Z.pos n + Z.pos n) with (2 * Z.pos n) by lia.
  change (2 * Z.pos n) with (Z.pos n~0).
  destruct (f32_form (n~0)) as (M & E & -> & _); [lia|].
  rewrite f32_div_self. reflexivity.
Qed.

End DiceExact.

Lemma dice_exact_on_counts_witness :
  dice_single_channel ex_prob ex_mask default_threshold default_eps
  = Ok (Scalar (f32_div (f32_of_Z (2 * 1)) (f32_of_Z (2 + 2))))
  /\ dice_single_channel ex_mask ex_mask default_threshold default_eps
     = Ok (Scalar f32_one).
Proof.
  split.
  - refine (proj1 (dice_exact_on_counts ex_prob ex_mask default_threshold _ _ _ _ _));
      first [reflexivity | vm_compute; congruence].
  - refine (proj2 (dice_exact_on_counts ex_mask ex_mask default_threshold _ _ _ _ _) _);
      first [reflexivity | vm_compute; congruence].
Defined.
